(* ===== verification/_CoqProject ===== *)
-Q . S2P
Prelude.v
JsString.v
Binary64.v
JsNumber.v
JsValue.v
UnitConverter.v
UriEncode.v
UriDecode.v
WeatherInfo.v
ProviderRequest.v
SearchSession.v
WebStorage.v
DarkMode.v
WeatherCard.v
App.v
PageView.v
