(* ===== verification/Prelude.v ===== *)
(** * A verification library for weatherInfo

    weatherInfo is a single-page React application: the user types a city,
    the app asks OpenWeatherMap for the current weather, converts Kelvin to
    Celsius and shows a card; a light/dark switch is remembered in
    [localStorage].  The logic lives in two React hooks, which the view
    components call:

    - [src/src/hooks/useweatherInfo.ts]: [toCelsius] (line 4) and the hook
      [useWeatherInfo] with its state triple [loading]/[data]/[error] and the
      asynchronous handler [fetchWeatherData] (lines 6-58): validation of the
      city, the API-key check, the request URL built with
      [encodeURIComponent], the mapping of HTTP statuses to messages, the
      normalisation of the provider's JSON and the [try/catch/finally] that
      clears [loading].
    - [src/src/hooks/useDarkMode.ts]: the hook [useDarkMode]: the lazy
      initial state read from [localStorage] or [matchMedia], the effect
      that sets the [dark] class on the document root and persists the flag,
      the listener on system colour-scheme changes, and [toggle].
    - [src/src/App.tsx], [components/SearchForm.tsx],
      [components/WeatherCard.tsx]: [handleSearch] trims the input and calls
      the hook; the form disables its button while loading or on a blank
      input; the card derives a temperature tier and rounded labels.

    ** Layout of the library (one file per component, in dependency order)

    - [Prelude] (this file): the scope [wi_scope] with the error-monad
      notation [x <- c ;; k] (a statement that may throw), the tactics
      [inv], [case_bool] and [nlia], the hint databases [wi] and [wi_rw],
      the reflexive-transitive closure [star] of a step relation with the
      rule-induction lemma [star_invariant], the bounded checker
      [forall_range] and list lemmas shared by the components.
    - [JsString]: JavaScript strings as lists of UTF-16 code units ([jstr]),
      the ECMAScript white-space set, [String.prototype.trim], truthiness of
      strings and [Number::toString] on non-negative integers.
    - [Binary64]: JavaScript numbers as IEEE-754 binary64 values on the
      Standard Library's [SpecFloat] (precision 53, exponent bound 1024):
      [-], [*], [/], [===], [>=], integer conversion and [Math.round] as
      ECMA-262 specifies it.
    - [JsNumber]: StringToNumber (ECMA-262 7.1.4.1.1), the conversion the
      subtraction of [toCelsius] applies to a string temperature: the
      grammar StringNumericLiteral as a scanner ([parse_str_numeric]:
      trimming, sign, [Infinity], digits, fraction, exponent, [0x]/[0o]/
      [0b]) and the value rounded to the nearest binary64 number, ties to
      even ([decimal_to_float], with SpecFloat's division core and
      rounding).
    - [JsValue]: the values [response.json()] yields, property reads (a
      [TypeError] on [undefined]/[null], [undefined] for a missing key),
      [ToNumber] on every value (on an array through the joined text); the
      class [JsEngine] holds what the language leaves to the engine (error
      texts, and StringToNumber, which may round digits beyond the 20th
      significant one), so every theorem holds for every engine, and
      [JsEngineLaws] states that StringToNumber is [JsNumber]'s on the
      literals all engines agree on; [v8_messages] is V8's instance, with
      its laws [v8_laws].
    - [UnitConverter]: [toCelsius] of useweatherInfo.ts line 4 and its exact
      specification (spec 4.1: round half up of the scaled value).
    - [UriEncode]: [encodeURIComponent] on UTF-16 code units (surrogate
      pairs, UTF-8, [%XX], [URIError] on a lone surrogate).
    - [UriDecode]: the reference decoder [decodeURIComponent] (ECMA-262
      Decode: [%XX] bytes, UTF-8 with its well-formedness checks, UTF-16),
      which the provider applies; not code of the repository.
    - [WeatherInfo]: the hook [useWeatherInfo]: the record [hook_state] of
      its three [useState]s, the handler [fetchWeatherData] cut at its two
      [await]s into the segments [fetchWeatherData], [resume_fetch] and
      [resume_json], the [try/catch/finally] as an [outcome] and [settle],
      [process_data] for lines 42-47, and [run_search] for one whole call.
    - [ProviderRequest]: the provider's reading of the request URL (query,
      [&]-separated parameters, first [q]), a reference definition.
    - [SearchSession]: several calls of the handler interleaved, as React
      runs them: a pool of suspended segments, the step relation
      [session_step], and [guarded_step], where a call starts only when
      [loading] is false and the city is not blank; [settle_by] settles
      the calls with given answers of the network per call.
    - [WebStorage]: the interface [Storage] of [localStorage] with its laws
      [StorageLaws] and the instance on a [gmap] with writable, read-only
      and blocked modes.
    - [DarkMode]: the hook [useDarkMode] over any [Storage]: the world (the
      store, the classes of the root element, [matchMedia]), mount (lazy
      initialiser, then the two effects in order), [toggle], system
      changes, writes of other tabs, unmount, as the event function
      [dm_step].
    - [WeatherCard]: the card's default props, the tier and the labels,
      and its markup: the icon and the badge of the tier, the aria-label
      (template literal ToString), the title and country as React
      children ([render_child]: an object throws), [render_card].
    - [App]: [handleSearch], the form's guard, the panels [App] renders,
      and the UI step relation [ui_step].
    - [PageView]: the page as [App] renders it ([render_page]): the search
      form of SearchForm.tsx, the [ErrorMessage] alert, the card and the
      theme button fed by [useDarkMode].

    ** What the theorems show

    - [WeatherInfo]: each path of the handler on every branch: blank city
      (only [error] set), missing key, the request issued exactly when the
      city is not blank and the key is present, each HTTP status mapped to
      its message, the success path (data copied, temperatures converted),
      and for every input a whole run ends with [loading] false and exactly
      one of [data]/[error] set; a reply without [main] is an error, one
      without [main.temp] is data with [NaN].
    - [UnitConverter] and [WeatherCard]: the binary64 [toCelsius] refines
      the exact specification under [===] on every reading with two
      decimals from 223.15 K to 333.15 K (-50 C to +60 C), and the card's
      tier and label are those of the exact value on the same readings.
      These are checked exhaustively by [vm_compute] over 11001 readings
      and 1101 tenths; the bound covers the climate of inhabited places
      and keeps the kernel re-check within minutes.  The two differ only in
      the sign of zero (273.10 K to 273.14 K give [-0], shown "0").
    - [Binary64]: [Math.round] on a finite value returns the nearest
      integer, ties upward.
    - [JsNumber], [UnitConverter] and [PageView]: with the lemma that a
      decimal written as the binary64 quotient of two exact integers below
      2^53 is the number StringToNumber rounds the decimal to (the
      division core of SpecFloat is invariant when both operands are
      scaled, and the rounding location does not change for an even
      divisor), a temperature sent as the string
      ["288.15"] converts to the same number as the numeric reading, and a
      reply with string temperatures renders the same page as the numeric
      one, on every lawful engine.
    - [UriEncode], [UriDecode] and [ProviderRequest]: every character of
      the encoding is one of the 71 characters [A-Z a-z 0-9 - _ . ! ~ * '
      ( )] and [%], written out as a list independent of the encoder's
      own test, so none is a query separator; decoding inverts it
      (round trip, by strong induction on the string with the UTF-8
      arithmetic in lemmas); so the first [q] the provider reads decodes
      to exactly the city, whatever the API key contains.
    - [SearchSession] and [App]: by rule induction on [session_step],
      [loading] implies a call in flight; two overlapping searches lose an
      update and can end with both [data] and [error] set; through the
      page, every run is a run of [guarded_step], where the invariant of
      spec 3 (not loading: exactly one of data/error, or the initial
      state) holds, the page shows exactly one panel, and every request
      names a trimmed city.  Settlements terminate (a weight on the calls
      in flight decreases, [well_founded]), and every reachable session
      drains whatever the network answers, ending with [loading] off.
    - [PageView]: on every reachable state the panel shown is the one of a
      reference selection (equivalence); a reply whose [name] is an object
      is stored and then crashes the page at render (the type
      [weatherStats] is not checked); the theme button agrees with the
      root class after any events (composition of [useDarkMode] and
      [App]); for every city, key, earlier state and reply, a failed status
      shows exactly the destructive alert with its message, a success
      shows exactly one card titled with the reply's name and country
      and labelled with the converted temperatures (spec 8's scenario for
      all inputs), and a reply without [main.temp] shows a card reading
      "NaN°C" in the tier "cold" instead of an error.
    - [DarkMode]: by induction on the event sequence, the root carries the
      [dark] class exactly when the flag is set and the store holds the
      flag; because the mount effect persists the flag at once, a change
      of the system scheme is never adopted and the choice is frozen across
      reloads (spec 4.4 says otherwise); without [matchMedia] the mount
      crashes.

    ** What is not modelled

    Styling classes other than those chosen by the tier, static texts, the
    card's Refresh button (it has no handler), the UI kit of components/ui
    and the icons of lucide-react (imported libraries), the network and the
    JSON text parser (their results are inputs of the model:
    [fetch] resolves to a status or rejects with a thrown value,
    [response.json()] resolves to a value or rejects), React's scheduler
    beyond the order of state updates and effects, and the build-time
    inlining of [import.meta.env].  Engine-specific details (the text of
    [TypeError]/[URIError] messages, and StringToNumber on literals of more
    than 20 significant digits, which ECMA-262 lets engines round
    differently) are fields of the [JsEngine] class.  [Number::toString]
    on non-integral numbers is not modelled: where ToString meets a
    number, the number is kept as a piece ([PNum]), and ToNumber of an
    array holding one number reads it back unchanged, as the shortest
    round-trip digits of [Number::toString] guarantee. *)

From Stdlib Require Import List Bool ZArith NArith Lia.
#[local] Open Scope Z_scope.
Import ListNotations.

Declare Scope wi_scope.
Delimit Scope wi_scope with wi.

(** Sequencing in the error monad [E + A] (a thrown value on the left), the
    shape of a JavaScript statement that may throw. *)
Notation "x <- c ;; k" :=
  (match c with inl e => inl e | inr x => k end)
  (at level 100, c at next level, right associativity) : wi_scope.

Create HintDb wi.
Create Rewrite HintDb wi_rw.

(** [inv H]: invert [H], substitute and drop it. *)
Ltac inv H := inversion H; subst; clear H.

(** [case_bool]: split on the first boolean test of an [if] in the goal,
    keeping the equation. *)
Ltac case_bool :=
  match goal with
  | |- context [if ?b then _ else _] =>
      let E := fresh "E" in destruct b eqn:E
  end.

(** [nlia]: linear arithmetic over [N] and [Z] with division and modulo by
    constants (as in UTF-8 and percent encoding). *)
Ltac nlia := zify; Z.to_euclidean_division_equations; lia.

(** [n_cases]: split on every comparison of [N] numbers in the goal,
    dropping at once the branches whose assumptions [nlia] refutes (byte
    and code point arithmetic). *)
Ltac n_cases :=
  repeat (match goal with
          | |- context [N.leb ?a ?b] => destruct (N.leb_spec a b)
          | |- context [N.ltb ?a ?b] => destruct (N.ltb_spec a b)
          | |- context [N.eqb ?a ?b] => destruct (N.eqb_spec a b)
          end; cbn [andb orb negb]; try (exfalso; nlia)).

(** ** Lists *)

Section Lists.
Context {A : Type}.

Lemma forallb_rev (f : A -> bool) (l : list A) :
  forallb f (rev l) = forallb f l.
Proof.
  induction l as [|x l IH]; simpl; [reflexivity|].
  rewrite forallb_app, IH; simpl. rewrite andb_true_r, andb_comm. reflexivity.
Qed.

Lemma rev_eq_nil (l : list A) : rev l = [] <-> l = [].
Proof.
  split; [|intros ->; reflexivity].
  intros H. apply (f_equal (@rev A)) in H. rewrite rev_involutive in H. exact H.
Qed.
End Lists.

#[export] Hint Rewrite @forallb_rev @rev_involutive : wi_rw.

(** ** Options *)

Lemma option_map_some {A B} (f : A -> B) (o : option A) (b : B) :
  option_map f o = Some b <-> exists a, o = Some a /\ f a = b.
Proof.
  destruct o as [a|]; simpl; split.
  - intros H; inv H; eauto.
  - intros (a' & H & <-); inv H; reflexivity.
  - discriminate.
  - intros (? & H & _); discriminate.
Qed.

(** ** Checking a property on an interval of integers by evaluation *)

(** [forall_range f lo n]: [f] holds on [lo], [lo+1], ..., [lo+n-1]. *)
Fixpoint forall_range (f : Z -> bool) (lo : Z) (n : nat) : bool :=
  match n with
  | O => true
  | S n' => f lo && forall_range f (Z.succ lo) n'
  end.

Lemma forall_range_spec (f : Z -> bool) (lo : Z) (n : nat) :
  forall_range f lo n = true -> forall p, lo <= p < lo + Z.of_nat n -> f p = true.
Proof.
  revert lo. induction n as [|n IH]; intros lo H p Hp; simpl in *; [lia|].
  apply andb_prop in H as [H1 H2].
  destruct (Z.eq_dec p lo) as [->|]; [exact H1|]. apply (IH (Z.succ lo)); [exact H2|lia].
Qed.

(** ** Reachability in a transition system *)

Section Star.
Context {A : Type} (R : A -> A -> Prop).

Inductive star : A -> A -> Prop :=
| star_refl a : star a a
| star_step a b c : R a b -> star b c -> star a c.

Lemma star_one a b : R a b -> star a b.
Proof. intros H. eapply star_step; [exact H|apply star_refl]. Qed.

Lemma star_trans a b c : star a b -> star b c -> star a c.
Proof. induction 1; eauto using star. Qed.

(** An invariant of every step holds along every run. *)
Lemma star_invariant (P : A -> Prop) :
  (forall a b, P a -> R a b -> P b) -> forall a b, star a b -> P a -> P b.
Proof. intros Hstep a b Hs. induction Hs; eauto. Qed.
End Star.

(** A run of a smaller relation is a run of a larger one. *)
Lemma star_incl {A : Type} (R R' : A -> A -> Prop) :
  (forall a b, R a b -> R' a b) -> forall a b, star R a b -> star R' a b.
Proof. intros Hincl a b Hs. induction Hs; eauto using star. Qed.

#[export] Hint Constructors star : wi.
#[export] Hint Resolve star_one star_trans : wi.
