(* ===== verification/JsString.v ===== *)
(** JavaScript strings as lists of UTF-16 code units, the white-space set of
    ECMA-262 (WhiteSpace and LineTerminator), [String.prototype.trim] as the
    hook and [App.handleSearch] call it, truthiness of strings, and
    [Number::toString] on non-negative integers (the HTTP status in the
    message [Failed to fetch data: <status>]) with its parser. *)

From Stdlib Require Import List Bool NArith Ascii String Lia DecimalN.
From S2P Require Import Prelude.
Import ListNotations.
#[local] Open Scope N_scope.

(** A JavaScript string value: its sequence of UTF-16 code units. *)
Abbreviation jstr := (list N).

(** The string literals of the source are ASCII: each character is one code
    unit. *)
Definition js (s : string) : jstr := map N_of_ascii (list_ascii_of_string s).

(** ** White space and [trim] *)

(** ECMA-262 WhiteSpace (TAB, VT, FF, SP, NBSP, ZWNBSP and the category Zs)
    and LineTerminator (LF, CR, LS, PS).  All are in the Basic Multilingual
    Plane and none is a surrogate, so testing code units is exact. *)
Definition is_js_whitespace (c : N) : bool :=
  existsb (N.eqb c) [9; 10; 11; 12; 13; 32; 160; 5760; 8232; 8233; 8239; 8287; 12288; 65279]
  || ((8192 <=? c) && (c <=? 8202)).

Fixpoint trim_start (s : jstr) : jstr :=
  match s with
  | [] => []
  | c :: s' => if is_js_whitespace c then trim_start s' else s
  end.

Definition trim_end (s : jstr) : jstr := rev (trim_start (rev s)).

(** [s.trim()]: white space removed at both ends. *)
Definition trim (s : jstr) : jstr := trim_end (trim_start s).

(** [!s] for a string: the empty string is the only falsy string. *)
Definition str_falsy (s : jstr) : bool :=
  match s with [] => true | _ => false end.

(** ** [Number::toString] on non-negative integers *)

Fixpoint uint_to_jstr (d : Decimal.uint) : jstr :=
  match d with
  | Decimal.Nil => []
  | Decimal.D0 d => 48 :: uint_to_jstr d
  | Decimal.D1 d => 49 :: uint_to_jstr d
  | Decimal.D2 d => 50 :: uint_to_jstr d
  | Decimal.D3 d => 51 :: uint_to_jstr d
  | Decimal.D4 d => 52 :: uint_to_jstr d
  | Decimal.D5 d => 53 :: uint_to_jstr d
  | Decimal.D6 d => 54 :: uint_to_jstr d
  | Decimal.D7 d => 55 :: uint_to_jstr d
  | Decimal.D8 d => 56 :: uint_to_jstr d
  | Decimal.D9 d => 57 :: uint_to_jstr d
  end.

(** The decimal digits of [n], no leading zero: what a template literal
    prints for an integral number below 10^21. *)
Definition number_to_string_N (n : N) : jstr := uint_to_jstr (N.to_uint n).

Fixpoint jstr_to_uint (s : jstr) : option Decimal.uint :=
  match s with
  | [] => Some Decimal.Nil
  | c :: s' =>
      match jstr_to_uint s' with
      | None => None
      | Some d =>
          if c =? 48 then Some (Decimal.D0 d) else if c =? 49 then Some (Decimal.D1 d)
          else if c =? 50 then Some (Decimal.D2 d) else if c =? 51 then Some (Decimal.D3 d)
          else if c =? 52 then Some (Decimal.D4 d) else if c =? 53 then Some (Decimal.D5 d)
          else if c =? 54 then Some (Decimal.D6 d) else if c =? 55 then Some (Decimal.D7 d)
          else if c =? 56 then Some (Decimal.D8 d) else if c =? 57 then Some (Decimal.D9 d)
          else None
      end
  end.

(** Reading a non-empty string of decimal digits back as a number. *)
Definition parse_decimal (s : jstr) : option N :=
  match s with
  | [] => None
  | _ => option_map N.of_uint (jstr_to_uint s)
  end.

(** ** Lemmas *)

Lemma trim_start_split (s : jstr) :
  exists p, s = p ++ trim_start s /\ forallb is_js_whitespace p = true.
Proof.
  induction s as [|c s (p & Hs & Hp)]; simpl.
  - exists []; auto.
  - destruct (is_js_whitespace c) eqn:E.
    + exists (c :: p); simpl; rewrite E, Hp; split; [f_equal|]; auto.
    + exists []; auto.
Qed.

Lemma trim_start_nil_iff (s : jstr) :
  trim_start s = [] <-> forallb is_js_whitespace s = true.
Proof.
  induction s as [|c s IH]; simpl; [tauto|].
  destruct (is_js_whitespace c); simpl; [exact IH|].
  split; discriminate.
Qed.

Lemma forallb_trim_start (s : jstr) :
  forallb is_js_whitespace (trim_start s) = forallb is_js_whitespace s.
Proof.
  destruct (trim_start_split s) as (p & Hs & Hp).
  rewrite Hs at 2. rewrite forallb_app, Hp. reflexivity.
Qed.

(** [!s.trim()] holds exactly when [s] is made of white space only. *)
Lemma trim_nil_iff (s : jstr) :
  trim s = [] <-> forallb is_js_whitespace s = true.
Proof.
  unfold trim, trim_end. rewrite rev_eq_nil, trim_start_nil_iff, forallb_rev.
  rewrite forallb_trim_start. reflexivity.
Qed.

Lemma jstr_to_uint_of_uint (d : Decimal.uint) : jstr_to_uint (uint_to_jstr d) = Some d.
Proof. induction d; simpl; try rewrite IHd; reflexivity. Qed.

Lemma uint_to_jstr_nil (d : Decimal.uint) : uint_to_jstr d = [] -> d = Decimal.Nil.
Proof. destruct d; simpl; congruence. Qed.

Lemma to_uint_not_nil (n : N) : N.to_uint n <> Decimal.Nil.
Proof.
  intros H. pose proof (DecimalN.Unsigned.of_to n) as E.
  rewrite H in E. simpl in E. subst n. discriminate.
Qed.

(** The status printed in an error message reads back as the status. *)
Lemma parse_number_to_string (n : N) : parse_decimal (number_to_string_N n) = Some n.
Proof.
  unfold parse_decimal, number_to_string_N.
  destruct (uint_to_jstr (N.to_uint n)) eqn:E.
  - apply uint_to_jstr_nil, to_uint_not_nil in E. contradiction.
  - rewrite <- E, jstr_to_uint_of_uint. simpl. rewrite DecimalN.Unsigned.of_to. reflexivity.
Qed.

(** [!s.trim()] is the test "only white space". *)
Lemma str_falsy_trim (s : jstr) : str_falsy (trim s) = forallb is_js_whitespace s.
Proof.
  destruct (forallb is_js_whitespace s) eqn:E.
  - apply trim_nil_iff in E. rewrite E. reflexivity.
  - destruct (trim s) eqn:T; [|reflexivity].
    apply trim_nil_iff in T. congruence.
Qed.

(** [===] on strings. *)
Definition jstr_eqb (s t : jstr) : bool := if list_eq_dec N.eq_dec s t then true else false.

Lemma jstr_eqb_eq (s t : jstr) : jstr_eqb s t = true <-> s = t.
Proof. unfold jstr_eqb. destruct (list_eq_dec N.eq_dec s t); split; congruence. Qed.

Lemma jstr_eqb_refl (s : jstr) : jstr_eqb s s = true.
Proof. apply jstr_eqb_eq. reflexivity. Qed.

#[export] Hint Rewrite jstr_eqb_refl : wi_rw.

Lemma trim_start_idem (s : jstr) : trim_start (trim_start s) = trim_start s.
Proof.
  induction s as [|c s IH]; simpl; [reflexivity|].
  destruct (is_js_whitespace c) eqn:E; [exact IH|simpl; rewrite E; reflexivity].
Qed.

Lemma trim_start_app (l r : jstr) :
  trim_start (l ++ r) = if forallb is_js_whitespace l then trim_start r else trim_start l ++ r.
Proof.
  induction l as [|c l IH]; simpl; [reflexivity|].
  destruct (is_js_whitespace c); simpl; [exact IH|reflexivity].
Qed.

(** Trimming the end keeps a first character that is not white space. *)
Lemma trim_end_cons (c : N) (u : jstr) :
  is_js_whitespace c = false -> exists t, trim_end (c :: u) = c :: t.
Proof.
  intros Hc. unfold trim_end. simpl. rewrite trim_start_app.
  destruct (forallb is_js_whitespace (rev u)); simpl; rewrite ?Hc.
  - exists []. reflexivity.
  - rewrite rev_app_distr. simpl. eexists. reflexivity.
Qed.

(** [s.trim().trim()] is [s.trim()]. *)
Lemma trim_idem (s : jstr) : trim (trim s) = trim s.
Proof.
  unfold trim.
  assert (Hu : trim_start (trim_end (trim_start s)) = trim_end (trim_start s)).
  { destruct (trim_start s) as [|c u] eqn:E; [reflexivity|].
    assert (Hc : is_js_whitespace c = false).
    { clear -E. induction s as [|d s IH]; simpl in E; [discriminate|].
      destruct (is_js_whitespace d) eqn:Ed; [exact (IH E)|inv E; exact Ed]. }
    destruct (trim_end_cons c u Hc) as [t ->]. simpl. rewrite Hc. reflexivity. }
  rewrite Hu. unfold trim_end. rewrite rev_involutive, trim_start_idem. reflexivity.
Qed.

Lemma forallb_trim (s : jstr) : forallb is_js_whitespace (trim s) = forallb is_js_whitespace s.
Proof. rewrite <- !str_falsy_trim, trim_idem. reflexivity. Qed.
