(* ===== verification/Binary64.v ===== *)
(** JavaScript numbers: IEEE-754 binary64 on the Standard Library's
    [SpecFloat] (precision 53, largest exponent 1024, round to nearest even),
    the operations [toCelsius] and [WeatherCard] use ([-], [*], [/], [===],
    [>=]), the conversion of integers and of decimal literals, and
    [Math.round] as ECMA-262 (sec. 21.3.2.28) specifies it: the integral
    number closest to the argument, ties towards +infinity, [-0] for
    arguments in [-0.5, -0].  The main lemma [js_round_nearest] states that
    contract. *)

From Stdlib Require Import ZArith Bool Lia Floats.SpecFloat.
From S2P Require Import Prelude.
#[local] Open Scope Z_scope.

(** A JavaScript number value. *)
Abbreviation float := spec_float.

Definition prec : Z := 53.
Definition emax : Z := 1024.

Definition NaN : float := S754_nan.

(** [x - y], [x * y], [x / y] on numbers, correctly rounded. *)
Definition fsub (x y : float) : float := SFsub prec emax x y.
Definition fmul (x y : float) : float := SFmul prec emax x y.
Definition fdiv (x y : float) : float := SFdiv prec emax x y.

(** The number nearest to an integer (exact below 2^53). *)
Definition of_int (n : Z) : float := binary_normalize prec emax n 0 false.

(** A decimal literal [p / 10^k] of the source is the number nearest to it:
    the correctly rounded quotient of two exactly represented integers. *)
Definition of_decimal (p : Z) (k : nat) : float := fdiv (of_int p) (of_int (10 ^ Z.of_nat k)).

(** [x === y] on numbers: [NaN] equals nothing, [+0 === -0]. *)
Definition strict_eq (x y : float) : bool := SFeqb x y.

(** [x >= y] on numbers: false as soon as one side is [NaN]. *)
Definition js_ge (x y : float) : bool :=
  match SFcompare x y with Some (Gt | Eq) => true | _ => false end.

(** ** [Math.round] *)

Definition signed_mantissa (s : bool) (m : positive) : Z := if s then Zneg m else Zpos m.

(** [floor (M / 2^k + 1/2)], computed exactly. *)
Definition round_half_up_pow2 (M k : Z) : Z := (2 * M + 2 ^ k) / 2 ^ (k + 1).

Definition js_round (x : float) : float :=
  match x with
  | S754_finite s m e =>
      if 0 <=? e then x
      else
        let r := round_half_up_pow2 (signed_mantissa s m) (- e) in
        if r =? 0 then S754_zero s else of_int r
  | _ => x
  end.

(** ** The integer a number denotes *)

Definition float_int_value (x : float) : option Z :=
  match x with
  | S754_zero _ => Some 0
  | S754_finite s m e =>
      if 0 <=? e then Some (signed_mantissa s m * 2 ^ e)
      else if Zpos m mod 2 ^ (- e) =? 0 then Some (signed_mantissa s m / 2 ^ (- e))
      else None
  | _ => None
  end.

(** Structural equality of numbers (distinguishes [+0] and [-0], identifies
    all [NaN]s, as [SpecFloat] has no payloads). *)
Definition float_eqb (x y : float) : bool :=
  match x, y with
  | S754_zero a, S754_zero b | S754_infinity a, S754_infinity b => Bool.eqb a b
  | S754_nan, S754_nan => true
  | S754_finite a m e, S754_finite b m' e' => Bool.eqb a b && Pos.eqb m m' && Z.eqb e e'
  | _, _ => false
  end.

(** The canonical binary64 form of a positive integer of at most 53 bits. *)
Definition canon_pos (p : positive) : positive * Z :=
  let d := Zpos (digits2_pos p) in
  match 53 - d with Zpos k => (Pos.iter xO p k, d - 53) | _ => (p, d - 53) end.

(** ** Lemmas *)

Lemma float_eqb_eq (x y : float) : float_eqb x y = true <-> x = y.
Proof.
  split.
  - destruct x, y; simpl; try discriminate; intros H;
      repeat match goal with
      | H : _ && _ = true |- _ => apply andb_prop in H as [? ?]
      | H : Bool.eqb _ _ = true |- _ => apply Bool.eqb_prop in H
      | H : Pos.eqb _ _ = true |- _ => apply Pos.eqb_eq in H
      | H : Z.eqb _ _ = true |- _ => apply Z.eqb_eq in H
      end; subst; reflexivity.
  - intros ->; destruct y; simpl; rewrite ?Bool.eqb_reflx, ?Pos.eqb_refl, ?Z.eqb_refl; reflexivity.
Qed.

Lemma digits2_iter_xO (p k : positive) :
  digits2_pos (Pos.iter xO p k) = (digits2_pos p + k)%positive.
Proof.
  induction k as [|k IH] using Pos.peano_ind; simpl.
  - rewrite Pos.add_1_r. reflexivity.
  - rewrite Pos.iter_succ. simpl. rewrite IH. lia.
Qed.

Lemma iter_xO_mul (p k : positive) : Zpos (Pos.iter xO p k) = Zpos p * 2 ^ Zpos k.
Proof.
  induction k as [|k IH] using Pos.peano_ind; [simpl; lia|].
  rewrite Pos.iter_succ, Pos2Z.inj_succ, Z.pow_succ_r by lia.
  change (Zpos (Pos.iter xO p k)~0) with (2 * Zpos (Pos.iter xO p k)). rewrite IH. ring.
Qed.

Lemma digits2_size (p : positive) : digits2_pos p = Pos.size p.
Proof. induction p; simpl; congruence. Qed.

Lemma digits2_le_53 (p : positive) : Zpos p < 2 ^ 53 -> Zpos (digits2_pos p) <= 53.
Proof.
  intros H. rewrite digits2_size.
  destruct (Z.le_gt_cases (Zpos (Pos.size p)) 53) as [|Hgt]; [assumption|].
  pose proof (Pos.size_le p) as Hs. apply Pos2Z.pos_le_pos in Hs.
  rewrite Pos2Z.inj_pow in Hs. change (Zpos p~0) with (2 * Zpos p) in Hs.
  assert (2 ^ 54 <= 2 ^ Zpos (Pos.size p)) by (apply Z.pow_le_mono_r; lia).
  lia.
Qed.

(** Rounding of a mantissa that already has 53 digits is exact. *)
Lemma round_aux_exact (s : bool) (m : positive) (e : Z) :
  Zpos (digits2_pos m) = 53 -> -1074 <= e <= emax - prec ->
  binary_round_aux prec emax s (Zpos m) e loc_Exact = S754_finite s m e.
Proof.
  intros Hm He. unfold binary_round_aux, shr_fexp.
  assert (H0 : fexp prec emax (Zdigits2 (Zpos m) + e) - e = 0).
  { change (Zdigits2 (Zpos m)) with (Zpos (digits2_pos m)). rewrite Hm.
    unfold fexp, emin, prec, emax in *. lia. }
  rewrite H0. cbn [shr shr_record_of_loc shr_m loc_of_shr_record round_nearest_even].
  rewrite H0. cbn [shr shr_record_of_loc shr_m].
  replace (e <=? emax - prec) with true by lia. reflexivity.
Qed.

Lemma binary_round_small (s : bool) (p : positive) :
  Zpos (digits2_pos p) <= 53 ->
  binary_round prec emax s p 0 = S754_finite s (fst (canon_pos p)) (snd (canon_pos p)).
Proof.
  intros Hd. unfold binary_round, canon_pos.
  set (d := digits2_pos p) in *.
  assert (Hf : fexp prec emax (Zpos d + 0) = Zpos d - 53)
    by (unfold fexp, emin, prec, emax; lia).
  rewrite Hf. unfold shl_align. replace (Zpos d - 53 - 0) with (Zpos d - 53) by lia.
  destruct (53 - Zpos d) as [|k|] eqn:E; [| |lia].
  - replace (Zpos d - 53) with 0 by lia. cbn -[binary_round_aux].
    apply round_aux_exact; unfold emax, prec; [unfold d|]; lia.
  - replace (Zpos d - 53) with (Zneg k) by lia. cbn -[binary_round_aux].
    apply round_aux_exact; unfold emax, prec; [rewrite digits2_iter_xO; fold d|]; lia.
Qed.

Lemma canon_pos_value (s : bool) (p : positive) :
  Zpos (digits2_pos p) <= 53 ->
  float_int_value (S754_finite s (fst (canon_pos p)) (snd (canon_pos p)))
  = Some (signed_mantissa s p).
Proof.
  intros Hd. unfold canon_pos.
  destruct (53 - Zpos (digits2_pos p)) as [|k|] eqn:E; cbn [fst snd]; [| |lia].
  - replace (Zpos (digits2_pos p) - 53) with 0 by lia. cbn [float_int_value].
    rewrite Z.leb_refl. f_equal. lia.
  - replace (Zpos (digits2_pos p) - 53) with (Zneg k) by lia. cbn [float_int_value].
    change (- Zneg k) with (Zpos k). change (0 <=? Zneg k) with false. cbv iota.
    rewrite iter_xO_mul, Z.mod_mul by (apply Z.pow_nonzero; lia). cbv iota.
    f_equal. destruct s; simpl signed_mantissa.
    + change (Zneg (Pos.iter xO p k)) with (- Zpos (Pos.iter xO p k)).
      rewrite iter_xO_mul, <- Z.mul_opp_l, Z.div_mul by (apply Z.pow_nonzero; lia). reflexivity.
    + rewrite iter_xO_mul, Z.div_mul by (apply Z.pow_nonzero; lia). reflexivity.
Qed.

(** Integers below 2^53 in magnitude are numbers exactly. *)
Lemma of_int_value (n : Z) : Z.abs n < 2 ^ 53 -> float_int_value (of_int n) = Some n.
Proof.
  intros H. unfold of_int, binary_normalize.
  destruct n as [|p|p]; [reflexivity| |];
    rewrite binary_round_small by (apply digits2_le_53; lia);
    apply canon_pos_value; apply digits2_le_53; lia.
Qed.

(** A valid binary64 mantissa has at most 53 bits. *)
Lemma valid_mantissa_bound (s : bool) (m : positive) (e : Z) :
  valid_binary prec emax (S754_finite s m e) = true -> Zpos m < 2 ^ 53.
Proof.
  unfold valid_binary, bounded, canonical_mantissa.
  intros H. apply andb_prop in H as [H _]. apply Z.eqb_eq in H.
  unfold fexp, emin, prec, emax in H. rewrite digits2_size in H.
  pose proof (Pos.size_gt m) as Hs. apply Pos2Z.pos_lt_pos in Hs. rewrite Pos2Z.inj_pow in Hs.
  assert (2 ^ Zpos (Pos.size m) <= 2 ^ 53) by (apply Z.pow_le_mono_r; lia). lia.
Qed.

Lemma round_half_up_pow2_bounds (M k : Z) :
  0 <= k ->
  (2 * round_half_up_pow2 M k - 1) * 2 ^ k <= 2 * M < (2 * round_half_up_pow2 M k + 1) * 2 ^ k.
Proof.
  intros Hk. unfold round_half_up_pow2. rewrite Z.pow_add_r, Z.pow_1_r by lia.
  pose proof (Z.pow_pos_nonneg 2 k ltac:(lia) Hk) as HK.
  set (K := 2 ^ k) in *.
  pose proof (Z.div_mod (2 * M + K) (K * 2) ltac:(lia)) as Hd.
  pose proof (Z.mod_pos_bound (2 * M + K) (K * 2) ltac:(lia)) as Hm.
  set (q := (2 * M + K) / (K * 2)) in *. set (r := (2 * M + K) mod (K * 2)) in *.
  nia.
Qed.

Lemma round_half_up_pow2_abs (M k : Z) :
  1 <= k -> Z.abs (round_half_up_pow2 M k) <= Z.abs M.
Proof.
  intros Hk. pose proof (round_half_up_pow2_bounds M k ltac:(lia)) as Hb.
  assert (2 <= 2 ^ k) by (rewrite <- Z.pow_1_r at 1; apply Z.pow_le_mono_r; lia).
  set (r := round_half_up_pow2 M k) in *. set (K := 2 ^ k) in *.
  destruct (Z.le_gt_cases 0 r); destruct (Z.le_gt_cases 0 M); nia.
Qed.

(** C10: [Math.round] on a number with a fractional part (negative exponent)
    returns an integral number [r] with [r - 1/2 <= x < r + 1/2]: the
    integer nearest to [x], and the larger one on a tie. *)
Theorem js_round_nearest (s : bool) (m : positive) (e : Z) :
  valid_binary prec emax (S754_finite s m e) = true -> e < 0 ->
  exists r, float_int_value (js_round (S754_finite s m e)) = Some r /\
    ((2 * r - 1) * 2 ^ (- e) <= 2 * signed_mantissa s m < (2 * r + 1) * 2 ^ (- e)).
Proof.
  intros Hv He. pose proof (valid_mantissa_bound s m e Hv) as Hm.
  exists (round_half_up_pow2 (signed_mantissa s m) (- e)).
  split; [|apply round_half_up_pow2_bounds; lia].
  unfold js_round. replace (0 <=? e) with false by lia. cbv zeta.
  destruct (Z.eqb_spec (round_half_up_pow2 (signed_mantissa s m) (- e)) 0) as [->|].
  - reflexivity.
  - apply of_int_value.
    pose proof (round_half_up_pow2_abs (signed_mantissa s m) (- e) ltac:(lia)).
    destruct s; simpl signed_mantissa in *; lia.
Qed.

(** [Math.round] keeps integral numbers, infinities and [NaN]. *)
Lemma js_round_nonneg_exp (s : bool) (m : positive) (e : Z) :
  0 <= e -> js_round (S754_finite s m e) = S754_finite s m e.
Proof. intros He. unfold js_round. replace (0 <=? e) with true by lia. reflexivity. Qed.

(** [Math.round(2.5)] is 3: a tie goes up. *)
Lemma js_round_nearest_witness :
  valid_binary prec emax (S754_finite false 5629499534213120 (-51)) = true /\
  exists r, float_int_value (js_round (S754_finite false 5629499534213120 (-51))) = Some r /\
    ((2 * r - 1) * 2 ^ (- (-51)) <= 2 * signed_mantissa false 5629499534213120
     < (2 * r + 1) * 2 ^ (- (-51))).
Proof.
  assert (Hv : valid_binary prec emax (S754_finite false 5629499534213120 (-51)) = true)
    by (vm_compute; reflexivity).
  split; [exact Hv|apply js_round_nearest; [exact Hv|lia]].
Defined.
