(* ===== verification/JsNumber.v ===== *)
(** StringToNumber (ECMA-262 7.1.4.1.1), the conversion [toCelsius]
    applies when the provider's [main.temp] is a string: the text is
    trimmed of white space and line terminators, and must then be empty
    (giving [+0]), [Infinity] with an optional sign, a decimal literal with
    an optional sign, fraction and exponent, or a [0x], [0o] or [0b]
    integer; anything else gives [NaN].  The value is the binary64 number
    nearest to the literal's mathematical value, ties to even
    ([decimal_to_float], computed with the division core and the rounding
    of SpecFloat, as [SFdiv] does).  ECMA-262 lets an engine replace the
    digits after the 20th significant one by zeros (RoundMVResult), so the
    model is exact for every engine on literals of at most 20 significant
    digits ([short_literal]).

    The lemma [of_decimal_is_nearest] shows that [of_decimal] (a division
    of two exact integers, how the development writes decimal constants)
    is this nearest number; [UnitConverter] uses it to relate a string
    reading to the numeric one. *)

From Stdlib Require Import List Bool ZArith NArith String Zcompare Lia Floats.SpecFloat.
From S2P Require Import Prelude JsString Binary64.
Import ListNotations.
#[local] Open Scope Z_scope.

(** ** The value of a literal *)

(** [(-1)^neg * m * 10^k] rounded to the nearest binary64 number, for
    [m >= 0]; beyond the bounds below the result is [Infinity] or zero
    whatever the digits. *)
Definition decimal_to_float (neg : bool) (m k : Z) : float :=
  match m with
  | Zpos pm =>
      if 400 <? k then S754_infinity neg
      else if k <? - 400 - Zdigits2 m then S754_zero neg
      else if 0 <=? k then binary_normalize prec emax ((if neg then Zneg pm else Zpos pm) * 10 ^ k) 0 neg
      else let '(q, e, l) := SFdiv_core_binary prec emax m 0 (10 ^ (- k)) 0 in
           binary_round_aux prec emax neg q e l
  | _ => S754_zero neg
  end.

(** ** Scanning *)

(** The value of a digit in base [radix] (2, 8, 10 or 16). *)
Definition digit_of (radix : Z) (c : N) : option Z :=
  let v := if ((48 <=? c) && (c <=? 57))%N then Some (Z.of_N c - 48)
           else if ((97 <=? c) && (c <=? 102))%N then Some (Z.of_N c - 87)
           else if ((65 <=? c) && (c <=? 70))%N then Some (Z.of_N c - 55)
           else None in
  match v with Some d => if d <? radix then Some d else None | None => None end.

(** The longest prefix of digits: the value accumulated onto [acc], the
    number of digits read, and the rest. *)
Fixpoint read_digits (radix acc : Z) (n : nat) (s : jstr) : Z * nat * jstr :=
  match s with
  | [] => (acc, n, [])
  | c :: r =>
      match digit_of radix c with
      | Some d => read_digits radix (radix * acc + d) (S n) r
      | None => (acc, n, s)
      end
  end.

(** A non-empty run of digits that is the whole text. *)
Definition all_digits (radix : Z) (s : jstr) : option Z :=
  match read_digits radix 0 0 s with
  | (v, S _, []) => Some v
  | _ => None
  end.

(** ExponentPart after its [e] or [E]. *)
Definition parse_exponent (s : jstr) : option Z :=
  match s with
  | c :: r => if (c =? 43)%N then all_digits 10 r
              else if (c =? 45)%N then option_map Z.opp (all_digits 10 r)
              else all_digits 10 s
  | [] => None
  end.

(** StrUnsignedDecimalLiteral other than [Infinity]: [m * 10^k]. *)
Definition parse_unsigned_decimal (s : jstr) : option (Z * Z) :=
  let '(ip, ni, r1) := read_digits 10 0 0 s in
  let '(m, nf, r2) :=
    match r1 with
    | c :: r => if (c =? 46)%N then read_digits 10 ip 0 r else (ip, O, r1)
    | [] => (ip, O, r1)
    end in
  if Nat.eqb (ni + nf) 0 then None
  else match r2 with
       | [] => Some (m, - Z.of_nat nf)
       | c :: r =>
           if (c =? 101)%N || (c =? 69)%N
           then option_map (fun e => (m, e - Z.of_nat nf)) (parse_exponent r)
           else None
       end.

Inductive str_numeric : Type :=
| SNEmpty
| SNInfinity (neg : bool)
| SNDecimal (neg : bool) (m k : Z)
| SNNonDecimal (m : Z).

Definition parse_signed (neg : bool) (t : jstr) : option str_numeric :=
  if jstr_eqb t (js "Infinity") then Some (SNInfinity neg)
  else option_map (fun mk => SNDecimal neg (fst mk) (snd mk)) (parse_unsigned_decimal t).

(** [x] or [X], [o] or [O], [b] or [B] after a [0]. *)
Definition radix_of_prefix (c : N) : option Z :=
  if (c =? 120)%N || (c =? 88)%N then Some 16
  else if (c =? 111)%N || (c =? 79)%N then Some 8
  else if (c =? 98)%N || (c =? 66)%N then Some 2
  else None.

(** StringNumericLiteral; [None] where the text is not one. *)
Definition parse_str_numeric (s : jstr) : option str_numeric :=
  match trim s with
  | [] => Some SNEmpty
  | c :: r =>
      if (c =? 43)%N then parse_signed false r
      else if (c =? 45)%N then parse_signed true r
      else match r with
           | x :: r' =>
               match (c =? 48)%N, radix_of_prefix x with
               | true, Some b => option_map SNNonDecimal (all_digits b r')
               | _, _ => parse_signed false (c :: r)
               end
           | [] => parse_signed false (c :: r)
           end
  end.

Definition numeric_value (n : str_numeric) : float :=
  match n with
  | SNEmpty => S754_zero false
  | SNInfinity neg => S754_infinity neg
  | SNDecimal neg m k => decimal_to_float neg m k
  | SNNonDecimal m => decimal_to_float false m 0
  end.

(** StringToNumber. *)
Definition str_to_number (s : jstr) : float :=
  match parse_str_numeric s with
  | Some n => numeric_value n
  | None => NaN
  end.

(** The text of [p / 100] with two decimals, as a JSON text or a string
    member of the reply writes it: ["288.15"]. *)
Definition two_decimal_text (p : N) : jstr :=
  number_to_string_N (p / 100) ++ [46; 48 + (p mod 100) / 10; 48 + p mod 10]%N.

(** ** Significant digits *)

(** [m] without its trailing decimal zeros. *)
Fixpoint strip_zeros (fuel : nat) (m : Z) : Z :=
  match fuel with
  | O => m
  | S f => if (0 <? m) && (m mod 10 =? 0) then strip_zeros f (m / 10) else m
  end.

Definition significand (m : Z) : Z := strip_zeros (Z.to_nat (Zdigits2 m)) m.

(** A literal whose mathematical value has at most 20 significant digits,
    on which every engine agrees with [numeric_value]. *)
Definition short_literal (n : str_numeric) : bool :=
  match n with
  | SNDecimal _ m _ | SNNonDecimal m => significand m <? 10 ^ 20
  | _ => true
  end.

(** ** Lemmas: the division of normalized integers *)

Lemma canon_pos_spec (p : positive) :
  Zpos (digits2_pos p) <= 53 ->
  Zpos (fst (canon_pos p)) = Zpos p * 2 ^ (53 - Zpos (digits2_pos p)) /\
  snd (canon_pos p) = Zpos (digits2_pos p) - 53 /\
  Zdigits2 (Zpos (fst (canon_pos p))) = 53.
Proof.
  intros Hd. unfold canon_pos. set (d := digits2_pos p) in *.
  destruct (53 - Zpos d) as [|k|] eqn:E; [| |lia]; cbn [fst snd].
  - split; [lia|split; [reflexivity|]]. change (Zpos d = 53). lia.
  - split; [apply iter_xO_mul|split; [reflexivity|]].
    change (Zpos (digits2_pos (Pos.iter xO p k)) = 53). rewrite digits2_iter_xO. fold d. lia.
Qed.

Lemma new_location_scale (m r b : Z) :
  Z.even m = true -> 0 <= r -> 0 <= b ->
  new_location (m * 2 ^ b) (r * 2 ^ b) = new_location m r.
Proof.
  intros Hm Hr Hb. assert (Hp : 0 < 2 ^ b) by (apply Z.pow_pos_nonneg; lia).
  unfold new_location. rewrite Z.even_mul, Hm. cbn [orb]. unfold new_location_even.
  replace (r * 2 ^ b =? 0) with (r =? 0) by (destruct (Z.eqb_spec r 0), (Z.eqb_spec (r * 2 ^ b) 0); nia).
  rewrite Z.mul_assoc, <- Zmult_compare_compat_r by lia. reflexivity.
Qed.

Lemma div_eucl_pair (a b : Z) : Z.div_eucl a b = (a / b, a mod b).
Proof. unfold Z.div, Z.modulo. destruct (Z.div_eucl a b); reflexivity. Qed.

Lemma shiftl_pos (m s : Z) : 0 < s -> Z.shiftl m s = m * 2 ^ s.
Proof. intros Hs. apply Z.shiftl_mul_pow2. lia. Qed.

(** Dividing the normalized forms of two integers below 2^53 divides the
    integers themselves: same quotient, exponent and location. *)
Lemma div_core_canon (m1 m2 : positive) :
  Zpos (digits2_pos m1) <= 53 -> Zpos (digits2_pos m2) <= 53 -> Z.even (Zpos m2) = true ->
  SFdiv_core_binary prec emax (Zpos (fst (canon_pos m1))) (snd (canon_pos m1))
                              (Zpos (fst (canon_pos m2))) (snd (canon_pos m2))
  = SFdiv_core_binary prec emax (Zpos m1) 0 (Zpos m2) 0.
Proof.
  intros H1 H2 Hev.
  destruct (canon_pos_spec m1 H1) as (E1 & F1 & G1), (canon_pos_spec m2 H2) as (E2 & F2 & G2).
  unfold SFdiv_core_binary. rewrite G1, G2, E1, E2, F1, F2.
  change (Zdigits2 (Zpos m1)) with (Zpos (digits2_pos m1)).
  change (Zdigits2 (Zpos m2)) with (Zpos (digits2_pos m2)).
  set (d1 := Zpos (digits2_pos m1)) in *. set (d2 := Zpos (digits2_pos m2)) in *.
  assert (Hd1 : 1 <= d1) by (unfold d1; lia). assert (Hd2 : 1 <= d2) by (unfold d2; lia).
  assert (Hf : forall x, x = d1 - d2 -> fexp prec emax x = d1 - d2 - 53)
    by (intros x ->; unfold fexp, emin, prec, emax; lia).
  rewrite (Hf (53 + (d1 - 53) - (53 + (d2 - 53)))) by lia. rewrite (Hf (d1 + 0 - (d2 + 0))) by lia.
  replace (Z.min (d1 - d2 - 53) (d1 - 53 - (d2 - 53))) with (d1 - d2 - 53) by lia.
  replace (Z.min (d1 - d2 - 53) (0 - 0)) with (d1 - d2 - 53) by lia.
  replace (d1 - 53 - (d2 - 53) - (d1 - d2 - 53)) with 53 by lia.
  replace (0 - 0 - (d1 - d2 - 53)) with (Zpos (Z.to_pos (53 - d1 + d2))) by lia.
  cbv zeta. rewrite !shiftl_pos by lia. rewrite !div_eucl_pair.
  assert (Hc : 0 < 2 ^ (53 - d2)) by (apply Z.pow_pos_nonneg; lia).
  replace (Zpos m1 * 2 ^ (53 - d1) * 2 ^ 53)
    with (Zpos m1 * 2 ^ Zpos (Z.to_pos (53 - d1 + d2)) * 2 ^ (53 - d2)).
  2:{ rewrite <- !Z.mul_assoc, <- !Z.pow_add_r by lia. do 2 f_equal. lia. }
  rewrite Z.div_mul_cancel_r, Z.mul_mod_distr_r by lia.
  rewrite new_location_scale; [reflexivity|exact Hev| |lia].
  apply Z.mod_pos_bound. lia.
Qed.

(** ** Lemmas: reading digits *)

Definition is_dec_digit (c : N) : bool := ((48 <=? c) && (c <=? 57))%N.

(** Digits read left to right onto [acc]. *)
Definition digits_value (acc : Z) (ds : jstr) : Z :=
  fold_left (fun a c => 10 * a + (Z.of_N c - 48)) ds acc.

Lemma read_digits_app (acc : Z) (n : nat) (ds rest : jstr) :
  forallb is_dec_digit ds = true ->
  read_digits 10 acc n (ds ++ rest) = read_digits 10 (digits_value acc ds) (n + List.length ds) rest.
Proof.
  revert acc n. induction ds as [|c ds IH]; intros acc n; simpl; [rewrite Nat.add_0_r; reflexivity|].
  rewrite andb_true_iff. intros [Hc Hds]. unfold is_dec_digit in Hc.
  assert (Hd : digit_of 10 c = Some (Z.of_N c - 48)).
  { pose proof Hc as Hc'. apply andb_prop in Hc' as [H1 H2]. apply N.leb_le in H1, H2.
    unfold digit_of. rewrite Hc. replace (Z.of_N c - 48 <? 10) with true by (symmetry; apply Z.ltb_lt; lia).
    reflexivity. }
  rewrite Hd, IH by exact Hds. rewrite Nat.add_succ_r. reflexivity.
Qed.

Lemma uint_digits (u : Decimal.uint) : forallb is_dec_digit (uint_to_jstr u) = true.
Proof. induction u; simpl; auto. Qed.

Lemma uint_value_acc (u : Decimal.uint) (acc : positive) :
  digits_value (Zpos acc) (uint_to_jstr u) = Zpos (Pos.of_uint_acc u acc).
Proof.
  revert acc. induction u; intros acc; unfold digits_value in *;
    cbn [uint_to_jstr fold_left Pos.of_uint_acc]; try reflexivity; rewrite <- IHu; f_equal; lia.
Qed.

Lemma digits_value_uint (u : Decimal.uint) : digits_value 0 (uint_to_jstr u) = Z.of_N (Pos.of_uint u).
Proof.
  induction u; unfold digits_value in *; cbn [uint_to_jstr fold_left Pos.of_uint];
    try exact IHu; try reflexivity; apply uint_value_acc.
Qed.

Lemma digits_value_number (n : N) : digits_value 0 (number_to_string_N n) = Z.of_N n.
Proof.
  unfold number_to_string_N. rewrite digits_value_uint.
  change (Pos.of_uint (N.to_uint n)) with (N.of_uint (N.to_uint n)).
  rewrite DecimalN.Unsigned.of_to. reflexivity.
Qed.

Lemma trim_around (c d : N) (s : jstr) :
  is_js_whitespace c = false -> is_js_whitespace d = false -> trim (c :: s ++ [d]) = c :: s ++ [d].
Proof.
  intros Hc Hd. unfold trim, trim_end. cbn [trim_start]. rewrite Hc.
  change (c :: s ++ [d]) with ((c :: s) ++ [d]). rewrite rev_app_distr. cbn [rev app trim_start].
  rewrite Hd. cbn [rev]. rewrite rev_app_distr, rev_involutive. reflexivity.
Qed.

Lemma digit_not_special (c : N) :
  is_dec_digit c = true ->
  is_js_whitespace c = false /\ (c =? 43)%N = false /\ (c =? 45)%N = false /\ radix_of_prefix c = None.
Proof.
  unfold is_dec_digit, is_js_whitespace, radix_of_prefix. rewrite andb_true_iff, !N.leb_le.
  intros Hc. cbn [existsb]. n_cases; repeat split; reflexivity.
Qed.

Lemma parse_unsigned_point (ds1 ds2 : jstr) :
  forallb is_dec_digit ds1 = true -> forallb is_dec_digit ds2 = true -> ds1 <> [] ->
  parse_unsigned_decimal (ds1 ++ 46%N :: ds2) =
  Some (digits_value 0 (ds1 ++ ds2), - Z.of_nat (List.length ds2)).
Proof.
  intros D1 D2 H1. unfold parse_unsigned_decimal.
  rewrite read_digits_app by exact D1.
  replace (read_digits 10 (digits_value 0 ds1) (0 + List.length ds1) (46%N :: ds2))
    with (digits_value 0 ds1, (0 + List.length ds1)%nat, 46%N :: ds2) by reflexivity.
  cbv beta iota zeta. change (46 =? 46)%N with true. cbv iota.
  rewrite <- (app_nil_r ds2) at 1. rewrite read_digits_app by exact D2.
  cbn [read_digits]. rewrite !Nat.add_0_l.
  destruct ds1 as [|c ds1]; [congruence|]. cbn [List.length Nat.add Nat.eqb].
  unfold digits_value. rewrite fold_left_app. reflexivity.
Qed.

Lemma parse_two_decimal_text (p : N) :
  parse_str_numeric (two_decimal_text p) = Some (SNDecimal false (Z.of_N p) (-2)).
Proof.
  unfold two_decimal_text.
  set (a := (48 + (p mod 100) / 10)%N). set (b := (48 + p mod 10)%N).
  assert (Ha : is_dec_digit a = true) by (unfold a, is_dec_digit; n_cases; reflexivity).
  assert (Hb : is_dec_digit b = true) by (unfold b, is_dec_digit; n_cases; reflexivity).
  assert (Hv : digits_value 0 (number_to_string_N (p / 100)) = Z.of_N (p / 100))
    by apply digits_value_number.
  assert (D1 : forallb is_dec_digit (number_to_string_N (p / 100)) = true) by apply uint_digits.
  destruct (number_to_string_N (p / 100)) as [|c t] eqn:E.
  { unfold number_to_string_N in E. apply uint_to_jstr_nil, to_uint_not_nil in E. contradiction. }
  assert (Hc : is_dec_digit c = true) by (simpl in D1; apply andb_prop in D1; tauto).
  destruct (digit_not_special c Hc) as (Wc & P43 & P45 & _).
  assert (Hsig : parse_signed false ((c :: t) ++ [46%N; a; b]) = Some (SNDecimal false (Z.of_N p) (-2))).
  { unfold parse_signed.
    replace (jstr_eqb ((c :: t) ++ [46%N; a; b]) (js "Infinity")) with false.
    2:{ symmetry. apply Bool.not_true_iff_false. rewrite jstr_eqb_eq. intros Eq. inversion Eq as [Ec].
        subst c. discriminate. }
    rewrite (parse_unsigned_point (c :: t) [a; b]); [|exact D1|simpl; rewrite Ha, Hb; reflexivity|discriminate].
    cbn [option_map fst snd]. do 2 f_equal. unfold digits_value in *. rewrite fold_left_app, Hv.
    cbn [fold_left]. unfold a, b. nlia. }
  unfold parse_str_numeric.
  replace ((c :: t) ++ [46%N; a; b]) with (c :: (t ++ [46%N; a]) ++ [b])
    by (simpl; rewrite <- app_assoc; reflexivity).
  rewrite trim_around by (try apply digit_not_special; assumption).
  rewrite P43, P45.
  replace (c :: (t ++ [46%N; a]) ++ [b]) with ((c :: t) ++ [46%N; a; b]) in *
    by (simpl; rewrite <- app_assoc; reflexivity).
  cbn [app]. destruct t as [|y t'].
  - cbn [app]. replace (radix_of_prefix 46) with (@None Z) by reflexivity.
    destruct (c =? 48)%N; exact Hsig.
  - assert (Hy : is_dec_digit y = true) by (simpl in D1; rewrite !andb_true_iff in D1; tauto).
    cbn [app] in Hsig |- *. destruct (digit_not_special y Hy) as (_ & _ & _ & ->).
    destruct (c =? 48)%N; exact Hsig.
Qed.

Lemma strip_zeros_le (fuel : nat) (m : Z) : 0 <= m -> 0 <= strip_zeros fuel m <= m.
Proof.
  revert m. induction fuel as [|f IH]; intros m Hm; simpl; [lia|].
  destruct ((0 <? m) && (m mod 10 =? 0)); [|lia].
  pose proof (IH (m / 10) ltac:(apply Z.div_pos; lia)). pose proof (Z.div_le_upper_bound m 10 m). nlia.
Qed.

(** An integer below 2^53 has at most 16 significant digits. *)
Lemma short_literal_small (neg : bool) (m k : Z) :
  0 <= m < 2 ^ 53 -> short_literal (SNDecimal neg m k) = true.
Proof.
  intros Hm. unfold short_literal, significand. apply Z.ltb_lt.
  pose proof (strip_zeros_le (Z.to_nat (Zdigits2 m)) m (proj1 Hm)). lia.
Qed.

Lemma of_decimal_is_nearest (p : Z) (k : nat) :
  0 <= p < 2 ^ 53 -> (1 <= k)%nat -> 10 ^ Z.of_nat k < 2 ^ 53 ->
  of_decimal p k = decimal_to_float false p (- Z.of_nat k).
Proof.
  intros Hp Hk Hten.
  assert (Hpow : 0 < 10 ^ Z.of_nat k) by (apply Z.pow_pos_nonneg; lia).
  assert (Hk53 : Z.of_nat k < 53).
  { apply (Z.pow_lt_mono_r_iff 2); [lia|lia|].
    eapply Z.le_lt_trans; [|exact Hten]. apply Z.pow_le_mono_l. lia. }
  unfold of_decimal, fdiv, of_int.
  destruct (10 ^ Z.of_nat k) as [|q|q] eqn:Eq; [lia| |lia].
  assert (Hq : Zpos (digits2_pos q) <= 53) by (apply digits2_le_53; lia).
  unfold binary_normalize at 2. rewrite binary_round_small by exact Hq.
  destruct p as [|pp|pp]; [reflexivity| |lia].
  assert (Hpp : Zpos (digits2_pos pp) <= 53) by (apply digits2_le_53; lia).
  unfold binary_normalize. rewrite binary_round_small by exact Hpp.
  unfold SFdiv. rewrite div_core_canon by (try rewrite <- Eq, Z.even_pow by lia; auto).
  unfold decimal_to_float.
  replace (400 <? - Z.of_nat k) with false by lia.
  replace (- Z.of_nat k <? - 400 - Zdigits2 (Zpos pp)) with false
    by (change (Zdigits2 (Zpos pp)) with (Zpos (digits2_pos pp)); lia).
  replace (0 <=? - Z.of_nat k) with false by lia.
  rewrite Z.opp_involutive, Eq. reflexivity.
Qed.
