(* ===== verification/JsValue.v ===== *)
(** The JavaScript values [fetchWeatherData] handles: the result of
    [response.json()] (a JSON value) and [undefined]; the values a [throw]
    carries; property access [v.p] with the [TypeError] it throws on
    [undefined] and [null]; [ToNumber], which the subtraction in [toCelsius]
    applies to its argument (on an array through ToPrimitive, i.e. the
    text [Array.prototype.join] gives, then StringToNumber).  What differs
    between engines (the text of error messages, and the digits beyond the
    20th significant one StringToNumber may round) is the interface
    [JsEngine]; [JsEngineLaws] states that an engine's StringToNumber is
    the grammar and rounding of [JsNumber] on the literals all engines
    agree on.  The theorems of the library are stated for every instance,
    or every lawful one. *)

From Stdlib Require Import List Bool ZArith NArith String Lia Floats.SpecFloat.
From S2P Require Import Prelude JsString Binary64 JsNumber.
Import ListNotations.

#[local] Set Warnings "-register-all".
Inductive jsval : Type :=
| JUndefined
| JNull
| JBool (b : bool)
| JNumber (x : float)
| JString (s : jstr)
| JArray (l : list jsval)
| JObject (fields : list (jstr * jsval)).

(** A thrown value: an instance of [Error] (its constructor name and its
    [message]) or any other value. *)
Inductive thrown : Type :=
| ErrorObject (name message : jstr)
| OtherThrown (v : jsval).

(** What the handler needs from the engine. *)
Class JsEngine : Type := {
  (** ToNumber on a string (ECMA-262 StringToNumber) *)
  string_to_number : jstr -> float;
  (** the message of the [TypeError] thrown by reading property [p] of
      [null] ([true]) or [undefined] ([false]) *)
  property_error_message : bool -> jstr -> jstr;
  (** the message of the [URIError] of [encodeURIComponent] *)
  uri_error_message : jstr
}.

Section Values.
Context `{JsEngine}.

(** The value of the last member named [k]: [JSON.parse] keeps the last
    of duplicated keys. *)
Fixpoint assoc_last (k : jstr) (fields : list (jstr * jsval)) : option jsval :=
  match fields with
  | [] => None
  | (k', v) :: rest =>
      match assoc_last k rest with
      | Some w => Some w
      | None => if list_eq_dec N.eq_dec k k' then Some v else None
      end
  end.

(** [v.p] for the property names the handler reads ([name], [sys],
    [country], [main], [temp], [feels_like]), none of which a prototype
    of a JSON value defines. *)
Definition get_prop (v : jsval) (p : jstr) : thrown + jsval :=
  match v with
  | JUndefined => inl (ErrorObject (js "TypeError") (property_error_message false p))
  | JNull => inl (ErrorObject (js "TypeError") (property_error_message true p))
  | JObject fields =>
      inr (match assoc_last p fields with Some w => w | None => JUndefined end)
  | _ => inr JUndefined
  end.

End Values.

(** Text produced from a value: pieces of text, with numbers kept as
    numbers (their decimal form is [Number::toString]). *)
Inductive piece : Type :=
| PText (s : jstr)
| PNum (x : float).

(** [l1 ++ sep ++ l2 ++ sep ++ ...] *)
Fixpoint join_with {A : Type} (sep : list A) (ls : list (list A)) : list A :=
  match ls with
  | [] => []
  | [l] => l
  | l :: rest => l ++ sep ++ join_with sep rest
  end.

(** ToString (ECMA-262 7.1.17) as a template literal applies it to a JSON
    value: an array is joined with [","] ([undefined] and [null] elements
    give the empty string), a plain object gives ["[object Object]"]. *)
Fixpoint to_string_pieces (v : jsval) : list piece :=
  match v with
  | JUndefined => [PText (js "undefined")]
  | JNull => [PText (js "null")]
  | JBool b => [PText (if b then js "true" else js "false")]
  | JNumber x => [PNum x]
  | JString s => [PText s]
  | JArray l =>
      join_with [PText (js ",")]
        ((fix elems (l : list jsval) : list (list piece) :=
            match l with
            | [] => []
            | x :: r => match x with
                        | JUndefined | JNull => []
                        | _ => to_string_pieces x
                        end :: elems r
            end) l)
  | JObject _ => [PText (js "[object Object]")]
  end.

(** The text of pieces that hold no number. *)
Fixpoint pieces_text (ps : list piece) : option jstr :=
  match ps with
  | [] => Some []
  | PText s :: r => option_map (app s) (pieces_text r)
  | PNum _ :: _ => None
  end.

Section Conversion.
Context `{JsEngine}.

(** StringToNumber of the text of [ps].  A number piece stands for
    [Number::toString(x)], which StringToNumber reads back as [x] (its
    digits are the shortest that round to [x]; [-0] prints as ["0"]); a
    number next to other text comes from a join, whose [","] is not
    numeric. *)
Definition pieces_to_number (ps : list piece) : float :=
  match ps with
  | [PNum x] => match x with S754_zero _ => S754_zero false | _ => x end
  | _ => match pieces_text ps with Some s => string_to_number s | None => NaN end
  end.

(** ToNumber (ECMA-262 7.1.4); an array or a plain object converts
    through ToPrimitive, i.e. through its ToString: the joined elements,
    or ["[object Object]"], which is not numeric. *)
Definition to_number (v : jsval) : float :=
  match v with
  | JUndefined => NaN
  | JNull => S754_zero false
  | JBool b => if b then of_int 1 else S754_zero false
  | JNumber x => x
  | JString s => string_to_number s
  | JArray l => pieces_to_number (to_string_pieces (JArray l))
  | JObject _ => NaN
  end.
End Conversion.

(** What every engine's StringToNumber is: the grammar and the nearest
    rounding of [JsNumber], on literals of at most 20 significant digits,
    and [NaN] on text that is not a StringNumericLiteral. *)
Class JsEngineLaws `{JsEngine} : Prop := {
  string_to_number_short : forall s n,
    parse_str_numeric s = Some n -> short_literal n = true -> string_to_number s = numeric_value n;
  string_to_number_invalid : forall s, parse_str_numeric s = None -> string_to_number s = NaN
}.

(** ToBoolean (ECMA-262 7.1.2): [undefined], [null], [false], [+0], [-0],
    [NaN] and the empty string are falsy. *)
Definition js_truthy (v : jsval) : bool :=
  match v with
  | JUndefined | JNull => false
  | JBool b => b
  | JNumber x => match x with S754_zero _ | S754_nan => false | _ => true end
  | JString s => negb (str_falsy s)
  | JArray _ | JObject _ => true
  end.

(** The engine of the concrete runs: V8's messages, and StringToNumber
    exactly as [JsNumber] computes it. *)
#[export] Instance v8_messages : JsEngine := {
  string_to_number := str_to_number;
  property_error_message := fun is_null p =>
    js "Cannot read properties of " ++ (if is_null then js "null" else js "undefined")
    ++ js " (reading '" ++ p ++ js "')";
  uri_error_message := js "URI malformed"
}.

#[export] Instance v8_laws : JsEngineLaws.
Proof.
  split; intros s; simpl; unfold str_to_number.
  - intros n -> _. reflexivity.
  - intros ->. reflexivity.
Qed.
