(* ===== verification/UnitConverter.v ===== *)
(** The unit conversion of useweatherInfo.ts line 4,
    [const toCelsius = (k: number) => Math.round((k - 273.15) * 10) / 10],
    on binary64 numbers, its exact specification from spec 4.1 (round half
    up of the scaled value, then divide by ten), and the refinement theorem
    between them on every provider reading with two decimals from 223.15 K
    to 333.15 K, proved by evaluating both sides on each reading.  A
    reading the provider sends as a string (["288.15"]) reaches [toCelsius]
    through ToNumber; [string_reading_is_reading] shows that every lawful
    engine converts it to the same number as the numeric reading. *)

From Stdlib Require Import ZArith Bool Lia Floats.SpecFloat.
From S2P Require Import Prelude JsString Binary64 JsNumber JsValue.
#[local] Open Scope Z_scope.

(** The literal [273.15] of the source. *)
Definition kelvin_offset : float := of_decimal 27315 2.

(** The literal [10]. *)
Definition ten : float := of_int 10.

Definition toCelsius (k : float) : float :=
  fdiv (js_round (fmul (fsub k kelvin_offset) ten)) ten.

(** ** Specification *)

(** A reading of the provider: a decimal number with two decimals, [p/100]
    kelvin, as [JSON.parse] returns it (the nearest number). *)
Definition reading (p : Z) : float := of_decimal p 2.

(** Spec 4.1: [(p/100 - 273.15) * 10 = (p - 27315)/10] tenths of a degree,
    rounded half up: [floor((p - 27315)/10 + 1/2)]. *)
Definition celsius_tenths (p : Z) : Z := (2 * (p - 27315) + 10) / 20.

(** The number the exact computation denotes: that many tenths. *)
Definition toCelsius_spec (p : Z) : float := fdiv (of_int (celsius_tenths p)) ten.

(** The readings where the binary64 code answers [-0]: from 273.10 K to
    273.14 K the scaled value lies in [-0.5, 0), and [Math.round] returns
    [-0] there. *)
Definition negative_zero_reading (p : Z) : bool := (27310 <=? p) && (p <=? 27314).

(** The coldest and the warmest reading checked, in hundredths of a kelvin,
    and the number of readings in between. *)
Definition coldest : Z := 22315.
Definition range_size : nat := Z.to_nat 11001.

Definition toCelsius_agrees (p : Z) : bool :=
  float_eqb (toCelsius (reading p))
            (if negative_zero_reading p then S754_zero true else toCelsius_spec p).

(** ** Lemmas *)

Lemma kelvin_offset_bits : kelvin_offset = S754_finite false 4805305618032230 (-44).
Proof. vm_compute. reflexivity. Qed.

Lemma toCelsius_agrees_on_range : forall_range toCelsius_agrees coldest range_size = true.
Proof. vm_compute. reflexivity. Qed.

Lemma toCelsius_spec_strict_eq_zero : strict_eq (S754_zero true) (toCelsius_spec 27310) = true.
Proof. vm_compute. reflexivity. Qed.

(** The checked readings. *)
Definition in_checked_range (p : Z) : Prop := coldest <= p <= coldest + 11000.

Lemma toCelsius_reading (p : Z) :
  in_checked_range p ->
  toCelsius (reading p) =
  if negative_zero_reading p then S754_zero true else toCelsius_spec p.
Proof.
  unfold in_checked_range. intros Hp. apply float_eqb_eq.
  apply (forall_range_spec _ _ _ toCelsius_agrees_on_range). unfold range_size, coldest in *. lia.
Qed.

Lemma celsius_tenths_range (p : Z) : in_checked_range p -> -500 <= celsius_tenths p <= 600.
Proof. unfold in_checked_range, coldest, celsius_tenths. nlia. Qed.

Section StringReadings.
Context `{JsEngineLaws}.

Lemma to_number_two_decimal_text (p : N) :
  (p < 2 ^ 53)%N -> to_number (JString (two_decimal_text p)) = reading (Z.of_N p).
Proof.
  intros Hp. cbn [to_number].
  rewrite (string_to_number_short _ _ (parse_two_decimal_text p)) by (apply short_literal_small; lia).
  unfold reading. rewrite (of_decimal_is_nearest (Z.of_N p) 2) by (try reflexivity; lia). reflexivity.
Qed.
End StringReadings.

(** ** Properties *)

(** C9: On every provider reading with two decimals from 223.15 K to
    333.15 K, the binary64 computation of line 4 gives exactly the number
    nearest to the spec's value (the exact tenths, rounded half up, divided
    by ten), except that 273.10 K to 273.14 K give [-0] instead of [+0]. *)
Theorem toCelsius_refines_spec (p : Z) :
  coldest <= p <= coldest + 11000 ->
  toCelsius (reading p) = if negative_zero_reading p then S754_zero true else toCelsius_spec p.
Proof. intros Hp. apply toCelsius_reading. exact Hp. Qed.

(** The conversions of spec 8: 273.15 K is 0 (positive zero), 300 K is
    26.9, 288.15 K is 15 and 287 K is 13.9. *)
Example toCelsius_spec_examples :
  toCelsius (reading 27315) = S754_zero false /\
  toCelsius (of_int 300) = of_decimal 269 1 /\
  toCelsius (reading 28815) = of_int 15 /\
  toCelsius (reading 28700) = of_decimal 139 1.
Proof. vm_compute. repeat split. Qed.

Section StringReadingClaim.
Context `{JsEngineLaws}.

(** C28: A temperature the provider sends as a string with two decimals,
    ["p/100"] for any [p < 2^53], is converted by ToNumber (the
    subtraction of [toCelsius], line 4) to exactly the number [JSON.parse]
    gives the numeric reading [p/100], on every engine that follows
    StringToNumber; so a string reading is converted to Celsius like a
    numeric one. *)
Theorem string_reading_is_reading (p : N) :
  (p < 2 ^ 53)%N -> to_number (JString (two_decimal_text p)) = reading (Z.of_N p).
Proof. exact (to_number_two_decimal_text p). Qed.
End StringReadingClaim.

(** The refinement at London's 288.15 K. *)
Lemma toCelsius_refines_spec_witness :
  coldest <= 28815 <= coldest + 11000 /\
  toCelsius (reading 28815) =
  if negative_zero_reading 28815 then S754_zero true else toCelsius_spec 28815.
Proof.
  assert (H : coldest <= 28815 <= coldest + 11000) by (unfold coldest; lia).
  split; [exact H|apply toCelsius_refines_spec; exact H].
Defined.

(** London's reading sent as the string ["288.15"], under V8. *)
Lemma string_reading_is_reading_witness :
  (28815 < 2 ^ 53)%N /\
  to_number (JString (two_decimal_text 28815)) = reading 28815.
Proof.
  assert (H : (28815 < 2 ^ 53)%N) by reflexivity.
  split; [exact H|]. exact (string_reading_is_reading 28815 H).
Defined.
