(* ===== verification/UriEncode.v ===== *)
(** [encodeURIComponent] (ECMA-262 19.2.6.5, the abstract operation Encode
    with the unescaped set [A-Z a-z 0-9 - _ . ! ~ * ' ( )]), which
    [fetchWeatherData] applies to the city (useweatherInfo.ts line 30): a
    string of UTF-16 code units is read as code points (a leading surrogate
    followed by a trailing one forms a pair), each code point outside the
    unescaped set is written as its UTF-8 bytes in [%XX] form with upper
    case hexadecimal digits, and an unpaired surrogate throws a [URIError].
    The lemmas show that the output consists of unescaped characters and
    [%XX] triples only, so it never contains the separators [&], [=], [#]
    or [+] of a query string. *)

From Stdlib Require Import List Bool ZArith NArith String Lia Wf_nat.
From S2P Require Import Prelude JsString JsValue.
Import ListNotations.
#[local] Open Scope N_scope.

(** The characters [encodeURIComponent] leaves as they are. *)
Definition is_unreserved (c : N) : bool :=
  ((65 <=? c) && (c <=? 90)) || ((97 <=? c) && (c <=? 122)) || ((48 <=? c) && (c <=? 57))
  || existsb (N.eqb c) [45; 95; 46; 33; 126; 42; 39; 40; 41].

Definition is_leading_surrogate (c : N) : bool := (55296 <=? c) && (c <=? 56319).
Definition is_trailing_surrogate (c : N) : bool := (56320 <=? c) && (c <=? 57343).

(** UTF16SurrogatePairToCodePoint *)
Definition surrogate_pair_to_code_point (lead trail : N) : N :=
  (lead - 55296) * 1024 + (trail - 56320) + 65536.

(** The UTF-8 encoding of a code point (RFC 3629). *)
Definition utf8_bytes (cp : N) : list N :=
  if cp <? 128 then [cp]
  else if cp <? 2048 then [192 + cp / 64; 128 + cp mod 64]
  else if cp <? 65536 then [224 + cp / 4096; 128 + (cp / 64) mod 64; 128 + cp mod 64]
  else [240 + cp / 262144; 128 + (cp / 4096) mod 64; 128 + (cp / 64) mod 64; 128 + cp mod 64].

(** An upper-case hexadecimal digit. *)
Definition hex_digit (d : N) : N := if d <? 10 then 48 + d else 55 + d.

Definition percent_encode (b : N) : jstr := [37; hex_digit (b / 16); hex_digit (b mod 16)].

Definition encode_code_point (cp : N) : jstr := flat_map percent_encode (utf8_bytes cp).

(** The loop of Encode; [None] where it throws. *)
Fixpoint encode_units (s : jstr) : option jstr :=
  match s with
  | [] => Some []
  | c :: rest =>
      if is_unreserved c then option_map (cons c) (encode_units rest)
      else if is_trailing_surrogate c then None
      else if is_leading_surrogate c then
        match rest with
        | c2 :: rest' =>
            if is_trailing_surrogate c2 then
              option_map (app (encode_code_point (surrogate_pair_to_code_point c c2)))
                         (encode_units rest')
            else None
        | [] => None
        end
      else option_map (app (encode_code_point c)) (encode_units rest)
  end.

Definition encodeURIComponent `{JsEngine} (s : jstr) : thrown + jstr :=
  match encode_units s with
  | Some r => inr r
  | None => inl (ErrorObject (js "URIError") uri_error_message)
  end.

(** The characters an encoded string may contain. *)
Definition uri_component_char (c : N) : bool := is_unreserved c || (c =? 37).

(** The characters ECMA-262 lets [encodeURIComponent] keep (uriAlpha,
    DecimalDigit, uriMark) and the escape mark [%], written out one by
    one, independently of the ranges of [is_unreserved]. *)
Definition component_alphabet : jstr :=
  js "ABCDEFGHIJKLMNOPQRSTUVWXYZabcdefghijklmnopqrstuvwxyz0123456789-_.!~*'()%".

(** The separators of a query string. *)
Definition query_separators : jstr := js "&=#+".

(** ** Lemmas *)

Lemma is_unreserved_alnum (c : N) :
  (65 <= c <= 90) \/ (97 <= c <= 122) \/ (48 <= c <= 57) -> is_unreserved c = true.
Proof. unfold is_unreserved. rewrite !orb_true_iff, !andb_true_iff, !N.leb_le. tauto. Qed.

Lemma hex_digit_char (d : N) : d < 16 -> is_unreserved (hex_digit d) = true.
Proof.
  intros Hd. apply is_unreserved_alnum. unfold hex_digit.
  destruct (N.ltb_spec d 10); lia.
Qed.

(** A code unit is below 2^16. *)
Definition is_code_unit (c : N) : bool := c <? 65536.

Lemma percent_encode_chars (b : N) :
  b < 256 -> forallb uri_component_char (percent_encode b) = true.
Proof.
  intros Hb. unfold percent_encode, uri_component_char. simpl.
  rewrite !hex_digit_char by nlia. reflexivity.
Qed.

Lemma utf8_bytes_bound (cp : N) : cp < 1114112 -> Forall (fun b => b < 256) (utf8_bytes cp).
Proof.
  intros Hcp. unfold utf8_bytes.
  repeat match goal with |- context [if ?c <? ?k then _ else _] => destruct (N.ltb_spec c k) end;
    repeat (apply Forall_cons; [nlia|]); apply Forall_nil.
Qed.

Lemma encode_code_point_chars (cp : N) :
  cp < 1114112 -> forallb uri_component_char (encode_code_point cp) = true.
Proof.
  intros Hcp. unfold encode_code_point.
  induction (utf8_bytes_bound cp Hcp) as [|b l Hb _ IH]; [reflexivity|].
  cbn [flat_map]. rewrite forallb_app, percent_encode_chars, IH by exact Hb. reflexivity.
Qed.

Lemma surrogate_pair_bound (c c2 : N) :
  is_leading_surrogate c = true -> is_trailing_surrogate c2 = true ->
  surrogate_pair_to_code_point c c2 < 1114112.
Proof.
  unfold is_leading_surrogate, is_trailing_surrogate, surrogate_pair_to_code_point.
  rewrite !andb_true_iff, !N.leb_le. lia.
Qed.

(** The characters [uri_component_char] accepts are those of the
    alphabet, none of which separates query parameters; checked on the 128
    ASCII code units, beyond which it accepts nothing. *)
Lemma uri_component_char_alphabet (c : N) :
  uri_component_char c = true -> In c component_alphabet /\ ~ In c query_separators.
Proof.
  intros Hc.
  assert (Hlt : c < 128).
  { destruct (N.ltb_spec c 128) as [|Hge]; [assumption|exfalso]. revert Hc.
    unfold uri_component_char, is_unreserved. cbn [existsb]. n_cases; congruence. }
  assert (Hall : forall_range (fun z => implb (uri_component_char (Z.to_N z))
                   (existsb (N.eqb (Z.to_N z)) component_alphabet &&
                    negb (existsb (N.eqb (Z.to_N z)) query_separators))) 0%Z 128 = true)
    by (vm_compute; reflexivity).
  pose proof (forall_range_spec _ _ _ Hall (Z.of_N c) ltac:(lia)) as Hz. cbn beta in Hz.
  rewrite N2Z.id, Hc in Hz. apply andb_prop in Hz as [Hin Hsep]. split.
  - apply existsb_exists in Hin as (x & Hx & Hxc). apply N.eqb_eq in Hxc. subst x. exact Hx.
  - intros Hin'. apply negb_true_iff in Hsep. rewrite <- not_true_iff_false in Hsep. apply Hsep.
    apply existsb_exists. exists c. split; [exact Hin'|apply N.eqb_refl].
Qed.

(** The characters of an encoding. *)
Lemma encode_units_uri_chars (s r : jstr) :
  forallb is_code_unit s = true -> encode_units s = Some r ->
  forallb uri_component_char r = true.
Proof.
  revert r. induction s as [s IH] using (induction_ltof1 _ (@List.length N)); intros r Hs He.
  destruct s as [|c rest]; simpl in He; [inv He; reflexivity|].
  simpl in Hs. apply andb_prop in Hs as [Hc Hrest]. unfold is_code_unit in Hc.
  apply N.ltb_lt in Hc.
  destruct (is_unreserved c) eqn:Eu.
  { apply option_map_some in He as (r' & He & <-).
    simpl. unfold uri_component_char at 1. rewrite Eu.
    apply (IH rest); [unfold ltof; simpl; lia|assumption|assumption]. }
  destruct (is_trailing_surrogate c); [discriminate|].
  destruct (is_leading_surrogate c) eqn:El.
  - destruct rest as [|c2 rest']; [discriminate|].
    destruct (is_trailing_surrogate c2) eqn:Et; [|discriminate].
    apply option_map_some in He as (r' & He & <-).
    simpl in Hrest. apply andb_prop in Hrest as [_ Hrest'].
    rewrite forallb_app, encode_code_point_chars by (apply surrogate_pair_bound; assumption).
    apply (IH rest'); [unfold ltof; simpl; lia|assumption|assumption].
  - apply option_map_some in He as (r' & He & <-).
    rewrite forallb_app, encode_code_point_chars by lia.
    apply (IH rest); [unfold ltof; simpl; lia|assumption|assumption].
Qed.

(** C30: Every code unit [encodeURIComponent] writes for a string of code
    units is one of the 71 characters [A-Z a-z 0-9 - _ . ! ~ * ' ( )] and
    [%] (the hex digits of an escape are among them), so none is a query
    separator [&], [=], [#] or [+]: the city cannot add a parameter to the
    request URL of useweatherInfo.ts line 30. *)
Theorem encode_units_chars (s r : jstr) :
  forallb is_code_unit s = true -> encode_units s = Some r ->
  forall c, In c r -> In c component_alphabet /\ ~ In c query_separators.
Proof.
  intros Hs He c Hc. apply uri_component_char_alphabet.
  exact (proj1 (forallb_forall _ r) (encode_units_uri_chars s r Hs He) c Hc).
Qed.

(** "São Paulo" (with U+00E3) encodes to "S%C3%A3o%20Paulo". *)
Definition sao_paulo : jstr := [83; 227; 111; 32; 80; 97; 117; 108; 111].

Lemma encode_units_chars_witness :
  (forallb is_code_unit sao_paulo = true /\ encode_units sao_paulo = Some (js "S%C3%A3o%20Paulo")) /\
  forall c, In c (js "S%C3%A3o%20Paulo") -> In c component_alphabet /\ ~ In c query_separators.
Proof.
  assert (H : forallb is_code_unit sao_paulo = true /\
              encode_units sao_paulo = Some (js "S%C3%A3o%20Paulo")) by (split; vm_compute; reflexivity).
  split; [exact H|]. exact (encode_units_chars _ _ (proj1 H) (proj2 H)).
Defined.
