(* ===== verification/UriDecode.v ===== *)
(** The decoding the provider applies to the query of the request:
    ECMA-262's Decode with an empty reserved set, i.e. [decodeURIComponent]
    (19.2.6.3), which agrees with the query parsing of a server on every
    string [encodeURIComponent] produces (such strings contain no [+]).
    Decoding is split as the standard describes it: the string is read as
    characters and [%XX] bytes ([tokenize]), then runs of bytes are read
    as UTF-8 (rejecting overlong forms, surrogates and code points beyond
    U+10FFFF) and written back as UTF-16 code units ([utf8_decode]).

    This is a reference definition, not code of the repository.  The round
    trip [decode_encode] shows that it inverts [encode_units]. *)

From Stdlib Require Import List Bool NArith String Lia Wf_nat.
From S2P Require Import Prelude JsString UriEncode.
Import ListNotations.
#[local] Open Scope N_scope.

(** The value of a hexadecimal digit of either case. *)
Definition hex_value (c : N) : option N :=
  if (48 <=? c) && (c <=? 57) then Some (c - 48)
  else if (65 <=? c) && (c <=? 70) then Some (c - 55)
  else if (97 <=? c) && (c <=? 102) then Some (c - 87)
  else None.

Inductive token : Type :=
| TChar (c : N)
| TByte (b : N).

(** Characters and [%XX] escapes; a [%] not followed by two hexadecimal
    digits throws. *)
Fixpoint tokenize (s : jstr) : option (list token) :=
  match s with
  | [] => Some []
  | c :: rest =>
      if c =? 37 then
        match rest with
        | h1 :: h2 :: rest' =>
            match hex_value h1, hex_value h2 with
            | Some d1, Some d2 => option_map (cons (TByte (16 * d1 + d2))) (tokenize rest')
            | _, _ => None
            end
        | _ => None
        end
      else option_map (cons (TChar c)) (tokenize rest)
  end.

Definition is_continuation (b : N) : bool := (128 <=? b) && (b <=? 191).

(** UTF16EncodeCodePoint. *)
Definition utf16_encode (cp : N) : list N :=
  if cp <? 65536 then [cp]
  else [(cp - 65536) / 1024 + 55296; (cp - 65536) mod 1024 + 56320].

(** A scalar value: not a surrogate, at most U+10FFFF. *)
Definition is_scalar (cp : N) : bool :=
  negb ((55296 <=? cp) && (cp <=? 57343)) && (cp <? 1114112).

(** The code point of a complete multi-byte sequence if it is well formed
    and not overlong. *)
Definition utf8_check (min cp : N) : option (list N) :=
  if (min <=? cp) && is_scalar cp then Some (utf16_encode cp) else None.

Fixpoint utf8_decode (t : list token) : option (list N) :=
  match t with
  | [] => Some []
  | TChar c :: r => option_map (cons c) (utf8_decode r)
  | TByte b :: r =>
      if b <? 128 then option_map (cons b) (utf8_decode r)
      else if (192 <=? b) && (b <=? 223) then
        match r with
        | TByte b1 :: r' =>
            if is_continuation b1 then
              match utf8_check 128 ((b - 192) * 64 + (b1 - 128)) with
              | Some u => option_map (app u) (utf8_decode r')
              | None => None
              end
            else None
        | _ => None
        end
      else if (224 <=? b) && (b <=? 239) then
        match r with
        | TByte b1 :: TByte b2 :: r' =>
            if is_continuation b1 && is_continuation b2 then
              match utf8_check 2048 ((b - 224) * 4096 + (b1 - 128) * 64 + (b2 - 128)) with
              | Some u => option_map (app u) (utf8_decode r')
              | None => None
              end
            else None
        | _ => None
        end
      else if (240 <=? b) && (b <=? 247) then
        match r with
        | TByte b1 :: TByte b2 :: TByte b3 :: r' =>
            if is_continuation b1 && is_continuation b2 && is_continuation b3 then
              match utf8_check 65536 ((b - 240) * 262144 + (b1 - 128) * 4096
                                      + (b2 - 128) * 64 + (b3 - 128)) with
              | Some u => option_map (app u) (utf8_decode r')
              | None => None
              end
            else None
        | _ => None
        end
      else None
  end.

(** [decodeURIComponent]; [None] where it throws a [URIError]. *)
Definition decode (s : jstr) : option (list N) :=
  match tokenize s with Some t => utf8_decode t | None => None end.

(** ** Lemmas *)

Lemma hex_value_digit (d : N) : d < 16 -> hex_value (hex_digit d) = Some d.
Proof.
  intros Hd. unfold hex_digit. destruct (N.ltb_spec d 10); unfold hex_value; n_cases; f_equal; lia.
Qed.

Lemma tokenize_percent (b : N) (rest : jstr) :
  b < 256 ->
  tokenize (percent_encode b ++ rest) = option_map (cons (TByte b)) (tokenize rest).
Proof.
  intros Hb. cbn [percent_encode app tokenize N.eqb Pos.eqb].
  rewrite !hex_value_digit by nlia. do 3 f_equal. nlia.
Qed.

Lemma tokenize_bytes (l : list N) (rest : jstr) :
  Forall (fun b => b < 256) l ->
  tokenize (flat_map percent_encode l ++ rest) = option_map (app (map TByte l)) (tokenize rest).
Proof.
  induction 1 as [|b l Hb _ IH]; [cbn [flat_map map app]; destruct (tokenize rest); reflexivity|].
  cbn [flat_map map]. rewrite <- app_assoc, tokenize_percent, IH by exact Hb.
  destruct (tokenize rest); reflexivity.
Qed.

Lemma tokenize_unreserved (c : N) (rest : jstr) :
  is_unreserved c = true -> tokenize (c :: rest) = option_map (cons (TChar c)) (tokenize rest).
Proof.
  intros Hu. simpl. destruct (N.eqb_spec c 37) as [->|]; [discriminate|reflexivity].
Qed.

Lemma utf8_check_ok (min x cp : N) :
  x = cp -> min <= cp -> is_scalar cp = true -> utf8_check min x = Some (utf16_encode cp).
Proof.
  intros -> Hm Hs. unfold utf8_check. rewrite Hs. destruct (N.leb_spec min cp); [reflexivity|lia].
Qed.

Lemma utf8_decode_bytes (cp : N) (r : list token) :
  is_scalar cp = true ->
  utf8_decode (map TByte (utf8_bytes cp) ++ r) = option_map (app (utf16_encode cp)) (utf8_decode r).
Proof.
  intros Hs. pose proof Hs as Hs'. unfold is_scalar in Hs'.
  rewrite andb_true_iff, negb_true_iff, andb_false_iff, N.ltb_lt, !N.leb_gt in Hs'.
  unfold utf8_bytes. destruct (N.ltb_spec cp 128).
  - cbn [map app utf8_decode]. n_cases. unfold utf16_encode. n_cases. reflexivity.
  - destruct (N.ltb_spec cp 2048); [|destruct (N.ltb_spec cp 65536)];
      cbn [map app utf8_decode]; unfold is_continuation; n_cases;
      (erewrite utf8_check_ok; [reflexivity|nlia|nlia|exact Hs]).
Qed.

Lemma utf16_encode_pair (c c2 : N) :
  is_leading_surrogate c = true -> is_trailing_surrogate c2 = true ->
  is_scalar (surrogate_pair_to_code_point c c2) = true /\
  utf16_encode (surrogate_pair_to_code_point c c2) = [c; c2].
Proof.
  unfold is_leading_surrogate, is_trailing_surrogate, surrogate_pair_to_code_point.
  rewrite !andb_true_iff, !N.leb_le. intros Hc Hc2.
  unfold is_scalar, utf16_encode. n_cases. split; [reflexivity|]. f_equal; [|f_equal]; nlia.
Qed.

Lemma utf16_encode_unit (c : N) :
  c < 65536 -> is_leading_surrogate c = false -> is_trailing_surrogate c = false ->
  is_scalar c = true /\ utf16_encode c = [c].
Proof.
  unfold is_leading_surrogate, is_trailing_surrogate. intros Hc.
  rewrite !andb_false_iff, !N.leb_gt. intros Hl Ht.
  unfold is_scalar, utf16_encode. n_cases; split; reflexivity.
Qed.

(** The tokens of an encoded string decode to the string. *)
Lemma encode_units_tokens (s r : jstr) :
  forallb is_code_unit s = true -> encode_units s = Some r ->
  exists t, tokenize r = Some t /\ utf8_decode t = Some s.
Proof.
  revert r. induction s as [s IH] using (induction_ltof1 _ (@List.length N)); intros r Hs He.
  destruct s as [|c rest]; simpl in He; [inv He; exists []; split; reflexivity|].
  simpl in Hs. apply andb_prop in Hs as [Hc Hrest]. unfold is_code_unit in Hc.
  apply N.ltb_lt in Hc.
  destruct (is_unreserved c) eqn:Eu.
  { apply option_map_some in He as (r' & He & <-).
    destruct (IH rest) with (r := r') as (t & Ht & Hd); [unfold ltof; simpl; lia|assumption..|].
    exists (TChar c :: t). rewrite tokenize_unreserved, Ht by exact Eu. simpl. rewrite Hd. split; reflexivity. }
  destruct (is_trailing_surrogate c) eqn:Etr; [discriminate|].
  destruct (is_leading_surrogate c) eqn:El.
  - destruct rest as [|c2 rest']; [discriminate|].
    destruct (is_trailing_surrogate c2) eqn:Et; [|discriminate].
    apply option_map_some in He as (r' & He & <-).
    simpl in Hrest. apply andb_prop in Hrest as [_ Hrest'].
    destruct (IH rest') with (r := r') as (t & Ht & Hd); [unfold ltof; simpl; lia|assumption..|].
    destruct (utf16_encode_pair c c2 El Et) as [Hsc Hu].
    pose proof (utf8_bytes_bound _ (surrogate_pair_bound c c2 El Et)) as Hb.
    exists (map TByte (utf8_bytes (surrogate_pair_to_code_point c c2)) ++ t).
    unfold encode_code_point. rewrite tokenize_bytes, Ht, utf8_decode_bytes, Hd, Hu by assumption.
    split; reflexivity.
  - apply option_map_some in He as (r' & He & <-).
    destruct (IH rest) with (r := r') as (t & Ht & Hd); [unfold ltof; simpl; lia|assumption..|].
    destruct (utf16_encode_unit c Hc El Etr) as [Hsc Hu].
    pose proof (utf8_bytes_bound c ltac:(lia)) as Hb.
    exists (map TByte (utf8_bytes c) ++ t).
    unfold encode_code_point. rewrite tokenize_bytes, Ht, utf8_decode_bytes, Hd, Hu by assumption.
    split; reflexivity.
Qed.

(** ** Properties *)

(** C32: [decodeURIComponent] inverts [encodeURIComponent]: whenever the
    city (any string of UTF-16 code units) encodes without a [URIError],
    decoding the encoded text gives back the city, code unit for code
    unit, including surrogate pairs and non-ASCII letters. *)
Theorem decode_encode (s r : jstr) :
  forallb is_code_unit s = true -> encode_units s = Some r -> decode r = Some s.
Proof.
  intros Hs He. destruct (encode_units_tokens s r Hs He) as (t & Ht & Hd).
  unfold decode. rewrite Ht. exact Hd.
Qed.

(** "São Paulo" and a surrogate pair (U+1F600) come back from their
    encodings. *)
Lemma decode_encode_witness :
  (forallb is_code_unit sao_paulo = true /\ encode_units sao_paulo = Some (js "S%C3%A3o%20Paulo")) /\
  decode (js "S%C3%A3o%20Paulo") = Some sao_paulo.
Proof.
  assert (H : forallb is_code_unit sao_paulo = true /\
              encode_units sao_paulo = Some (js "S%C3%A3o%20Paulo")) by (split; vm_compute; reflexivity).
  split; [exact H|]. exact (decode_encode _ _ (proj1 H) (proj2 H)).
Defined.
