(* ===== verification/WeatherInfo.v ===== *)
(** The hook [useWeatherInfo] of useweatherInfo.ts (lines 6-58): its state
    [loading]/[data]/[error] and the asynchronous handler
    [fetchWeatherData].  The handler suspends at two [await]s, so it is
    three functions of the state, each running until the next suspension
    or the end:

    - [fetchWeatherData] (lines 11-31): the blank-city check, the resets,
      the API-key check, [encodeURIComponent] and the call to [fetch];
    - [resume_fetch] (lines 33-40): the status checks once [fetch] settles;
    - [resume_json] (lines 40-49): the normalisation once
      [response.json()] settles.

    A segment ends with an outcome of the [try] block (it threw, it
    returned, it completed, or it suspended); [settle] runs the [catch] and
    [finally] blocks (lines 50-54).  React's setters are applied in the
    order the code calls them; a render shows the state at a suspension or
    at the end. *)

From Stdlib Require Import List Bool ZArith NArith String Lia.
From S2P Require Import Prelude JsString Binary64 JsValue UnitConverter UriEncode.
Import ListNotations.

(** [simpleWeather] (types/weatherStats): [city] and [country] are copied as
    they are; TypeScript's annotation is not checked at run time, so they
    are any value. *)
Record simpleWeather : Type := {
  city : jsval;
  country : jsval;
  temp : float;
  feels_like : float
}.

Record hook_state : Type := {
  loading : bool;
  data : option simpleWeather;
  error : option jstr
}.

(** [useState(false)], [useState(null)], [useState(null)] *)
Definition initial_state : hook_state :=
  {| loading := false; data := None; error := None |}.

Definition setLoading (b : bool) (s : hook_state) : hook_state :=
  {| loading := b; data := data s; error := error s |}.
Definition setData (d : option simpleWeather) (s : hook_state) : hook_state :=
  {| loading := loading s; data := d; error := error s |}.
Definition setError (e : option jstr) (s : hook_state) : hook_state :=
  {| loading := loading s; data := data s; error := e |}.

(** The suspension points. *)
Inductive pending : Type :=
| AwaitingFetch (url : jstr)
| AwaitingJson.

(** How a run of the [try] block ends. *)
Inductive outcome : Type :=
| Threw (e : thrown)
| Returned
| Completed
| Suspended (p : pending).

(** How the promises the handler awaits settle. *)
Inductive fetch_result : Type :=
| FetchRejected (e : thrown)
| FetchResolved (status : N).

Inductive json_result : Type :=
| JsonRejected (e : thrown)
| JsonResolved (v : jsval).

Definition msg_invalid_city : jstr := js "Enter a valid City name".
Definition msg_missing_key : jstr := js "Missing API key configuration".
Definition msg_unexpected : jstr := js "An unexpected error occurred".

(** [err instanceof Error ? err.message : "An unexpected error occurred"] *)
Definition error_message (e : thrown) : jstr :=
  match e with
  | ErrorObject _ msg => msg
  | OtherThrown _ => msg_unexpected
  end.

(** The [catch] and [finally] blocks, run when the [try] block stops other
    than by suspending. *)
Definition settle (r : hook_state * outcome) : hook_state * option pending :=
  match r with
  | (s, Suspended p) => (s, Some p)
  | (s, Threw e) => (setLoading false (setError (Some (error_message e)) s), None)
  | (s, Returned) | (s, Completed) => (setLoading false s, None)
  end.

(** [!API_KEY]: [undefined] and the empty string are falsy. *)
Definition key_falsy (key : option jstr) : bool :=
  match key with None => true | Some k => str_falsy k end.

Definition request_url (enc key : jstr) : jstr :=
  js "https://api.openweathermap.org/data/2.5/weather?q=" ++ enc ++ js "&APPID=" ++ key.

Definition response_ok (status : N) : bool := (200 <=? status)%N && (status <=? 299)%N.

(** The message thrown for a status that is not ok (lines 34-37). *)
Definition status_message (status : N) : jstr :=
  if (status =? 404)%N then js "City not found"
  else if (status =? 401)%N then js "Invalid API key"
  else if (status =? 429)%N then js "Too many requests, try later"
  else js "Failed to fetch data: " ++ number_to_string_N status.

Section Handler.
Context `{JsEngine}.

(** [processedData] (lines 42-47), property reads in evaluation order. *)
Definition process_data (result : jsval) : thrown + simpleWeather :=
  (name <- get_prop result (js "name") ;;
   sys <- get_prop result (js "sys") ;;
   ctry <- get_prop sys (js "country") ;;
   main <- get_prop result (js "main") ;;
   t <- get_prop main (js "temp") ;;
   main' <- get_prop result (js "main") ;;
   fl <- get_prop main' (js "feels_like") ;;
   inr (Build_simpleWeather name ctry (toCelsius (to_number t)) (toCelsius (to_number fl))))%wi.

(** Lines 22-31: the key check and the request; [key] is
    [import.meta.env.VITE_WEATHER_API_KEY], read on each call. *)
Definition try_start (key : option jstr) (city : jstr) (s : hook_state)
  : hook_state * outcome :=
  match key with
  | Some k =>
      if str_falsy k then (setLoading false (setError (Some msg_missing_key) s), Returned)
      else match encodeURIComponent city with
           | inl e => (s, Threw e)
           | inr enc => (s, Suspended (AwaitingFetch (request_url enc k)))
           end
  | None => (setLoading false (setError (Some msg_missing_key) s), Returned)
  end.

(** Lines 11-31, up to the first [await]. *)
Definition fetchWeatherData (key : option jstr) (city : jstr) (s : hook_state)
  : hook_state * option pending :=
  if str_falsy (trim city) then (setError (Some msg_invalid_city) s, None)
  else settle (try_start key city (setData None (setError None (setLoading true s)))).

(** Lines 33-40, once [fetch] has settled. *)
Definition resume_fetch (r : fetch_result) (s : hook_state) : hook_state * option pending :=
  settle (match r with
          | FetchRejected e => (s, Threw e)
          | FetchResolved status =>
              if response_ok status then (s, Suspended AwaitingJson)
              else (s, Threw (ErrorObject (js "Error") (status_message status)))
          end).

(** Lines 40-54, once [response.json()] has settled. *)
Definition resume_json (r : json_result) (s : hook_state) : hook_state * option pending :=
  settle (match r with
          | JsonRejected e => (s, Threw e)
          | JsonResolved v =>
              match process_data v with
              | inl e => (s, Threw e)
              | inr d => (setData (Some d) s, Completed)
              end
          end).

(** A whole call when no other call interleaves: the promises settle with
    [fr] and then [jr]. *)
Definition run_search (key : option jstr) (city : jstr) (fr : fetch_result)
  (jr : json_result) (s : hook_state) : hook_state :=
  match fetchWeatherData key city s with
  | (s1, Some (AwaitingFetch _)) =>
      match resume_fetch fr s1 with
      | (s2, Some AwaitingJson) => fst (resume_json jr s2)
      | (s2, _) => s2
      end
  | (s1, _) => s1
  end.
End Handler.

(** ** Lemmas on the segments *)

Section Segments.
Context `{JsEngine}.

Lemma toCelsius_NaN : toCelsius NaN = NaN.
Proof. reflexivity. Qed.

Lemma settle_threw (s : hook_state) (e : thrown) :
  settle (s, Threw e) =
  ({| loading := false; data := data s; error := Some (error_message e) |}, None).
Proof. reflexivity. Qed.

(** After the resets of lines 17-19, every way out of the key check and
    the call to [fetch]. *)
Lemma try_start_reset (key : option jstr) (city : jstr) (s : hook_state) :
  settle (try_start key city (setData None (setError None (setLoading true s)))) =
  if key_falsy key then
    ({| loading := false; data := None; error := Some msg_missing_key |}, None)
  else
    match key, encodeURIComponent city with
    | Some k, inr enc =>
        ({| loading := true; data := None; error := None |},
         Some (AwaitingFetch (request_url enc k)))
    | _, inl e => ({| loading := false; data := None; error := Some (error_message e) |}, None)
    | None, inr _ => ({| loading := false; data := None; error := Some msg_missing_key |}, None)
    end.
Proof.
  destruct key as [k|]; simpl; [|reflexivity].
  destruct (str_falsy k); [reflexivity|].
  destruct (encodeURIComponent city); reflexivity.
Qed.

(** What the first segment does: no suspension, with [loading] kept (the
    blank-city path) or cleared; or a request, with the state reset. *)
Lemma fetchWeatherData_shape (key : option jstr) (city : jstr) (s s' : hook_state)
  (p : option pending) :
  fetchWeatherData key city s = (s', p) ->
  (p = None /\ forallb is_js_whitespace city = true /\ s' = setError (Some msg_invalid_city) s) \/
  (p = None /\ forallb is_js_whitespace city = false /\ loading s' = false /\ data s' = None /\
   error s' <> None) \/
  (exists k enc, key = Some k /\ str_falsy k = false /\ encodeURIComponent city = inr enc /\
   p = Some (AwaitingFetch (request_url enc k)) /\ forallb is_js_whitespace city = false /\
   s' = {| loading := true; data := None; error := None |}).
Proof.
  unfold fetchWeatherData. rewrite str_falsy_trim, try_start_reset.
  destruct (forallb is_js_whitespace city); intros E; [left; inv E; auto|right].
  destruct (key_falsy key) eqn:Ekf; [inv E; left; repeat split; cbn; congruence|].
  destruct key as [k|], (encodeURIComponent city) eqn:Ee; inv E;
    [left; repeat split; cbn; congruence|right; do 2 eexists; simpl in Ekf; repeat split; eauto|
     left; repeat split; cbn; congruence..].
Qed.

(** The second segment suspends again with the state unchanged, or ends
    with [loading] cleared and an error. *)
Lemma resume_fetch_shape (fr : fetch_result) (s s' : hook_state) (p : option pending) :
  resume_fetch fr s = (s', p) ->
  (p = Some AwaitingJson /\ s' = s) \/
  (p = None /\ s' = {| loading := false; data := data s; error := s'.(error) |} /\
   error s' <> None).
Proof.
  unfold resume_fetch. intros E.
  destruct fr as [e|status]; [|destruct (response_ok status)]; inv E;
    [right | left | right]; repeat split; cbn; congruence.
Qed.

(** The third segment always ends, with [loading] cleared and exactly one
    of [data] and [error] newly set. *)
Lemma resume_json_shape (jr : json_result) (s s' : hook_state) (p : option pending) :
  resume_json jr s = (s', p) ->
  p = None /\ loading s' = false /\
  ((exists d, data s' = Some d /\ error s' = error s) \/
   (data s' = data s /\ error s' <> None)).
Proof.
  unfold resume_json. intros E.
  destruct jr as [e|v]; [|destruct (process_data v)]; inv E;
    (split; [reflexivity|split; [reflexivity|]]); cbn; eauto.
  right; split; [reflexivity|congruence].
  right; split; [reflexivity|congruence].
Qed.
End Segments.

#[export] Hint Rewrite str_falsy_trim @settle_threw @toCelsius_NaN : wi_rw.

(** A response of the provider with the fields the handler reads. *)
Definition provider_json (name ctry : jstr) (t fl : float) : jsval :=
  JObject [(js "name", JString name);
           (js "sys", JObject [(js "country", JString ctry)]);
           (js "main", JObject [(js "temp", JNumber t); (js "feels_like", JNumber fl)])].

(** ** Properties of the handler *)

Section Properties.
Context `{JsEngine}.

(** C3: A blank city sets the validation message, issues no request and
    leaves [loading] and [data] as they were (spec 4.3 step 1). *)
Theorem fetchWeatherData_blank_city (key : option jstr) (city : jstr) (s : hook_state) :
  forallb is_js_whitespace city = true ->
  fetchWeatherData key city s =
  ({| loading := loading s; data := data s; error := Some msg_invalid_city |}, None).
Proof. intros Hb. unfold fetchWeatherData. rewrite str_falsy_trim, Hb. reflexivity. Qed.

(** C40: Spec 8's idempotence: a second blank search leaves the state the
    first left, and neither changes [loading]; so "no residual
    [loading=true]" holds exactly when no search was in flight (through the
    page a blank search cannot be submitted at all). *)
Theorem blank_search_idempotent (key : option jstr) (city : jstr) (s : hook_state) :
  forallb is_js_whitespace city = true ->
  fetchWeatherData key city (fst (fetchWeatherData key city s)) = fetchWeatherData key city s /\
  loading (fst (fetchWeatherData key city s)) = loading s.
Proof. intros Hb. unfold fetchWeatherData. rewrite str_falsy_trim, Hb. split; reflexivity. Qed.

(** C4: A missing or empty API key stops the search before any request, with
    [loading] cleared, [data] reset and the configuration message. *)
Theorem fetchWeatherData_missing_key (key : option jstr) (city : jstr) (s : hook_state) :
  forallb is_js_whitespace city = false -> key_falsy key = true ->
  fetchWeatherData key city s =
  ({| loading := false; data := None; error := Some msg_missing_key |}, None).
Proof.
  intros Hb Hk. unfold fetchWeatherData. rewrite str_falsy_trim, Hb, try_start_reset, Hk.
  reflexivity.
Qed.

Lemma fetchWeatherData_issues_request (k city enc : jstr) (s : hook_state) :
  forallb is_js_whitespace city = false -> str_falsy k = false ->
  encodeURIComponent city = inr enc ->
  fetchWeatherData (Some k) city s =
  ({| loading := true; data := None; error := None |},
   Some (AwaitingFetch (request_url enc k))).
Proof.
  intros Hb Hk He. unfold fetchWeatherData. rewrite str_falsy_trim, Hb, try_start_reset.
  simpl key_falsy. rewrite Hk, He. reflexivity.
Qed.

(** C5: A search that gets to the network first shows [loading] with [error]
    and [data] cleared, and its request carries the encoded city and the
    key (spec 3, SearchState). *)
Theorem fetchWeatherData_request (k city enc : jstr) (s : hook_state) :
  forallb is_js_whitespace city = false -> str_falsy k = false ->
  encodeURIComponent city = inr enc ->
  fetchWeatherData (Some k) city s =
  ({| loading := true; data := None; error := None |},
   Some (AwaitingFetch (request_url enc k))).
Proof. apply fetchWeatherData_issues_request. Qed.

(** C6: The handler issues a request only for a city that is not blank, with
    a key that is not empty, and only to the URL built from them. *)
Theorem fetchWeatherData_request_only_if_valid (key : option jstr) (city url : jstr)
  (s s' : hook_state) :
  fetchWeatherData key city s = (s', Some (AwaitingFetch url)) ->
  forallb is_js_whitespace city = false /\
  exists k enc, key = Some k /\ str_falsy k = false /\
    encodeURIComponent city = inr enc /\ url = request_url enc k.
Proof.
  intros E. apply fetchWeatherData_shape in E
    as [(? & _)|[(? & _)|(k & enc & Hk & Hf & He & Hp & Hb & _)]]; try discriminate.
  inv Hp. split; [exact Hb|]. exists k, enc. auto.
Qed.

(** C2: A status that is not ok ends the search with its message: 404, 401
    and 429 have their own, any other status reads "Failed to fetch data: "
    followed by its decimal digits (spec 4.2). *)
Theorem resume_fetch_status_error (status : N) (s : hook_state) :
  response_ok status = false ->
  exists msg,
    resume_fetch (FetchResolved status) s =
    ({| loading := false; data := data s; error := Some msg |}, None) /\
    ((status = 404%N /\ msg = js "City not found") \/
     (status = 401%N /\ msg = js "Invalid API key") \/
     (status = 429%N /\ msg = js "Too many requests, try later") \/
     (status <> 404%N /\ status <> 401%N /\ status <> 429%N /\
      exists digits, msg = js "Failed to fetch data: " ++ digits /\
                     parse_decimal digits = Some status)).
Proof.
  intros Hok. exists (status_message status).
  unfold resume_fetch. rewrite Hok, settle_threw. split; [reflexivity|].
  unfold status_message.
  destruct (N.eqb_spec status 404); [left; auto|].
  destruct (N.eqb_spec status 401); [right; left; auto|].
  destruct (N.eqb_spec status 429); [right; right; left; auto|].
  right; right; right. repeat split; auto.
  exists (number_to_string_N status). split; [reflexivity|apply parse_number_to_string].
Qed.

(** The members the handler reads, wherever they are in the reply. *)
Lemma process_data_fields (fields sys_fields main_fields : list (jstr * jsval))
  (name ctry : jsval) (t fl : float) :
  assoc_last (js "name") fields = Some name ->
  assoc_last (js "sys") fields = Some (JObject sys_fields) ->
  assoc_last (js "country") sys_fields = Some ctry ->
  assoc_last (js "main") fields = Some (JObject main_fields) ->
  assoc_last (js "temp") main_fields = Some (JNumber t) ->
  assoc_last (js "feels_like") main_fields = Some (JNumber fl) ->
  process_data (JObject fields) = inr (Build_simpleWeather name ctry (toCelsius t) (toCelsius fl)).
Proof.
  intros Hn Hs Hc Hm Ht Hf. unfold process_data. simpl get_prop.
  rewrite Hn, Hs. simpl get_prop. rewrite Hc, Hm. simpl get_prop. rewrite Ht, Hf. reflexivity.
Qed.

(** C7: A provider response with the expected members is copied and
    converted: [city] and [country] verbatim, both temperatures through
    [toCelsius]; members in other places or extra members do not matter. *)
Theorem process_data_success (fields sys_fields main_fields : list (jstr * jsval))
  (name ctry : jsval) (t fl : float) :
  assoc_last (js "name") fields = Some name ->
  assoc_last (js "sys") fields = Some (JObject sys_fields) ->
  assoc_last (js "country") sys_fields = Some ctry ->
  assoc_last (js "main") fields = Some (JObject main_fields) ->
  assoc_last (js "temp") main_fields = Some (JNumber t) ->
  assoc_last (js "feels_like") main_fields = Some (JNumber fl) ->
  process_data (JObject fields) = inr (Build_simpleWeather name ctry (toCelsius t) (toCelsius fl)).
Proof. apply process_data_fields. Qed.
End Properties.

Section Runs.
Context `{JsEngine}.

(** C1: A search that passes validation ends, whatever the network and the
    provider do, with [loading] cleared and exactly one of [data] and
    [error] set (spec 3, "on resolution exactly one of error or data is
    non-null"), when no other search interleaves. *)
Theorem run_search_settles (key : option jstr) (city : jstr) (fr : fetch_result)
  (jr : json_result) (s : hook_state) :
  forallb is_js_whitespace city = false ->
  loading (run_search key city fr jr s) = false /\
  (data (run_search key city fr jr s) = None <-> error (run_search key city fr jr s) <> None).
Proof.
  intros Hb. unfold run_search, fetchWeatherData.
  rewrite str_falsy_trim, Hb, try_start_reset.
  destruct (key_falsy key); [simpl; split; [reflexivity|split; congruence]|].
  destruct key as [k|], (encodeURIComponent city);
    try (simpl; split; [reflexivity|split; congruence]).
  unfold resume_fetch. destruct fr as [e|status];
    [simpl; split; [reflexivity|split; congruence]|].
  destruct (response_ok status); [|simpl; split; [reflexivity|split; congruence]].
  unfold resume_json. destruct jr as [e|v]; [simpl; split; [reflexivity|split; congruence]|].
  destruct (process_data v); simpl; split; try reflexivity; split; congruence.
Qed.

(** C26: A provider response without [main.temp] is not an error: the card
    gets the temperature [NaN] ([undefined - 273.15]). *)
Theorem process_data_missing_temp (fields sys_fields main_fields : list (jstr * jsval))
  (name ctry : jsval) (fl : float) :
  assoc_last (js "name") fields = Some name ->
  assoc_last (js "sys") fields = Some (JObject sys_fields) ->
  assoc_last (js "country") sys_fields = Some ctry ->
  assoc_last (js "main") fields = Some (JObject main_fields) ->
  assoc_last (js "temp") main_fields = None ->
  assoc_last (js "feels_like") main_fields = Some (JNumber fl) ->
  process_data (JObject fields) = inr (Build_simpleWeather name ctry NaN (toCelsius fl)).
Proof.
  intros Hn Hs Hc Hm Ht Hf. unfold process_data. simpl get_prop.
  rewrite Hn, Hs. simpl get_prop. rewrite Hc, Hm. simpl get_prop. rewrite Ht, Hf. reflexivity.
Qed.

(** C27: A provider response without [main] fails with the engine's
    [TypeError] for reading [temp] of [undefined], and that message is
    what the user sees. *)
Theorem resume_json_missing_main (fields sys_fields : list (jstr * jsval))
  (name ctry : jsval) (s : hook_state) :
  assoc_last (js "name") fields = Some name ->
  assoc_last (js "sys") fields = Some (JObject sys_fields) ->
  assoc_last (js "country") sys_fields = Some ctry ->
  assoc_last (js "main") fields = None ->
  resume_json (JsonResolved (JObject fields)) s =
  ({| loading := false; data := data s;
      error := Some (property_error_message false (js "temp")) |}, None).
Proof.
  intros Hn Hs Hc Hm. unfold resume_json, process_data. simpl get_prop.
  rewrite Hn, Hs. simpl get_prop. rewrite Hc, Hm. reflexivity.
Qed.
End Runs.

(** ** The theorems at concrete inputs *)

Definition demo_key : option jstr := Some (js "APIKEY").
Definition london_reply : jsval := provider_json (js "London") (js "GB") (reading 28815) (reading 28700).

Lemma run_search_settles_witness :
  forallb is_js_whitespace (js "Paris") = false /\
  loading (run_search demo_key (js "Paris") (FetchResolved 404) (JsonRejected (OtherThrown JNull))
             initial_state) = false /\
  (data (run_search demo_key (js "Paris") (FetchResolved 404) (JsonRejected (OtherThrown JNull))
           initial_state) = None <->
   error (run_search demo_key (js "Paris") (FetchResolved 404) (JsonRejected (OtherThrown JNull))
            initial_state) <> None).
Proof. split; [reflexivity|]. apply run_search_settles. reflexivity. Defined.

Lemma resume_fetch_status_error_witness :
  response_ok 500 = false /\
  exists msg,
    resume_fetch (FetchResolved 500) initial_state =
    ({| loading := false; data := data initial_state; error := Some msg |}, None) /\
    ((500%N = 404%N /\ msg = js "City not found") \/
     (500%N = 401%N /\ msg = js "Invalid API key") \/
     (500%N = 429%N /\ msg = js "Too many requests, try later") \/
     (500%N <> 404%N /\ 500%N <> 401%N /\ 500%N <> 429%N /\
      exists digits, msg = js "Failed to fetch data: " ++ digits /\
                     parse_decimal digits = Some 500%N)).
Proof. split; [reflexivity|]. apply resume_fetch_status_error. reflexivity. Defined.

Lemma fetchWeatherData_blank_city_witness :
  forallb is_js_whitespace (js "   ") = true /\
  fetchWeatherData demo_key (js "   ") initial_state =
  ({| loading := false; data := None; error := Some msg_invalid_city |}, None).
Proof. split; [reflexivity|]. apply (fetchWeatherData_blank_city demo_key (js "   ") initial_state). reflexivity. Defined.

Lemma fetchWeatherData_missing_key_witness :
  key_falsy None = true /\
  fetchWeatherData None (js "Paris") initial_state =
  ({| loading := false; data := None; error := Some msg_missing_key |}, None).
Proof. split; [reflexivity|]. apply fetchWeatherData_missing_key; reflexivity. Defined.

Lemma fetchWeatherData_request_witness :
  encodeURIComponent (js "Paris") = inr (js "Paris") /\
  fetchWeatherData (Some (js "APIKEY")) (js "Paris") initial_state =
  ({| loading := true; data := None; error := None |},
   Some (AwaitingFetch (request_url (js "Paris") (js "APIKEY")))).
Proof. split; [reflexivity|]. apply fetchWeatherData_request; reflexivity. Defined.

Lemma fetchWeatherData_request_only_if_valid_witness :
  forallb is_js_whitespace (js "Paris") = false /\
  exists k enc, demo_key = Some k /\ str_falsy k = false /\
    encodeURIComponent (js "Paris") = inr enc /\
    request_url (js "Paris") (js "APIKEY") = request_url enc k.
Proof.
  apply (fetchWeatherData_request_only_if_valid demo_key (js "Paris") _ initial_state
           {| loading := true; data := None; error := None |}).
  vm_compute. reflexivity.
Defined.

Lemma process_data_success_witness :
  process_data london_reply =
  inr (Build_simpleWeather (JString (js "London")) (JString (js "GB"))
         (toCelsius (reading 28815)) (toCelsius (reading 28700))).
Proof.
  apply (process_data_success _ [(js "country", JString (js "GB"))]
           [(js "temp", JNumber (reading 28815)); (js "feels_like", JNumber (reading 28700))]);
    vm_compute; reflexivity.
Defined.

Lemma process_data_missing_temp_witness :
  process_data (JObject [(js "name", JString (js "Oslo"));
                         (js "sys", JObject [(js "country", JString (js "NO"))]);
                         (js "main", JObject [(js "feels_like", JNumber (reading 27000))])])
  = inr (Build_simpleWeather (JString (js "Oslo")) (JString (js "NO")) NaN
           (toCelsius (reading 27000))).
Proof.
  apply (process_data_missing_temp _ [(js "country", JString (js "NO"))]
           [(js "feels_like", JNumber (reading 27000))]); vm_compute; reflexivity.
Defined.

Lemma resume_json_missing_main_witness :
  resume_json (JsonResolved (JObject [(js "name", JString (js "Oslo"));
                                      (js "sys", JObject [(js "country", JString (js "NO"))])]))
    initial_state =
  ({| loading := false; data := None;
      error := Some (property_error_message false (js "temp")) |}, None) /\
  property_error_message false (js "temp") =
  js "Cannot read properties of undefined (reading 'temp')".
Proof.
  split; [|reflexivity].
  apply (resume_json_missing_main _ [(js "country", JString (js "NO"))] (JString (js "Oslo"))
           (JString (js "NO"))); vm_compute; reflexivity.
Defined.

Lemma blank_search_idempotent_witness :
  fetchWeatherData demo_key (js "  ") (fst (fetchWeatherData demo_key (js "  ") initial_state)) =
  fetchWeatherData demo_key (js "  ") initial_state /\
  loading (fst (fetchWeatherData demo_key (js "  ") initial_state)) = loading initial_state.
Proof. apply blank_search_idempotent. reflexivity. Defined.
