(* ===== verification/ProviderRequest.v ===== *)
(** What the provider reads from the request [fetchWeatherData] sends
    (useweatherInfo.ts lines 29-31): the query of the URL (after the first
    [?], before a [#]), split at [&] into parameters, each split at its
    first [=], the first parameter of a name giving its value, decoded by
    [decodeURIComponent] (URLSearchParams.get, on values without [+]).
    These readers are reference definitions of the provider's side.

    The theorem [request_carries_city] composes the handler, the encoder
    and the decoder: the [q] the provider reads decodes to the city the
    handler was called with, whatever the API key contains. *)

From Stdlib Require Import List Bool NArith String Lia.
From S2P Require Import Prelude JsString JsValue UriEncode UriDecode WeatherInfo.
Import ListNotations.
#[local] Open Scope N_scope.

(** The text after the first [c], if [c] occurs. *)
Fixpoint drop_through (c : N) (s : jstr) : option jstr :=
  match s with
  | [] => None
  | x :: rest => if x =? c then Some rest else drop_through c rest
  end.

(** The text before the first [c] (all of it if [c] does not occur). *)
Fixpoint take_until (c : N) (s : jstr) : jstr :=
  match s with
  | [] => []
  | x :: rest => if x =? c then [] else x :: take_until c rest
  end.

(** The pieces between the separators [sep]. *)
Fixpoint split_on (sep : N) (s : jstr) : list jstr :=
  match s with
  | [] => [[]]
  | x :: rest =>
      if x =? sep then [] :: split_on sep rest
      else match split_on sep rest with
           | w :: ws => (x :: w) :: ws
           | [] => [[x]]
           end
  end.

(** The first parameter named [name] in a list of [name=value] pieces. *)
Fixpoint find_param (name : jstr) (params : list jstr) : option jstr :=
  match params with
  | [] => None
  | p :: ps =>
      if jstr_eqb (take_until 61 p) name
      then Some (match drop_through 61 p with Some v => v | None => [] end)
      else find_param name ps
  end.

Definition query_get (name url : jstr) : option jstr :=
  match drop_through 63 url with
  | Some q => find_param name (split_on 38 (take_until 35 q))
  | None => None
  end.

(** The code units a piece of the query cannot contain for the reading
    above to see it whole: [&], [=] and [#]. *)
Definition no_sep (c : N) : bool := negb ((c =? 38) || (c =? 61) || (c =? 35)).

(** ** Lemmas *)

Lemma uri_component_no_sep (w : jstr) :
  forallb uri_component_char w = true -> forallb no_sep w = true.
Proof.
  induction w as [|c w IH]; [reflexivity|]. simpl. rewrite !andb_true_iff.
  intros [Hc Hw]. split; [|exact (IH Hw)].
  unfold no_sep. n_cases; subst; [discriminate..|reflexivity].
Qed.

Lemma drop_through_app (c : N) (p p' x : jstr) :
  drop_through c p = Some p' -> drop_through c (p ++ x) = Some (p' ++ x).
Proof.
  induction p as [|y p IH]; simpl; [discriminate|].
  destruct (y =? c); [congruence|exact IH].
Qed.

Lemma take_until_app (c : N) (w x : jstr) :
  forallb (fun y => negb (y =? c)) w = true -> take_until c (w ++ x) = w ++ take_until c x.
Proof.
  induction w as [|y w IH]; simpl; [reflexivity|]. rewrite andb_true_iff, negb_true_iff.
  intros [-> Hw]. rewrite IH by exact Hw. reflexivity.
Qed.

Lemma split_on_app (sep : N) (w x : jstr) :
  forallb (fun y => negb (y =? sep)) w = true ->
  split_on sep (w ++ sep :: x) = w :: split_on sep x.
Proof.
  induction w as [|y w IH]; simpl; [rewrite N.eqb_refl; reflexivity|].
  rewrite andb_true_iff, negb_true_iff. intros [-> Hw]. rewrite IH by exact Hw. reflexivity.
Qed.

Lemma forallb_no_sep (c : N) (w : jstr) :
  no_sep c = false -> forallb no_sep w = true -> forallb (fun y => negb (y =? c)) w = true.
Proof.
  intros Hc. induction w as [|y w IH]; [reflexivity|]. simpl. rewrite !andb_true_iff.
  intros [Hy Hw]. split; [|exact (IH Hw)].
  destruct (N.eqb_spec y c) as [->|]; [congruence|reflexivity].
Qed.

(** The parameter [q] of a request URL is the encoded city. *)
Lemma query_get_request_url (enc k : jstr) :
  forallb no_sep enc = true -> query_get (js "q") (request_url enc k) = Some enc.
Proof.
  intros Hs. unfold query_get, request_url.
  rewrite (drop_through_app 63 _ (js "q=")) by reflexivity.
  change (js "q=" ++ enc ++ js "&APPID=" ++ k) with ((js "q=" ++ enc) ++ 38 :: js "APPID=" ++ k).
  assert (Hq : forall c, no_sep c = false -> c <> 61 ->
                forallb (fun y => negb (y =? c)) (js "q=" ++ enc) = true).
  { intros c Hc H61. rewrite forallb_app, (forallb_no_sep c enc Hc Hs), andb_true_r.
    assert (H113 : 113 <> c) by (intros <-; discriminate).
    change (js "q=") with [113; 61]. cbn [forallb].
    rewrite (proj2 (N.eqb_neq 113 c) H113), (proj2 (N.eqb_neq 61 c)) by lia. reflexivity. }
  rewrite take_until_app by (apply Hq; [reflexivity|lia]). cbn [take_until N.eqb Pos.eqb].
  rewrite split_on_app by (apply Hq; [reflexivity|lia]).
  reflexivity.
Qed.

(** ** Properties *)

Section Request.
Context `{JsEngine}.

(** C33: Every request the handler issues carries the city losslessly: the
    first [q] parameter the provider reads from the URL decodes, by
    [decodeURIComponent], to exactly the city [fetchWeatherData] was
    called with, whatever the API key contains ([&], [=] or [#] in the
    unencoded key cannot shadow it). *)
Theorem request_carries_city (key : option jstr) (city url : jstr) (s s' : hook_state) :
  forallb is_code_unit city = true ->
  fetchWeatherData key city s = (s', Some (AwaitingFetch url)) ->
  exists enc, query_get (js "q") url = Some enc /\ decode enc = Some city.
Proof.
  intros Hc E. apply fetchWeatherData_shape in E
    as [(? & _)|[(? & _)|(k & enc & _ & _ & He & Hp & _)]]; try discriminate.
  inv Hp. unfold encodeURIComponent in He.
  destruct (encode_units city) as [r|] eqn:Er; inv He.
  exists enc. split.
  - apply query_get_request_url, uri_component_no_sep, (encode_units_uri_chars city); assumption.
  - destruct (encode_units_tokens city enc Hc Er) as (t & Ht & Hd). unfold decode. rewrite Ht. exact Hd.
Qed.
End Request.

(** "São Paulo" with a key that tries to add a second [q]. *)
Definition tricky_key : jstr := js "K&q=Paris".

Lemma request_carries_city_witness :
  (forallb is_code_unit sao_paulo = true /\
   fetchWeatherData (Some tricky_key) sao_paulo initial_state =
   ({| loading := true; data := None; error := None |},
    Some (AwaitingFetch (request_url (js "S%C3%A3o%20Paulo") tricky_key)))) /\
  exists enc, query_get (js "q") (request_url (js "S%C3%A3o%20Paulo") tricky_key) = Some enc /\
              decode enc = Some sao_paulo.
Proof.
  assert (H : forallb is_code_unit sao_paulo = true /\
              fetchWeatherData (Some tricky_key) sao_paulo initial_state =
              ({| loading := true; data := None; error := None |},
               Some (AwaitingFetch (request_url (js "S%C3%A3o%20Paulo") tricky_key))))
    by (split; vm_compute; reflexivity).
  split; [exact H|]. exact (request_carries_city _ _ _ _ _ (proj1 H) (proj2 H)).
Defined.
