(* ===== verification/SearchSession.v ===== *)
(** Searches that overlap.  [fetchWeatherData] has no guard against a
    second call while one is in flight (spec 5): each call is a separate
    run of the handler that shares the hook's state.  A session is the
    hook's state, the runs suspended at an [await] (with the request they
    issued) and the requests sent so far; a step is a call of the handler
    or the settlement of one suspended run, in any order.  The invariants
    are proved by induction on runs ([star_invariant]); the lost update and
    the state with both [data] and [error] set are exhibited as runs.  With
    the guard of the search form (no call while [loading]), runs are
    sequential and the state is consistent. *)

From Stdlib Require Import List Bool ZArith NArith String Lia Wf_nat Wellfounded.
From S2P Require Import Prelude JsString Binary64 JsValue UnitConverter UriEncode WeatherInfo.
Import ListNotations.

Record session : Type := {
  hook : hook_state;
  inflight : list (nat * pending);
  next_id : nat;
  requests : list jstr
}.

Definition session_init : session :=
  {| hook := initial_state; inflight := []; next_id := 0; requests := [] |}.

(** The run [id] goes on waiting when a segment suspends. *)
Definition add_pending (id : nat) (p : option pending) (l : list (nat * pending)) :=
  match p with Some q => (id, q) :: l | None => l end.

(** The request a segment sends, if it calls [fetch]. *)
Definition issued (p : option pending) : list jstr :=
  match p with Some (AwaitingFetch url) => [url] | _ => [] end.

(** The session after a call of the handler that ended with [s'] and [p]. *)
Definition submitted (ss : session) (s' : hook_state) (p : option pending) : session :=
  {| hook := s'; inflight := add_pending (next_id ss) p (inflight ss);
     next_id := S (next_id ss); requests := issued p ++ requests ss |}.

(** The session after the run waiting at position [l1] resumed. *)
Definition resumed (ss : session) (l1 l2 : list (nat * pending)) (id : nat)
  (s' : hook_state) (p : option pending) : session :=
  {| hook := s'; inflight := l1 ++ add_pending id p l2;
     next_id := next_id ss; requests := requests ss |}.

Section Session.
Context `{JsEngine}.

(** A suspended run resumes when the promise it awaits settles. *)
Inductive settle_step : session -> session -> Prop :=
| FetchSettles (ss : session) (l1 l2 : list (nat * pending)) (id : nat) (url : jstr)
    (fr : fetch_result) (s' : hook_state) (p : option pending) :
    inflight ss = l1 ++ (id, AwaitingFetch url) :: l2 ->
    resume_fetch fr (hook ss) = (s', p) ->
    settle_step ss (resumed ss l1 l2 id s' p)
| JsonSettles (ss : session) (l1 l2 : list (nat * pending)) (id : nat)
    (jr : json_result) (s' : hook_state) (p : option pending) :
    inflight ss = l1 ++ (id, AwaitingJson) :: l2 ->
    resume_json jr (hook ss) = (s', p) ->
    settle_step ss (resumed ss l1 l2 id s' p).

(** The settlements when the network answers the [fetch] of run [id] with
    [fr id] and its [response.json()] with [jr id]. *)
Inductive settle_by (fr : nat -> fetch_result) (jr : nat -> json_result) : session -> session -> Prop :=
| FetchBy (ss : session) (l1 l2 : list (nat * pending)) (id : nat) (url : jstr)
    (s' : hook_state) (p : option pending) :
    inflight ss = l1 ++ (id, AwaitingFetch url) :: l2 ->
    resume_fetch (fr id) (hook ss) = (s', p) ->
    settle_by fr jr ss (resumed ss l1 l2 id s' p)
| JsonBy (ss : session) (l1 l2 : list (nat * pending)) (id : nat)
    (s' : hook_state) (p : option pending) :
    inflight ss = l1 ++ (id, AwaitingJson) :: l2 ->
    resume_json (jr id) (hook ss) = (s', p) ->
    settle_by fr jr ss (resumed ss l1 l2 id s' p).

(** Any call, at any time, or any settlement. *)
Inductive session_step : session -> session -> Prop :=
| SubmitStep (ss : session) (key : option jstr) (city : jstr) (s' : hook_state)
    (p : option pending) :
    fetchWeatherData key city (hook ss) = (s', p) ->
    session_step ss (submitted ss s' p)
| SettleStep (ss ss' : session) : settle_step ss ss' -> session_step ss ss'.

(** Calls as the search form makes them: the button is disabled while
    [loading] and on a blank input (SearchForm.tsx line 37). *)
Inductive guarded_step : session -> session -> Prop :=
| GuardedSubmit (ss : session) (key : option jstr) (city : jstr) (s' : hook_state)
    (p : option pending) :
    loading (hook ss) = false -> forallb is_js_whitespace city = false ->
    fetchWeatherData key city (hook ss) = (s', p) ->
    guarded_step ss (submitted ss s' p)
| GuardedSettle (ss ss' : session) : settle_step ss ss' -> guarded_step ss ss'.
End Session.

(** ** Invariants *)

(** The consistency the search form's discipline maintains: idle with at
    most one of [data] and [error] set, or one run in flight with both
    cleared and [loading] on. *)
Definition sequential_inv (ss : session) : Prop :=
  (inflight ss = [] /\ loading (hook ss) = false /\
   (data (hook ss) = None \/ error (hook ss) = None)) \/
  (exists x, inflight ss = [x] /\ hook ss = {| loading := true; data := None; error := None |}).

(** What is left to run: two segments for a run waiting on [fetch], one
    for a run waiting on [response.json()]. *)
Definition pending_weight (p : pending) : nat :=
  match p with AwaitingFetch _ => 2 | AwaitingJson => 1 end.

Definition weight (ss : session) : nat :=
  list_sum (map (fun x => pending_weight (snd x)) (inflight ss)).

Lemma app_cons_not_nil {A} (l1 l2 : list A) (x : A) : l1 ++ x :: l2 <> [].
Proof. destruct l1; discriminate. Qed.

Lemma app_cons_singleton {A} (l1 l2 : list A) (x y : A) :
  l1 ++ x :: l2 = [y] -> l1 = [] /\ l2 = [] /\ x = y.
Proof. destruct l1 as [|a [|b l1]]; simpl; intros H; inv H; auto; destruct l1; discriminate. Qed.

#[export] Hint Resolve app_cons_not_nil : wi.

Section Invariants.
Context `{JsEngine}.

Lemma settle_step_loading (ss ss' : session) :
  settle_step ss ss' ->
  loading (hook ss') = false \/ (inflight ss' <> [] /\ hook ss' = hook ss).
Proof.
  intros Hs; inv Hs; unfold resumed; simpl.
  - apply resume_fetch_shape in H1 as [[-> ->]|[-> [-> _]]]; [right|left; reflexivity].
    split; [simpl; auto with wi|reflexivity].
  - apply resume_json_shape in H1 as [_ [Hl _]]. left; exact Hl.
Qed.

Lemma loading_needs_inflight (ss : session) :
  star session_step session_init ss -> loading (hook ss) = true -> inflight ss <> [].
Proof.
  intros Hrun.
  refine (star_invariant _ (fun ss => loading (hook ss) = true -> inflight ss <> [])
            _ _ _ Hrun _); [|discriminate].
  intros a b Hinv Hs Hl. inv Hs.
  - unfold submitted in *; simpl in *.
    apply fetchWeatherData_shape in H0
      as [(-> & _ & ->)|[(_ & _ & Hf & _)|(k0 & enc0 & _ & _ & _ & -> & _ & ->)]]; simpl in *.
    + apply Hinv; exact Hl.
    + congruence.
    + discriminate.
  - apply settle_step_loading in H0 as [Hf|[Hne Hh]]; [congruence|exact Hne].
Qed.

(** C12: [loading] is shown only while some request is in flight, however the
    calls and the settlements interleave. *)
Theorem session_loading_inflight (ss : session) :
  star session_step session_init ss -> loading (hook ss) = true -> inflight ss <> [].
Proof. apply loading_needs_inflight. Qed.

Lemma guarded_run_sequential (ss : session) :
  star guarded_step session_init ss -> sequential_inv ss.
Proof.
  intros Hrun. refine (star_invariant _ sequential_inv _ _ _ Hrun _); [|left; simpl; auto].
  intros a b Hinv Hs. inv Hs.
  - destruct Hinv as [(Hnil & _ & _)|(x & _ & Hh)]; [|rewrite Hh in H0; discriminate].
    unfold submitted. rewrite Hnil.
    apply fetchWeatherData_shape in H2
      as [(_ & Hb & _)|[(-> & _ & Hl & Hd & _)|(k0 & enc0 & _ & _ & _ & -> & _ & ->)]]; [congruence| |].
    + left; simpl; auto.
    + right; simpl; eauto.
  - inversion H0 as [ss0 l1 l2 id url fr s' p Hin Hres|ss0 l1 l2 id jr s' p Hin Hres];
      subst; unfold resumed; simpl;
      (destruct Hinv as [(Hnil & _)|(x & Hone & Hh)];
       [rewrite Hnil in Hin; symmetry in Hin; apply app_cons_not_nil in Hin; contradiction|]);
      rewrite Hone in Hin; symmetry in Hin; apply app_cons_singleton in Hin as (-> & -> & _); simpl.
    + apply resume_fetch_shape in Hres as [[-> ->]|(-> & -> & He)]; [right; simpl; eauto|].
      left; rewrite Hh; simpl; auto.
    + apply resume_json_shape in Hres as (-> & Hl & [(d & Hd & He)|(Hd & He)]); left; simpl;
        rewrite Hh in *; simpl in *; auto.
Qed.

(** C13: With the form's guard, runs never overlap and the state is
    consistent: at most one run in flight, [loading] exactly while it is,
    and never [data] and [error] together. *)
Theorem guarded_session_invariant (ss : session) :
  star guarded_step session_init ss -> sequential_inv ss.
Proof. apply guarded_run_sequential. Qed.
End Invariants.

(** ** Termination and progress of the settlements *)

Section Progress.
Context `{JsEngine}.

Lemma weight_resumed (ss : session) l1 l2 id s' p :
  weight (resumed ss l1 l2 id s' p) =
  weight {| hook := s'; inflight := l1 ++ l2; next_id := 0; requests := [] |} +
  match p with Some q => pending_weight q | None => 0 end.
Proof.
  unfold weight, resumed; simpl. rewrite !map_app, !list_sum_app.
  destruct p; simpl; lia.
Qed.

Lemma weight_split (ss : session) l1 l2 x :
  inflight ss = l1 ++ x :: l2 ->
  weight ss = weight {| hook := hook ss; inflight := l1 ++ l2; next_id := 0; requests := [] |} +
              pending_weight (snd x).
Proof. unfold weight. intros ->. simpl. rewrite !map_app, !list_sum_app. simpl. lia. Qed.

(** Every settlement consumes one segment of a run. *)
Lemma settle_step_weight (ss ss' : session) : settle_step ss ss' -> weight ss' < weight ss.
Proof.
  intros Hs; inv Hs; rewrite weight_resumed, (weight_split ss _ _ _ H0); unfold weight; simpl.
  - apply resume_fetch_shape in H1 as [[-> _]|[-> _]]; simpl; lia.
  - apply resume_json_shape in H1 as [-> _]; simpl; lia.
Qed.

(** Settling the first run waiting, with the answers [fr] and [jr] give
    to its [fetch] and its [response.json()]. *)
Lemma settle_by_step fr jr (ss ss' : session) : settle_by fr jr ss ss' -> settle_step ss ss'.
Proof. intros Hs; inv Hs; [eapply FetchSettles|eapply JsonSettles]; eassumption. Qed.

Lemma settle_first (ss : session) (fr : nat -> fetch_result) (jr : nat -> json_result) x rest :
  inflight ss = x :: rest -> exists ss', settle_by fr jr ss ss'.
Proof.
  intros Hin. destruct x as [id [url|]].
  - destruct (resume_fetch (fr id) (hook ss)) as [s' p] eqn:E.
    eexists. apply (FetchBy fr jr ss [] rest id url s' p); assumption.
  - destruct (resume_json (jr id) (hook ss)) as [s' p] eqn:E.
    eexists. apply (JsonBy fr jr ss [] rest id s' p); assumption.
Qed.

Lemma drain (n : nat) (ss : session) (fr : nat -> fetch_result) (jr : nat -> json_result) :
  weight ss <= n -> exists ss', star (settle_by fr jr) ss ss' /\ inflight ss' = [].
Proof.
  revert ss. induction n as [|n IH]; intros ss Hw;
    (destruct (inflight ss) as [|x rest] eqn:Hin; [exists ss; split; [apply star_refl|exact Hin]|]);
    destruct (settle_first ss fr jr x rest Hin) as [ss1 Hs1];
    pose proof (settle_step_weight _ _ (settle_by_step _ _ _ _ Hs1)); [lia|].
  - destruct (IH ss1) as (ss' & Hrun & Hnil); [lia|].
    exists ss'. split; [eapply star_step; eassumption|exact Hnil].
Qed.

(** C34: Settlements terminate: there is no infinite sequence of promise
    settlements without new calls, however many runs are in flight, since
    each settlement consumes a segment of some run (two segments for a run
    waiting on [fetch], one for a run waiting on [response.json()]). *)
Theorem settle_terminates : well_founded (fun ss' ss => settle_step ss ss').
Proof.
  apply (wf_incl _ _ (ltof _ weight)); [|apply well_founded_ltof].
  intros a b Hs. exact (settle_step_weight _ _ Hs).
Qed.

(** C35: Every session drains: whatever the network answers to each run
    (any [fetch] outcome and any [response.json()] outcome per run, success
    or failure), the runs in flight all finish, and the page ends with
    [loading] off; no interleaving of calls leaves the spinner on for
    ever. *)
Theorem session_drains (ss : session) (fr : nat -> fetch_result) (jr : nat -> json_result) :
  star session_step session_init ss ->
  exists ss', star (settle_by fr jr) ss ss' /\ inflight ss' = [] /\ loading (hook ss') = false.
Proof.
  intros Hrun. destruct (drain (weight ss) ss fr jr (le_n _)) as (ss' & Hs & Hnil).
  exists ss'. split; [exact Hs|split; [exact Hnil|]].
  destruct (loading (hook ss')) eqn:Hl; [|reflexivity].
  exfalso. refine (loading_needs_inflight ss' _ Hl Hnil).
  eapply star_trans; [exact Hrun|].
  refine (star_incl _ _ _ _ _ Hs). intros a b Hab. exact (SettleStep _ _ (settle_by_step _ _ _ _ Hab)).
Qed.
End Progress.

(** ** Overlapping searches *)

(** Two calls made before either answer arrives: [a] first (run 0), then
    [b] (run 1). *)
Definition overlapping (k enc_a enc_b : jstr) : session :=
  {| hook := {| loading := true; data := None; error := None |};
     inflight := [(1, AwaitingFetch (request_url enc_b k)); (0, AwaitingFetch (request_url enc_a k))];
     next_id := 2;
     requests := [request_url enc_b k; request_url enc_a k] |}.

Section Races.
Context `{JsEngine}.
Context (k a b enc_a enc_b : jstr)
  (Hk : str_falsy k = false)
  (Ha : forallb is_js_whitespace a = false) (Hb : forallb is_js_whitespace b = false)
  (Hea : encodeURIComponent a = inr enc_a) (Heb : encodeURIComponent b = inr enc_b).

Lemma overlapping_reachable : star session_step session_init (overlapping k enc_a enc_b).
Proof.
  eapply star_step; [eapply SubmitStep; apply (fetchWeatherData_issues_request k a enc_a); assumption|].
  eapply star_step; [eapply SubmitStep; apply (fetchWeatherData_issues_request k b enc_b); assumption|].
  apply star_refl.
Qed.

(** C14: The answer to the later search [b] arrives first; the answer to [a]
    then replaces it: the card shows [a] although [b] was asked last
    (spec 5, lost update). *)
Theorem session_lost_update (va vb : jsval) (da db : simpleWeather) :
  process_data va = inr da -> process_data vb = inr db ->
  exists ss, star session_step session_init ss /\
    requests ss = [request_url enc_b k; request_url enc_a k] /\ inflight ss = [] /\
    hook ss = {| loading := false; data := Some da; error := None |}.
Proof.
  intros Hpa Hpb. eexists. split.
  { eapply star_trans; [apply overlapping_reachable|].
    eapply star_step;
      [eapply SettleStep; eapply (FetchSettles _ [] _ 1 _ (FetchResolved 200)); reflexivity|].
    eapply star_step; [eapply SettleStep; eapply (JsonSettles _ [] _ 1 (JsonResolved vb));
                       [reflexivity|unfold resume_json; rewrite Hpb; reflexivity]|].
    eapply star_step;
      [eapply SettleStep; eapply (FetchSettles _ [] [] 0 _ (FetchResolved 200)); reflexivity|].
    eapply star_step; [eapply SettleStep; eapply (JsonSettles _ [] [] 0 (JsonResolved va));
                       [reflexivity|unfold resume_json; rewrite Hpa; reflexivity]|].
    apply star_refl. }
  split; [reflexivity|split; reflexivity].
Qed.

(** C15: The later search fails first, which clears [loading] while [a] is
    still in flight; when [a] then succeeds, [data] and [error] are both
    set: the "exactly one" of spec 3 does not survive overlap. *)
Theorem session_data_and_error (va : jsval) (da : simpleWeather) (e : thrown) :
  process_data va = inr da ->
  (exists ss, star session_step session_init ss /\
     loading (hook ss) = false /\ inflight ss <> []) /\
  (exists ss, star session_step session_init ss /\ inflight ss = [] /\
     hook ss = {| loading := false; data := Some da; error := Some (error_message e) |}).
Proof.
  intros Hpa.
  assert (Hfail : star session_step session_init
            (resumed (overlapping k enc_a enc_b) [] [(0, AwaitingFetch (request_url enc_a k))] 1
               {| loading := false; data := None; error := Some (error_message e) |} None)).
  { eapply star_trans; [apply overlapping_reachable|].
    apply star_one; eapply SettleStep; eapply (FetchSettles _ [] _ 1 _ (FetchRejected e)); reflexivity. }
  split; [eexists; split; [exact Hfail|split; [reflexivity|discriminate]]|].
  eexists. split.
  { eapply star_trans; [exact Hfail|].
    eapply star_step;
      [eapply SettleStep; eapply (FetchSettles _ [] [] 0 _ (FetchResolved 200)); reflexivity|].
    eapply star_step; [eapply SettleStep; eapply (JsonSettles _ [] [] 0 (JsonResolved va));
                       [reflexivity|unfold resume_json; rewrite Hpa; reflexivity]|].
    apply star_refl. }
  split; reflexivity.
Qed.
End Races.

(** ** The theorems at concrete inputs *)

Definition paris_reply : jsval := provider_json (js "Paris") (js "FR") (reading 29315) (reading 29215).
Definition london_reply' : jsval := provider_json (js "London") (js "GB") (reading 28815) (reading 28700).
Definition paris_data : simpleWeather :=
  Build_simpleWeather (JString (js "Paris")) (JString (js "FR"))
    (toCelsius (reading 29315)) (toCelsius (reading 29215)).
Definition london_data : simpleWeather :=
  Build_simpleWeather (JString (js "London")) (JString (js "GB"))
    (toCelsius (reading 28815)) (toCelsius (reading 28700)).

(** Paris is asked first, then London. *)
Definition paris_then_london : session := overlapping (js "K") (js "Paris") (js "London").

Lemma paris_then_london_reachable : star session_step session_init paris_then_london.
Proof. apply (overlapping_reachable (js "K") (js "Paris") (js "London")); reflexivity. Qed.

Lemma session_loading_inflight_witness : inflight paris_then_london <> [].
Proof. apply session_loading_inflight; [exact paris_then_london_reachable|reflexivity]. Defined.

Definition one_search : session :=
  submitted session_init {| loading := true; data := None; error := None |}
    (Some (AwaitingFetch (request_url (js "Paris") (js "K")))).

Lemma guarded_session_invariant_witness : sequential_inv one_search.
Proof.
  apply guarded_session_invariant. apply star_one.
  apply (GuardedSubmit session_init (Some (js "K")) (js "Paris")); vm_compute; reflexivity.
Defined.

Lemma session_lost_update_witness :
  exists ss, star session_step session_init ss /\
    requests ss = [request_url (js "London") (js "K"); request_url (js "Paris") (js "K")] /\
    inflight ss = [] /\
    hook ss = {| loading := false; data := Some paris_data; error := None |}.
Proof.
  apply (session_lost_update (js "K") (js "Paris") (js "London") (js "Paris") (js "London")
           ltac:(reflexivity) ltac:(reflexivity) ltac:(reflexivity) ltac:(reflexivity)
           ltac:(reflexivity) paris_reply london_reply' paris_data london_data);
    reflexivity.
Defined.

Lemma session_data_and_error_witness :
  (exists ss, star session_step session_init ss /\
     loading (hook ss) = false /\ inflight ss <> []) /\
  (exists ss, star session_step session_init ss /\ inflight ss = [] /\
     hook ss = {| loading := false; data := Some paris_data;
                  error := Some (js "Failed to fetch") |}).
Proof.
  apply (session_data_and_error (js "K") (js "Paris") (js "London") (js "Paris") (js "London")
           ltac:(reflexivity) ltac:(reflexivity) ltac:(reflexivity) ltac:(reflexivity)
           ltac:(reflexivity) paris_reply paris_data
           (ErrorObject (js "TypeError") (js "Failed to fetch")));
    reflexivity.
Defined.

Lemma session_drains_witness :
  exists ss', star (settle_by (fun _ => FetchResolved 200) (fun _ => JsonResolved paris_reply))
                paris_then_london ss' /\ inflight ss' = [] /\ loading (hook ss') = false.
Proof. apply session_drains. exact paris_then_london_reachable. Defined.
