(* ===== verification/WebStorage.v ===== *)
(** The key-value store [useDarkMode] uses ([window.localStorage]), as an
    interface: [get_item] and [set_item] may throw (storage disabled, quota
    exceeded), which the hook catches; [remove_item] is what another tab or
    the user does to the store.  The laws are what the hook's theorems
    need.  The instance [web_storage] is the Web Storage API on a [gmap],
    with three modes: writable, read-only (every [setItem] throws, as on a
    full quota or in some private modes) and blocked (every access throws
    a [SecurityError]). *)

From stdpp Require Import base gmap countable.
From Stdlib Require Import List NArith.
From S2P Require Import Prelude JsString.

(** [None] is a thrown exception; [get_item] answers [null] as [Some None]. *)
Class Storage (S : Type) : Type := {
  get_item : S -> jstr -> option (option jstr);
  set_item : S -> jstr -> jstr -> option S;
  remove_item : S -> jstr -> option S
}.

Class StorageLaws (S : Type) `{Storage S} : Prop := {
  get_set_eq : forall s s' k v, set_item s k v = Some s' -> get_item s' k = Some (Some v);
  get_set_ne : forall s s' k k' v, set_item s k v = Some s' -> k <> k' ->
               get_item s' k' = get_item s k';
  get_remove_eq : forall s s' k, remove_item s k = Some s' -> get_item s' k = Some None;
  get_remove_ne : forall s s' k k', remove_item s k = Some s' -> k <> k' ->
               get_item s' k' = get_item s k'
}.

Inductive storage_mode : Type := Writable | ReadOnly | Blocked.

Record web_storage : Type := {
  ws_mode : storage_mode;
  ws_items : gmap jstr jstr
}.

#[export] Instance web_storage_ops : Storage web_storage := {
  get_item s k := match ws_mode s with Blocked => None | _ => Some (ws_items s !! k) end;
  set_item s k v :=
    match ws_mode s with
    | Writable => Some {| ws_mode := Writable; ws_items := <[k:=v]> (ws_items s) |}
    | _ => None
    end;
  remove_item s k :=
    match ws_mode s with
    | Writable => Some {| ws_mode := Writable; ws_items := delete k (ws_items s) |}
    | _ => None
    end
}.

#[export] Instance web_storage_laws : StorageLaws web_storage.
Proof.
  split; intros s s'; simpl; destruct (ws_mode s); try discriminate;
    intros * E; injection E as <-; simpl; intros; f_equal.
  - by rewrite lookup_insert_eq.
  - by rewrite lookup_insert_ne.
  - by rewrite lookup_delete_eq.
  - by rewrite lookup_delete_ne.
Qed.

(** An empty store in each mode. *)
Definition empty_storage (m : storage_mode) : web_storage := {| ws_mode := m; ws_items := ∅ |}.
