(* ===== verification/DarkMode.v ===== *)
(** The hook [useDarkMode] (useDarkMode.ts) and the life of the page that
    uses it.  The world is the store ([localStorage], through the
    interface [Storage]), the class list of [document.documentElement] and
    what [window.matchMedia('(prefers-color-scheme: dark)')] reports
    ([None] when [matchMedia] is not a function).  The page is not mounted,
    running with its state [isDark], or crashed (an effect threw).

    - [initial_isDark]: the lazy initialiser (lines 6-15);
    - [apply_dark]: the effect on [isDark] (lines 18-23), which React runs
      at mount and after every change of [isDark];
    - [mount]: initialiser, then the two effects in their order; the second
      one (lines 26-36) calls [window.matchMedia] and subscribes;
    - [set_isDark]: a state update, skipped when the value is the same
      ([Object.is]), else followed by the effect;
    - [dm_step]: the events: mounting, [toggle] (line 38), a change of the
      system preference (the listener, lines 28-33), another tab writing
      or removing a key, unmounting (the cleanup, line 35). *)

From Stdlib Require Import List Bool NArith String.
From S2P Require Import Prelude JsString WebStorage.
Import ListNotations.

Definition STORAGE_KEY : jstr := js "wi:dark".
Definition dark_class : jstr := js "dark".

(** [String(isDark)]: [isDark] is [true], [false] or [undefined] ([None]),
    the last when [window.matchMedia] is missing. *)
Definition dark_to_string (d : option bool) : jstr :=
  match d with
  | Some true => js "true"
  | Some false => js "false"
  | None => js "undefined"
  end.

Definition truthy (d : option bool) : bool := match d with Some b => b | None => false end.

(** [Object.is] on [true], [false] and [undefined]. *)
Definition dark_eqb (d d' : option bool) : bool :=
  match d, d' with
  | Some b, Some b' => Bool.eqb b b'
  | None, None => true
  | _, _ => false
  end.

(** [classList.add] and [classList.remove] (an ordered set of tokens). *)
Definition class_add (t : jstr) (l : list jstr) : list jstr :=
  if existsb (jstr_eqb t) l then l else l ++ [t].
Definition class_remove (t : jstr) (l : list jstr) : list jstr :=
  filter (fun u => negb (jstr_eqb t u)) l.

Section Hook.
Context {S : Type} `{Storage S}.

Record world : Type := {
  store : S;
  root_classes : list jstr;
  prefers_dark : option bool
}.

Inductive page : Type :=
| Unmounted (w : world)
| Running (isDark : option bool) (w : world)
| Crashed (w : world).

(** Lines 6-15. *)
Definition initial_isDark (w : world) : option bool :=
  match get_item (store w) STORAGE_KEY with
  | None => Some false
  | Some (Some v) =>
      if jstr_eqb v (js "true") then Some true
      else if jstr_eqb v (js "false") then Some false
      else prefers_dark w
  | Some None => prefers_dark w
  end.

Definition with_store (s : S) (w : world) : world :=
  {| store := s; root_classes := root_classes w; prefers_dark := prefers_dark w |}.

(** Lines 18-23: the class on the root, then [setItem], whose failure is
    ignored. *)
Definition apply_dark (d : option bool) (w : world) : world :=
  {| store := match set_item (store w) STORAGE_KEY (dark_to_string d) with
              | Some s' => s'
              | None => store w
              end;
     root_classes := if truthy d then class_add dark_class (root_classes w)
                     else class_remove dark_class (root_classes w);
     prefers_dark := prefers_dark w |}.

(** Mounting: the initial state, the first effect, then the second, which
    throws when [window.matchMedia] is not a function. *)
Definition mount (w : world) : page :=
  let d := initial_isDark w in
  let w1 := apply_dark d w in
  match prefers_dark w1 with
  | None => Crashed w1
  | Some _ => Running d w1
  end.

Definition set_isDark (v d : option bool) (w : world) : page :=
  if dark_eqb v d then Running d w else Running v (apply_dark v w).

(** The operating system switches its colour scheme. *)
Definition system_switch (m : bool) (w : world) : world :=
  match prefers_dark w with
  | Some _ => {| store := store w; root_classes := root_classes w; prefers_dark := Some m |}
  | None => w
  end.

Inductive dm_event : Type :=
| Mount
| Toggle
| SystemChange (m : bool)
| ExternalWrite (k v : jstr)
| ExternalRemove (k : jstr)
| Unmount.

Definition on_world (f : world -> world) (p : page) : page :=
  match p with
  | Unmounted w => Unmounted (f w)
  | Running d w => Running d (f w)
  | Crashed w => Crashed (f w)
  end.

Definition dm_step (e : dm_event) (p : page) : page :=
  match e, p with
  | Mount, Unmounted w => mount w
  | Toggle, Running d w => set_isDark (Some (negb (truthy d))) d w
  | SystemChange m, Running d w =>
      let w' := system_switch m w in
      match get_item (store w') STORAGE_KEY with
      | Some None => set_isDark (Some m) d w'
      | _ => Running d w'
      end
  | SystemChange m, _ => on_world (system_switch m) p
  | ExternalWrite k v, _ =>
      on_world (fun w => with_store (match set_item (store w) k v with
                                     | Some s' => s' | None => store w end) w) p
  | ExternalRemove k, _ =>
      on_world (fun w => with_store (match remove_item (store w) k with
                                     | Some s' => s' | None => store w end) w) p
  | Unmount, Running _ w => Unmounted w
  | Unmount, Crashed w => Unmounted w
  | _, _ => p
  end.

Definition dm_run (evs : list dm_event) (p : page) : page :=
  fold_left (fun p e => dm_step e p) evs p.

Definition isDark_of (p : page) : option (option bool) :=
  match p with Running d _ => Some d | _ => None end.
End Hook.

Arguments world S : clear implicits.
Arguments page S : clear implicits.

(** ** Lemmas *)

Lemma class_add_in (t : jstr) (l : list jstr) : In t (class_add t l).
Proof.
  unfold class_add. destruct (existsb (jstr_eqb t) l) eqn:E.
  - apply existsb_exists in E as (u & Hu & Ht). apply jstr_eqb_eq in Ht. subst. exact Hu.
  - apply in_or_app. right. left. reflexivity.
Qed.

Lemma class_remove_not_in (t : jstr) (l : list jstr) : ~ In t (class_remove t l).
Proof.
  unfold class_remove. rewrite filter_In. rewrite jstr_eqb_refl. intros [_ H]. discriminate.
Qed.

Lemma dark_eqb_negb (d : option bool) : dark_eqb (Some (negb (truthy d))) d = false.
Proof. destruct d as [[]|]; reflexivity. Qed.

Section Lemmas.
Context {S : Type} `{StorageLaws S}.

Lemma system_switch_store (m : bool) (w : world S) : store (system_switch m w) = store w.
Proof. unfold system_switch. destruct (prefers_dark w); reflexivity. Qed.

Lemma system_switch_classes (m : bool) (w : world S) :
  root_classes (system_switch m w) = root_classes w.
Proof. unfold system_switch. destruct (prefers_dark w); reflexivity. Qed.

(** The state of the world a page is in. *)
Definition world_of (p : page S) : world S :=
  match p with Unmounted w | Running _ w | Crashed w => w end.

Definition persisted (w : world S) : Prop :=
  exists v, get_item (store w) STORAGE_KEY = Some (Some v).

(** The class invariant: the root has the [dark] class exactly when the
    running page is dark. *)
Definition class_inv (p : page S) : Prop :=
  match p with
  | Running d w => In dark_class (root_classes w) <-> truthy d = true
  | _ => True
  end.

Lemma apply_dark_class (d : option bool) (w : world S) :
  In dark_class (root_classes (apply_dark d w)) <-> truthy d = true.
Proof.
  unfold apply_dark; simpl. destruct (truthy d).
  - split; [reflexivity|intros _; apply class_add_in].
  - split; [intros Hin; exfalso; exact (class_remove_not_in _ _ Hin)|discriminate].
Qed.

Lemma apply_dark_written (d : option bool) (w : world S) (s' : S) :
  set_item (store w) STORAGE_KEY (dark_to_string d) = Some s' ->
  get_item (store (apply_dark d w)) STORAGE_KEY = Some (Some (dark_to_string d)).
Proof. intros E. unfold apply_dark; simpl. rewrite E. eapply get_set_eq; eauto. Qed.

Lemma apply_dark_persisted (d : option bool) (w : world S) :
  persisted w -> persisted (apply_dark d w).
Proof.
  intros Hp. destruct (set_item (store w) STORAGE_KEY (dark_to_string d)) as [s'|] eqn:E.
  - eexists. eapply apply_dark_written; eauto.
  - unfold apply_dark; simpl. rewrite E. exact Hp.
Qed.

Lemma set_isDark_world (v d : option bool) (w : world S) :
  (set_isDark v d w = Running d w) \/ (set_isDark v d w = Running v (apply_dark v w)).
Proof. unfold set_isDark. destruct (dark_eqb v d); auto. Qed.

Lemma mount_world (w : world S) : world_of (mount w) = apply_dark (initial_isDark w) w.
Proof. unfold mount. destruct (prefers_dark _); reflexivity. Qed.

Lemma class_inv_step (e : dm_event) (p : page S) : class_inv p -> class_inv (dm_step e p).
Proof.
  intros Hinv. destruct e, p; simpl in *; auto.
  - unfold mount. destruct (prefers_dark _); simpl; [apply apply_dark_class|exact I].
  - destruct (set_isDark_world (Some (negb (truthy isDark))) isDark w) as [->| ->];
      [exact Hinv|apply apply_dark_class].
  - destruct (get_item _ _) as [[|]|]; simpl; rewrite ?system_switch_classes;
      [exact Hinv| |exact Hinv].
    destruct (set_isDark_world (Some m) isDark (system_switch m w)) as [->| ->];
      [simpl; rewrite system_switch_classes; exact Hinv|apply apply_dark_class].
Qed.

(** A change of the system preference is ignored once a value is stored. *)
Lemma system_change_persisted (m : bool) (d : option bool) (w : world S) :
  persisted w -> dm_step (SystemChange m) (Running d w) = Running d (system_switch m w).
Proof.
  intros [v Hv]. simpl. rewrite system_switch_store, Hv. reflexivity.
Qed.

Definition clears_key (e : dm_event) : bool :=
  match e with ExternalRemove k => jstr_eqb k STORAGE_KEY | _ => false end.

Lemma persisted_external_write (k v : jstr) (w : world S) :
  persisted w ->
  persisted (with_store (match set_item (store w) k v with Some s' => s' | None => store w end) w).
Proof.
  intros [u Hu]. unfold persisted, with_store; simpl.
  destruct (set_item (store w) k v) as [s'|] eqn:E; [|eauto].
  destruct (list_eq_dec N.eq_dec k STORAGE_KEY) as [->|Hne].
  - exists v. eapply get_set_eq; eauto.
  - exists u. rewrite (get_set_ne _ _ _ _ _ E Hne). exact Hu.
Qed.

Lemma persisted_external_remove (k : jstr) (w : world S) :
  k <> STORAGE_KEY -> persisted w ->
  persisted (with_store (match remove_item (store w) k with Some s' => s' | None => store w end) w).
Proof.
  intros Hne [u Hu]. unfold persisted, with_store; simpl.
  destruct (remove_item (store w) k) as [s'|] eqn:E; [|eauto].
  exists u. rewrite (get_remove_ne _ _ _ _ E Hne). exact Hu.
Qed.

Lemma persisted_system_switch (m : bool) (w : world S) :
  persisted w -> persisted (system_switch m w).
Proof. unfold persisted. rewrite system_switch_store. exact (fun H => H). Qed.

(** Only removing the key from outside makes the stored value go away. *)
Lemma persisted_step (e : dm_event) (p : page S) :
  clears_key e = false -> persisted (world_of p) -> persisted (world_of (dm_step e p)).
Proof.
  intros Hc Hp. destruct e, p; simpl in *; auto;
    try (apply persisted_system_switch; exact Hp);
    try (apply persisted_external_write; exact Hp);
    try (apply persisted_external_remove; [intros ->; rewrite jstr_eqb_refl in Hc;
                                           discriminate|exact Hp]).
  - rewrite mount_world. apply apply_dark_persisted. exact Hp.
  - destruct (set_isDark_world (Some (negb (truthy isDark))) isDark w) as [->| ->];
      simpl; [exact Hp|apply apply_dark_persisted; exact Hp].
  - destruct Hp as [v Hv]. rewrite system_switch_store, Hv. simpl.
    exists v. rewrite system_switch_store. exact Hv.
Qed.
End Lemmas.

Lemma dark_eqb_eq (d d' : option bool) : dark_eqb d d' = true -> d = d'.
Proof. destruct d as [[]|], d' as [[]|]; simpl; congruence. Qed.

Section Theorems.
Context {S : Type} `{StorageLaws S}.

Lemma class_inv_run (evs : list dm_event) (p : page S) :
  class_inv p -> class_inv (dm_run evs p).
Proof. revert p. induction evs as [|e evs IH]; simpl; auto using class_inv_step. Qed.

Lemma persisted_run (evs : list dm_event) (p : page S) :
  forallb (fun e => negb (clears_key e)) evs = true ->
  persisted (world_of p) -> persisted (world_of (dm_run evs p)).
Proof.
  revert p. induction evs as [|e evs IH]; simpl; intros p Hc Hp; [exact Hp|].
  apply andb_prop in Hc as [He Hc]. apply IH; [exact Hc|].
  apply persisted_step; [destruct (clears_key e); [discriminate|reflexivity]|exact Hp].
Qed.

(** C21: Whatever happens, while the page runs the root carries the [dark]
    class exactly when the theme is dark. *)
Theorem root_class_matches_theme (evs : list dm_event) (w w' : world S) (d : option bool) :
  dm_run evs (Unmounted w) = Running d w' ->
  (In dark_class (root_classes w') <-> truthy d = true).
Proof.
  intros E. pose proof (class_inv_run evs (Unmounted w) I) as Hc. rewrite E in Hc. exact Hc.
Qed.

(** C19: Once the page has mounted into a store that took the first write, no
    change of the system colour scheme is ever adopted, whether or not
    the user toggled, as long as nothing else removes the key: the mount
    effect persists the value at once, so the listener's test
    [stored === null] always fails (spec 4.4 says the system preference
    is followed until the user toggles). *)
Theorem system_preference_never_adopted (w w' : world S) (s' : S) (evs : list dm_event)
  (m : bool) (d : option bool) :
  set_item (store w) STORAGE_KEY (dark_to_string (initial_isDark w)) = Some s' ->
  forallb (fun e => negb (clears_key e)) evs = true ->
  dm_run (Mount :: evs) (Unmounted w) = Running d w' ->
  dm_step (SystemChange m) (Running d w') = Running d (system_switch m w').
Proof.
  intros Hset Hc E. apply system_change_persisted.
  change w' with (world_of (Running d w')). rewrite <- E. simpl.
  apply persisted_run; [exact Hc|]. rewrite mount_world.
  eexists. eapply apply_dark_written; eauto.
Qed.

Lemma dark_string_true_false (m : bool) (other : option bool) :
  (if jstr_eqb (dark_to_string (Some m)) (js "true") then Some true
   else if jstr_eqb (dark_to_string (Some m)) (js "false") then Some false
   else other) = Some m.
Proof. destruct m; reflexivity. Qed.

(** C22: First visit: with nothing stored, the page follows the system
    preference, stores it as the literal ["true"] or ["false"] and sets
    the class accordingly (spec 8). *)
Theorem mount_follows_system_when_nothing_stored (w : world S) (m : bool) (s' : S) :
  get_item (store w) STORAGE_KEY = Some None -> prefers_dark w = Some m ->
  set_item (store w) STORAGE_KEY (dark_to_string (Some m)) = Some s' ->
  exists w', mount w = Running (Some m) w' /\
    get_item (store w') STORAGE_KEY = Some (Some (if m then js "true" else js "false")) /\
    (In dark_class (root_classes w') <-> m = true).
Proof.
  intros Hg Hp Hs. unfold mount, initial_isDark. rewrite Hg, Hp. simpl prefers_dark.
  rewrite Hp. eexists. split; [reflexivity|split].
  - rewrite (apply_dark_written _ _ _ Hs). destruct m; reflexivity.
  - apply apply_dark_class.
Qed.

(** C20: The stored flag outlives the page: after a first visit with nothing
    stored, a reload follows the stored copy of the first visit's system
    preference, not the system's current one, although the user never
    chose a theme. *)
Theorem preference_frozen_across_reload (w : world S) (m m' : bool) (s' : S) :
  get_item (store w) STORAGE_KEY = Some None -> prefers_dark w = Some m ->
  set_item (store w) STORAGE_KEY (dark_to_string (Some m)) = Some s' ->
  isDark_of (dm_run [Mount; Unmount; SystemChange m'; Mount] (Unmounted w)) = Some (Some m).
Proof.
  intros Hg Hp Hs.
  assert (Hmw : mount w = Running (Some m) (apply_dark (Some m) w)).
  { unfold mount, initial_isDark. rewrite Hg, Hp. simpl prefers_dark. rewrite Hp. reflexivity. }
  unfold dm_run; simpl fold_left. rewrite Hmw. cbn [dm_step on_world].
  unfold mount, initial_isDark. rewrite system_switch_store, (apply_dark_written _ _ _ Hs).
  rewrite dark_string_true_false. simpl prefers_dark.
  unfold system_switch. simpl prefers_dark. rewrite Hp. reflexivity.
Qed.

(** C23: [toggle] flips the theme and stores the literal ["true"] or
    ["false"]; a later change of the system scheme is then ignored
    (spec 8). *)
Theorem toggle_flips_and_persists (d : option bool) (w : world S) (s' : S) (m : bool) :
  set_item (store w) STORAGE_KEY (dark_to_string (Some (negb (truthy d)))) = Some s' ->
  exists w', dm_step Toggle (Running d w) = Running (Some (negb (truthy d))) w' /\
    get_item (store w') STORAGE_KEY =
      Some (Some (if truthy d then js "false" else js "true")) /\
    dm_step (SystemChange m) (Running (Some (negb (truthy d))) w') =
      Running (Some (negb (truthy d))) (system_switch m w').
Proof.
  intros Hs. eexists. split; [simpl; unfold set_isDark; rewrite dark_eqb_negb; reflexivity|].
  assert (Hw : get_item (store (apply_dark (Some (negb (truthy d))) w)) STORAGE_KEY =
               Some (Some (dark_to_string (Some (negb (truthy d))))))
    by (eapply apply_dark_written; eauto).
  split.
  - rewrite Hw. destruct (truthy d); reflexivity.
  - apply system_change_persisted. eexists; exact Hw.
Qed.

(** C24: Without [window.matchMedia] the initialiser yields [undefined], the
    first effect stores the string ["undefined"], and the second effect
    throws: the page crashes on every load (the guard of line 11 is
    missing at line 27). *)
Theorem mount_crashes_without_matchMedia (w : world S) (s' : S) :
  prefers_dark w = None -> get_item (store w) STORAGE_KEY = Some None ->
  set_item (store w) STORAGE_KEY (js "undefined") = Some s' ->
  exists w', mount w = Crashed w' /\
    get_item (store w') STORAGE_KEY = Some (Some (js "undefined")).
Proof.
  intros Hp Hg Hs. unfold mount, initial_isDark. rewrite Hg, Hp. simpl prefers_dark.
  rewrite Hp. eexists. split; [reflexivity|]. eapply (apply_dark_written None); exact Hs.
Qed.

(** C25: The listener adopts the system scheme exactly when nothing is stored,
    which after mounting happens only if every write failed (a read-only
    store) or the key was removed from outside. *)
Theorem system_change_adopted_when_nothing_stored (d : option bool) (w : world S) (m : bool) :
  get_item (store w) STORAGE_KEY = Some None ->
  isDark_of (dm_step (SystemChange m) (Running d w)) = Some (Some m).
Proof.
  intros Hg. simpl. rewrite system_switch_store, Hg. unfold set_isDark.
  destruct (dark_eqb (Some m) d) eqn:E; [apply dark_eqb_eq in E; subst|]; reflexivity.
Qed.
End Theorems.

(** ** The theorems at concrete inputs, on [localStorage] as a [gmap] *)

(** A first visit: empty writable storage, no class on the root. *)
Definition fresh_world (m : storage_mode) (pref : option bool) : world web_storage :=
  {| store := empty_storage m; root_classes := []; prefers_dark := pref |}.

(** The store after the hook wrote [v]. *)
Definition stored_after (s : web_storage) (v : jstr) : web_storage :=
  match set_item s STORAGE_KEY v with Some s' => s' | None => s end.

Definition after_mount_toggle : world web_storage :=
  world_of (dm_run [Mount; Toggle] (Unmounted (fresh_world Writable (Some true)))).

Lemma system_preference_never_adopted_witness :
  dm_step (SystemChange true) (Running (Some false) after_mount_toggle) =
  Running (Some false) (system_switch true after_mount_toggle).
Proof.
  apply (system_preference_never_adopted (fresh_world Writable (Some true)) after_mount_toggle
           (stored_after (empty_storage Writable) (js "true")) [Toggle]);
    vm_compute; reflexivity.
Defined.

Lemma preference_frozen_across_reload_witness :
  isDark_of (dm_run [Mount; Unmount; SystemChange true; Mount]
               (Unmounted (fresh_world Writable (Some false)))) = Some (Some false).
Proof.
  apply (preference_frozen_across_reload _ false true
           (stored_after (empty_storage Writable) (js "false"))); reflexivity.
Defined.

Lemma root_class_matches_theme_witness :
  In dark_class (root_classes after_mount_toggle) <-> truthy (Some false) = true.
Proof.
  apply (root_class_matches_theme [Mount; Toggle] (fresh_world Writable (Some true))).
  vm_compute. reflexivity.
Defined.

Lemma mount_follows_system_when_nothing_stored_witness :
  exists w', mount (fresh_world Writable (Some true)) = Running (Some true) w' /\
    get_item (store w') STORAGE_KEY = Some (Some (js "true")) /\
    (In dark_class (root_classes w') <-> true = true).
Proof.
  apply (mount_follows_system_when_nothing_stored _ true
           (stored_after (empty_storage Writable) (js "true"))); reflexivity.
Defined.

Definition mounted_dark : world web_storage :=
  world_of (mount (fresh_world Writable (Some true))).

Lemma toggle_flips_and_persists_witness :
  exists w', dm_step Toggle (Running (Some true) mounted_dark) = Running (Some false) w' /\
    get_item (store w') STORAGE_KEY = Some (Some (js "false")) /\
    dm_step (SystemChange true) (Running (Some false) w') = Running (Some false) (system_switch true w').
Proof.
  apply (toggle_flips_and_persists (Some true) mounted_dark
           (stored_after (store mounted_dark) (js "false")) true).
  reflexivity.
Defined.

Lemma mount_crashes_without_matchMedia_witness :
  exists w', mount (fresh_world Writable None) = Crashed w' /\
    get_item (store w') STORAGE_KEY = Some (Some (js "undefined")).
Proof.
  apply (mount_crashes_without_matchMedia _ (stored_after (empty_storage Writable) (js "undefined")));
    reflexivity.
Defined.

Lemma system_change_adopted_when_nothing_stored_witness :
  isDark_of (dm_step (SystemChange true) (Running (Some false) (fresh_world ReadOnly (Some false))))
  = Some (Some true).
Proof. apply system_change_adopted_when_nothing_stored. reflexivity. Defined.
