(* ===== verification/WeatherCard.v ===== *)
(** The card of WeatherCard.tsx: its four optional props with their
    defaults (lines 13-18: ["Delhi"], ["IN"], [34], [45], used when a prop
    is [undefined]), the temperature tier (lines 20-27), and the labels
    [`${Math.round(temp)}°C`] and the delta (lines 73-74, 122).  The
    number-to-text conversion is [Number::toString] on integral numbers
    below 10^21, which is all [Math.round] yields for a temperature.

    The tier and the label of every temperature [toCelsius] yields on the
    checked readings are those of the exact specification: the tier from
    the thresholds 35/25/15/5 on the exact tenths, the label from the
    exact tenths rounded half up.  The check runs over the tenths
    [-500 .. 600] those readings produce. *)

From Stdlib Require Import List Bool ZArith NArith String Lia Floats.SpecFloat.
From S2P Require Import Prelude JsString Binary64 JsValue UnitConverter WeatherInfo.
Import ListNotations.
#[local] Open Scope Z_scope.

Record card_props : Type := {
  p_city : jsval;
  p_country : jsval;
  p_temp : jsval;
  p_feels_like : jsval
}.

(** A default parameter value replaces [undefined] only. *)
Definition default_to (d v : jsval) : jsval :=
  match v with JUndefined => d | _ => v end.

Definition with_defaults (p : card_props) : card_props :=
  {| p_city := default_to (JString (js "Delhi")) (p_city p);
     p_country := default_to (JString (js "IN")) (p_country p);
     p_temp := default_to (JNumber (of_int 34)) (p_temp p);
     p_feels_like := default_to (JNumber (of_int 45)) (p_feels_like p) |}.

(** The props [App] passes (App.tsx lines 68-73). *)
Definition card_of_data (d : simpleWeather) : card_props :=
  {| p_city := city d; p_country := country d;
     p_temp := JNumber (temp d); p_feels_like := JNumber (feels_like d) |}.

Inductive tier : Type := TierHot | TierWarm | TierMild | TierCool | TierCold | TierNA.

(** Lines 22-26 on a number. *)
Definition tier_of_number (t : float) : tier :=
  if js_ge t (of_int 35) then TierHot
  else if js_ge t (of_int 25) then TierWarm
  else if js_ge t (of_int 15) then TierMild
  else if js_ge t (of_int 5) then TierCool
  else TierCold.

(** [Number::toString] on what [Math.round] returns: [NaN], the
    infinities, zero of either sign ("0") and integral numbers below 10^21
    in magnitude; [None] beyond, where the exponent notation starts. *)
Definition integral_to_string (x : float) : option jstr :=
  match x with
  | S754_nan => Some (js "NaN")
  | S754_infinity s => Some (if s then js "-Infinity" else js "Infinity")
  | S754_zero _ => Some (js "0")
  | S754_finite s _ _ =>
      match float_int_value x with
      | Some n =>
          if Z.abs n <? 10 ^ 21
          then Some ((if s then js "-" else []) ++ number_to_string_N (Z.to_N (Z.abs n)))
          else None
      | None => None
      end
  end.

(** The degree sign U+00B0 followed by "C". *)
Definition degrees_celsius : jstr := [176%N; 67%N].

Section Card.
Context `{JsEngine}.

(** Lines 20-27: [temp == null] holds for [null] and [undefined]; the
    comparisons [temp >= 35] convert [temp] to a number. *)
Definition card_tier (temp : jsval) : tier :=
  match temp with
  | JNull | JUndefined => TierNA
  | _ => tier_of_number (to_number temp)
  end.

(** Line 73: [temp != null ? `${Math.round(temp)}°C` : '--']. *)
Definition temp_label (temp : jsval) : option jstr :=
  match temp with
  | JNull | JUndefined => Some (js "--")
  | _ => option_map (fun s => s ++ degrees_celsius) (integral_to_string (js_round (to_number temp)))
  end.

(** Line 122: the delta [Math.round(feels_like - temp)] followed by the
    degree sign. *)
Definition delta_label (temp feels : jsval) : option jstr :=
  match temp, feels with
  | (JNull | JUndefined), _ | _, (JNull | JUndefined) => Some (js "--")
  | _, _ => option_map (fun s => s ++ [176%N])
              (integral_to_string (js_round (fsub (to_number feels) (to_number temp))))
  end.
End Card.

(** ** The markup of the card (lines 76-139) *)

(** What React renders for a JSX child [{v}]: a string or a number as
    text, nothing for a boolean, [null] or [undefined], the elements of an
    array one after the other; a plain object is not a valid child and
    throws ([None]), which unmounts the page (there is no error
    boundary). *)
Fixpoint render_child (v : jsval) : option (list piece) :=
  match v with
  | JString s => Some [PText s]
  | JNumber x => Some [PNum x]
  | JBool _ | JNull | JUndefined => Some []
  | JArray l =>
      (fix children (l : list jsval) : option (list piece) :=
         match l with
         | [] => Some []
         | x :: r => match render_child x, children r with
                     | Some a, Some b => Some (a ++ b)
                     | _, _ => None
                     end
         end) l
  | JObject _ => None
  end.

(** The text of the tier badge, [{tier}] (line 103). *)
Definition tier_name (t : tier) : jstr :=
  match t with
  | TierHot => js "hot" | TierWarm => js "warm" | TierMild => js "mild"
  | TierCool => js "cool" | TierCold => js "cold" | TierNA => js "na"
  end.

(** The colour class [cn] keeps for the badge (lines 95-101); none for
    ['na']. *)
Definition badge_class (t : tier) : option jstr :=
  match t with
  | TierHot => Some (js "text-amber-700 dark:text-amber-300")
  | TierWarm => Some (js "text-amber-600 dark:text-amber-300")
  | TierMild => Some (js "text-emerald-600 dark:text-emerald-300")
  | TierCool => Some (js "text-slate-600 dark:text-slate-300")
  | TierCold => Some (js "text-sky-600 dark:text-sky-300")
  | TierNA => None
  end.

(** The six SVG icons of lines 29-71, by what they draw. *)
Inductive icon_shape : Type :=
| IconSun | IconDisc | IconRing | IconAsterisk | IconArrow | IconMinusCircle.

Record icon : Type := {
  icon_shape_of : icon_shape;
  icon_color : jstr
}.

(** The [switch] of lines 31-70; ['na'] takes the [default] branch. *)
Definition icon_of_tier (t : tier) : icon :=
  match t with
  | TierHot => {| icon_shape_of := IconSun; icon_color := js "text-orange-500" |}
  | TierWarm => {| icon_shape_of := IconDisc; icon_color := js "text-amber-400" |}
  | TierMild => {| icon_shape_of := IconRing; icon_color := js "text-emerald-400" |}
  | TierCool => {| icon_shape_of := IconAsterisk; icon_color := js "text-sky-400" |}
  | TierCold => {| icon_shape_of := IconArrow; icon_color := js "text-blue-500" |}
  | TierNA => {| icon_shape_of := IconMinusCircle; icon_color := js "text-muted-foreground" |}
  end.

(** Line 84: [`Weather summary for ${city}${country ? ', ' + country : ''}`]. *)
Definition aria_label (city country : jsval) : list piece :=
  PText (js "Weather summary for ") :: to_string_pieces city ++
  (if js_truthy country then PText (js ", ") :: to_string_pieces country else []).

(** What the card shows. *)
Record card_view : Type := {
  cv_aria : list piece;
  cv_title : list piece;
  cv_country : list piece;
  cv_badge : option jstr;
  cv_tier_text : jstr;
  cv_icon : icon;
  cv_main : option jstr;
  cv_feels : option jstr;
  cv_delta : option jstr
}.

Section CardView.
Context `{JsEngine}.

(** The card for its props, after the defaults; [None] when rendering
    throws. *)
Definition render_card (p : card_props) : option card_view :=
  let q := with_defaults p in
  let t := card_tier (p_temp q) in
  match render_child (p_city q), render_child (p_country q) with
  | Some title, Some ctry =>
      Some {| cv_aria := aria_label (p_city q) (p_country q);
              cv_title := title; cv_country := ctry;
              cv_badge := badge_class t; cv_tier_text := tier_name t; cv_icon := icon_of_tier t;
              cv_main := temp_label (p_temp q); cv_feels := temp_label (p_feels_like q);
              cv_delta := delta_label (p_temp q) (p_feels_like q) |}
  | _, _ => None
  end.
End CardView.

(** ** Specification of the tier and the label on exact tenths *)

Definition tier_spec (tenths : Z) : tier :=
  if 350 <=? tenths then TierHot
  else if 250 <=? tenths then TierWarm
  else if 150 <=? tenths then TierMild
  else if 50 <=? tenths then TierCool
  else TierCold.

(** The decimal text of an integer, with a minus sign when negative. *)
Definition z_to_jstr (n : Z) : jstr :=
  (if n <? 0 then js "-" else []) ++ number_to_string_N (Z.to_N (Z.abs n)).

(** [tenths / 10] rounded half up, then the degree label. *)
Definition label_spec (tenths : Z) : jstr := z_to_jstr ((tenths + 5) / 10) ++ degrees_celsius.

Definition card_agrees (n : Z) : bool :=
  let x := fdiv (of_int n) ten in
  match tier_of_number x, tier_spec n with
  | TierHot, TierHot | TierWarm, TierWarm | TierMild, TierMild
  | TierCool, TierCool | TierCold, TierCold => true
  | _, _ => false
  end
  && match integral_to_string (js_round x) with
     | Some s => jstr_eqb (s ++ degrees_celsius) (label_spec n)
     | None => false
     end.

Lemma card_agrees_on_range : forall_range card_agrees (-500) (Z.to_nat 1101) = true.
Proof. vm_compute. reflexivity. Qed.

Lemma card_agrees_spec (n : Z) :
  card_agrees n = true ->
  tier_of_number (fdiv (of_int n) ten) = tier_spec n /\
  option_map (fun s => s ++ degrees_celsius) (integral_to_string (js_round (fdiv (of_int n) ten)))
  = Some (label_spec n).
Proof.
  unfold card_agrees. intros Hc. apply andb_prop in Hc as [Ht Hl].
  split.
  - destruct (tier_of_number _), (tier_spec n); try discriminate; reflexivity.
  - destruct (integral_to_string _) as [s|]; [|discriminate].
    apply jstr_eqb_eq in Hl. simpl. rewrite Hl. reflexivity.
Qed.

(** ** Properties *)

Section CardProperties.
Context `{JsEngine}.

(** C11: For every checked reading, the card shows the tier and the rounded
    label the exact specification gives: thresholds 35/25/15/5 on the
    exact value, and the exact tenths rounded half up (so 26.85 degrees
    shows "27°C", and the [-0] of 273.10 K shows "0°C"). *)
Theorem card_refines_spec (p : Z) :
  coldest <= p <= coldest + 11000 ->
  card_tier (JNumber (toCelsius (reading p))) = tier_spec (celsius_tenths p) /\
  temp_label (JNumber (toCelsius (reading p))) = Some (label_spec (celsius_tenths p)).
Proof.
  intros Hp. cbn [card_tier temp_label to_number].
  rewrite toCelsius_reading by exact Hp.
  destruct (negative_zero_reading p) eqn:Hz.
  - unfold negative_zero_reading in Hz. apply andb_prop in Hz as [H1 H2].
    apply Z.leb_le in H1. apply Z.leb_le in H2.
    replace (celsius_tenths p) with 0 by (unfold celsius_tenths; nlia).
    vm_compute. split; reflexivity.
  - apply card_agrees_spec, (forall_range_spec _ _ _ card_agrees_on_range).
    pose proof (celsius_tenths_range p Hp). lia.
Qed.

(** A temperature that is [NaN] (a reply without [main.temp]) is shown
    as "NaN°C" in the tier "cold": every comparison with [NaN] is
    false. *)
Theorem card_NaN_is_cold :
  card_tier (JNumber NaN) = TierCold /\
  temp_label (JNumber NaN) = Some (js "NaN" ++ degrees_celsius).
Proof. split; reflexivity. Qed.

(** A reply without [name] or [sys.country] gives [undefined], which the
    card's default parameters replace: it is titled "Delhi", "IN". *)
Theorem card_missing_name_shows_default (d : simpleWeather) :
  city d = JUndefined -> country d = JUndefined ->
  p_city (with_defaults (card_of_data d)) = JString (js "Delhi") /\
  p_country (with_defaults (card_of_data d)) = JString (js "IN").
Proof. intros Hc Hn. unfold with_defaults, card_of_data; simpl. rewrite Hc, Hn. split; reflexivity. Qed.
End CardProperties.

Lemma card_refines_spec_witness :
  card_tier (JNumber (toCelsius (reading 28815))) = tier_spec (celsius_tenths 28815) /\
  temp_label (JNumber (toCelsius (reading 28815))) = Some (label_spec (celsius_tenths 28815)).
Proof. apply card_refines_spec. unfold coldest. lia. Defined.

