(* ===== verification/App.v ===== *)
(** The page of App.tsx with its form (SearchForm.tsx): the text of the
    input ([country], App.tsx line 12), [handleSearch] (lines 15-17), which
    calls the hook on the trimmed text, the form's submit handler and the
    disabled states (SearchForm.tsx lines 19-22, 33, 37), and the panels
    the page shows for a state of the hook (App.tsx lines 37-81).

    The UI relation [ui_step] lets the user type while the input is
    enabled, submit while the button is enabled (an implicit submission by
    the Enter key does nothing when the form's submit button is disabled),
    and the promises settle.  Every UI run is a run of the guarded session
    of SearchSession ([ui_refines_guarded]); hence its invariant holds and
    the page always shows exactly one panel. *)

From Stdlib Require Import List Bool ZArith NArith String Lia.
From S2P Require Import Prelude JsString Binary64 JsValue UriEncode WeatherInfo SearchSession WeatherCard.
Import ListNotations.

(** SearchForm.tsx line 37: [disabled={loading || !country.trim()}]. *)
Definition submit_enabled (loading : bool) (country : jstr) : bool :=
  negb loading && negb (str_falsy (trim country)).

(** What [App] renders below the header. *)
Inductive panel : Type :=
| ErrorPanel (message : jstr)
| Skeleton
| CardPanel (props : card_props)
| Hint.

(** Lines 37-41, 44, 66 and 77: [error && ...], [loading && ...],
    [!loading && data && ...], [!loading && !data && !error && ...]. *)
Definition app_view (s : hook_state) : list panel :=
  (match error s with
   | Some msg => if str_falsy msg then [] else [ErrorPanel msg]
   | None => []
   end) ++
  (if loading s then [Skeleton] else []) ++
  (if loading s then []
   else match data s with Some d => [CardPanel (card_of_data d)] | None => [] end) ++
  (if loading s then []
   else match data s, error s with
        | None, None => [Hint]
        | None, Some msg => if str_falsy msg then [Hint] else []
        | Some _, _ => []
        end).

Record ui : Type := {
  session_of : session;
  input : jstr
}.

Definition ui_init : ui := {| session_of := session_init; input := [] |}.

Section App.
Context `{JsEngine}.

(** Lines 15-17. *)
Definition handleSearch (key : option jstr) (country : jstr) (s : hook_state)
  : hook_state * option pending :=
  fetchWeatherData key (trim country) s.

Inductive ui_step : ui -> ui -> Prop :=
| UiType (u : ui) (text : jstr) :
    loading (hook (session_of u)) = false ->
    ui_step u {| session_of := session_of u; input := text |}
| UiSubmit (u : ui) (key : option jstr) (s' : hook_state) (p : option pending) :
    submit_enabled (loading (hook (session_of u))) (input u) = true ->
    handleSearch key (input u) (hook (session_of u)) = (s', p) ->
    ui_step u {| session_of := submitted (session_of u) s' p; input := input u |}
| UiSettle (u : ui) (ss' : session) :
    settle_step (session_of u) ss' ->
    ui_step u {| session_of := ss'; input := input u |}.
End App.

(** ** Properties *)

Section AppProperties.
Context `{JsEngine}.

(** One step of the page is a step of the guarded session, or leaves the
    session alone (typing). *)
Lemma ui_step_guarded (u u' : ui) :
  ui_step u u' ->
  guarded_step (session_of u) (session_of u') \/ session_of u' = session_of u.
Proof.
  intros Hs. inversion Hs as [u0 text Hl|u0 key s' p Hen Hh|u0 ss' Hst]; subst; simpl;
    [right; reflexivity| |left; apply GuardedSettle; exact Hst].
  left. unfold submit_enabled in Hen. apply andb_prop in Hen as [Hl Hb].
  apply negb_true_iff in Hl, Hb. rewrite str_falsy_trim in Hb.
  apply (GuardedSubmit _ key (trim (input u))); [exact Hl|rewrite forallb_trim; exact Hb|exact Hh].
Qed.

Lemma ui_run_guarded (u u' : ui) :
  star ui_step u u' -> star guarded_step (session_of u) (session_of u').
Proof.
  induction 1 as [|a b c Hab _ IH]; [apply star_refl|].
  destruct (ui_step_guarded a b Hab) as [Hg|Heq];
    [eapply star_step; eauto|rewrite <- Heq; exact IH].
Qed.

(** C16: The page is a refinement of the guarded session: every run of the
    page drives the hook through a run where no call starts while
    [loading] and every call has a city that is not blank. *)
Theorem ui_refines_guarded (u : ui) :
  star ui_step ui_init u -> star guarded_step session_init (session_of u).
Proof. apply ui_run_guarded. Qed.

(** C17: The page always shows exactly one panel: the skeleton while loading,
    else the card, the error, or the hint (an error whose message is
    empty shows the hint, as if nothing had been searched). *)
Theorem app_single_panel (u : ui) :
  star ui_step ui_init u -> exists pnl, app_view (hook (session_of u)) = [pnl].
Proof.
  intros Hrun. destruct (guarded_run_sequential _ (ui_run_guarded _ _ Hrun))
    as [(_ & Hl & [Hd|He])|(x & _ & ->)]; [| |eexists; reflexivity];
    destruct (hook (session_of u)) as [l d e]; simpl in *; subst; unfold app_view; simpl.
  - destruct e as [msg|]; [destruct (str_falsy msg)|]; eexists; reflexivity.
  - destruct d; eexists; reflexivity.
Qed.

(** C18: Through the page, every request names a city that is trimmed and not
    blank (the hook alone would send the surrounding spaces of
    ["  London "]). *)
Theorem app_requests_trimmed (u : ui) :
  star ui_step ui_init u ->
  Forall (fun url => exists k c enc, url = request_url enc k /\ trim c = c /\
            forallb is_js_whitespace c = false /\ encodeURIComponent c = inr enc)
         (requests (session_of u)).
Proof.
  intros Hrun.
  refine (star_invariant _ (fun u => Forall _ (requests (session_of u))) _ _ _ Hrun (Forall_nil _)).
  intros a b Hinv Hs.
  inversion Hs as [u0 text Hl|u0 key s' p Hen Hh|u0 ss' Hst]; subst; simpl;
    [exact Hinv| |inv Hst; exact Hinv].
  unfold submitted; simpl. unfold handleSearch in Hh.
  apply fetchWeatherData_shape in Hh
    as [(-> & _)|[(-> & _)|(k & enc & _ & _ & He & -> & Hb & _)]]; simpl; [exact Hinv|exact Hinv|].
  constructor; [|exact Hinv]. exists k, (trim (input a)), enc.
  repeat split; [apply trim_idem|exact Hb|exact He].
Qed.
End AppProperties.

(** ** The theorems at concrete inputs *)

(** The user types " Paris " and presses the button. *)
Definition typed_paris : ui := {| session_of := session_init; input := js " Paris " |}.
Definition submitted_paris : ui :=
  {| session_of := submitted session_init {| loading := true; data := None; error := None |}
                     (Some (AwaitingFetch (request_url (js "Paris") (js "K"))));
     input := js " Paris " |}.

Lemma submitted_paris_reachable : star ui_step ui_init submitted_paris.
Proof.
  eapply star_step; [apply (UiType ui_init (js " Paris ")); reflexivity|].
  apply star_one. apply (UiSubmit typed_paris (Some (js "K"))); vm_compute; reflexivity.
Qed.

Lemma ui_refines_guarded_witness :
  star guarded_step session_init (session_of submitted_paris).
Proof. apply ui_refines_guarded. exact submitted_paris_reachable. Defined.

Lemma app_single_panel_witness : exists pnl, app_view (hook (session_of submitted_paris)) = [pnl].
Proof. apply app_single_panel. exact submitted_paris_reachable. Defined.

Lemma app_requests_trimmed_witness :
  Forall (fun url => exists k c enc, url = request_url enc k /\ trim c = c /\
            forallb is_js_whitespace c = false /\ encodeURIComponent c = inr enc)
         (requests (session_of submitted_paris)).
Proof. apply app_requests_trimmed. exact submitted_paris_reachable. Defined.
