(* ===== verification/PageView.v ===== *)
(** What the page shows: the markup [App] renders (App.tsx lines 19-105)
    with the search form (SearchForm.tsx lines 24-55), the error alert
    (ErrorMessage.tsx lines 9-16), the card (WeatherCard.v) and the theme
    button (App.tsx lines 88-102), as a function of the hook's state, the
    text of the input and the theme flag of [useDarkMode].  Rendering
    fails ([None]) when React throws, which unmounts the whole page since
    no error boundary is installed.

    The theorems: the panel shown is the one a reference selection picks
    (skeleton, card, error, hint, in that order) on every state the page
    can reach; a provider reply whose [name] is an object crashes the page
    once the search has succeeded; the theme button always announces the
    theme opposite to the class on the root element; a reply whose
    temperatures are two-decimal strings renders the page of the numeric
    reply, on every engine whose StringToNumber follows [JsNumber]; for
    every city, key, earlier state and reply, a status that is not ok shows
    exactly the alert with its message, a success shows exactly one card
    with the reply's name, country and converted temperatures, and a reply
    without [main.temp] shows a "NaN°C" card in the tier "cold". *)

From Stdlib Require Import List Bool ZArith NArith String Lia Floats.SpecFloat.
From S2P Require Import Prelude JsString Binary64 JsNumber JsValue UnitConverter UriEncode WeatherInfo SearchSession WebStorage DarkMode WeatherCard App.
Import ListNotations.

Inductive theme_icon : Type := SunIcon | MoonIcon.

(** The fixed button of lines 88-102. *)
Record theme_button : Type := {
  tb_aria : jstr;
  tb_icon : theme_icon;
  tb_sr_text : jstr
}.

Definition theme_button_of (isDark : bool) : theme_button :=
  if isDark
  then {| tb_aria := js "Switch to light mode"; tb_icon := SunIcon; tb_sr_text := js "Light mode" |}
  else {| tb_aria := js "Switch to dark mode"; tb_icon := MoonIcon; tb_sr_text := js "Dark mode" |}.

(** The form of SearchForm.tsx: the input (lines 27-34), the button
    (lines 35-52) with its wide and narrow labels and the spinner. *)
Record form_view : Type := {
  fv_value : jstr;
  fv_input_disabled : bool;
  fv_button_disabled : bool;
  fv_spinner : bool;
  fv_label_wide : jstr;
  fv_label_narrow : jstr
}.

Definition form_of (loading : bool) (country : jstr) : form_view :=
  {| fv_value := country; fv_input_disabled := loading;
     fv_button_disabled := negb (submit_enabled loading country);
     fv_spinner := loading;
     fv_label_wide := if loading then js "Searching..." else js "Search";
     fv_label_narrow := if loading then js "Loading" else js "Search" |}.

(** ErrorMessage.tsx: a destructive alert with the message. *)
Inductive alert_variant : Type := Destructive.

Record alert_view : Type := {
  alert_variant_of : alert_variant;
  alert_text : jstr
}.

Definition ErrorMessage (message : jstr) : alert_view :=
  {| alert_variant_of := Destructive; alert_text := message |}.

Inductive panel_view : Type :=
| AlertView (a : alert_view)
| SkeletonView
| CardView (c : card_view)
| HintView.

Record page_view : Type := {
  pv_form : form_view;
  pv_panels : list panel_view;
  pv_theme : theme_button
}.

(** Every element of a list, or the first failure. *)
Fixpoint all_some {A : Type} (l : list (option A)) : option (list A) :=
  match l with
  | [] => Some []
  | Some x :: r => option_map (cons x) (all_some r)
  | None :: _ => None
  end.

Section Render.
Context `{JsEngine}.

Definition render_panel (p : panel) : option panel_view :=
  match p with
  | ErrorPanel msg => Some (AlertView (ErrorMessage msg))
  | Skeleton => Some SkeletonView
  | CardPanel props => option_map CardView (render_card props)
  | Hint => Some HintView
  end.

(** [App] for the hook's state [s], the input text [country] and the
    theme flag [isDark]. *)
Definition render_page (isDark : bool) (country : jstr) (s : hook_state) : option page_view :=
  match all_some (map render_panel (app_view s)) with
  | Some panels =>
      Some {| pv_form := form_of (loading s) country; pv_panels := panels;
              pv_theme := theme_button_of isDark |}
  | None => None
  end.
End Render.

(** The panel the spec's description of the page selects: the skeleton
    while loading, else the card, else the error, else the hint. *)
Definition reference_panel (s : hook_state) : panel :=
  if loading s then Skeleton
  else match data s, error s with
       | Some d, _ => CardPanel (card_of_data d)
       | None, Some msg => if str_falsy msg then Hint else ErrorPanel msg
       | None, None => Hint
       end.

(** A reply of the provider whose temperatures are strings with two
    decimals, [p/100] and [q/100] kelvin. *)
Definition provider_text_json (name ctry : jstr) (p q : N) : jsval :=
  JObject [(js "name", JString name);
           (js "sys", JObject [(js "country", JString ctry)]);
           (js "main", JObject [(js "temp", JString (two_decimal_text p));
                                (js "feels_like", JString (two_decimal_text q))])].

(** A reply of the provider without [main.temp]. *)
Definition reply_without_temp (name ctry : jstr) (fl : float) : jsval :=
  JObject [(js "name", JString name);
           (js "sys", JObject [(js "country", JString ctry)]);
           (js "main", JObject [(js "feels_like", JNumber fl)])].

(** ** Lemmas *)

(** Every message of a failed status is a non-empty string, so [App]
    shows it. *)
Lemma status_message_shown (status : N) : str_falsy (status_message status) = false.
Proof. unfold status_message. destruct (status =? 404)%N, (status =? 401)%N, (status =? 429)%N; reflexivity. Qed.

Lemma fsub_NaN_r (x : float) : fsub x NaN = NaN.
Proof. destruct x; reflexivity. Qed.

Lemma process_data_members `{JsEngine} (n c : jstr) (t fl : jsval) :
  process_data (JObject [(js "name", JString n); (js "sys", JObject [(js "country", JString c)]);
                         (js "main", JObject [(js "temp", t); (js "feels_like", fl)])]) =
  inr (Build_simpleWeather (JString n) (JString c) (toCelsius (to_number t)) (toCelsius (to_number fl))).
Proof. reflexivity. Qed.

Lemma process_data_text `{JsEngineLaws} (n c : jstr) (p q : N) :
  (p < 2 ^ 53)%N -> (q < 2 ^ 53)%N ->
  process_data (provider_text_json n c p q) =
  process_data (provider_json n c (reading (Z.of_N p)) (reading (Z.of_N q))).
Proof.
  intros Hp Hq. unfold provider_text_json, provider_json. rewrite !process_data_members.
  rewrite !to_number_two_decimal_text by assumption. reflexivity.
Qed.

(** A search that issues its request and gets an ok status continues with
    the reply from the reset state. *)
Lemma run_search_ok `{JsEngine} (k city enc : jstr) (status : N) (jr : json_result) (s : hook_state) :
  forallb is_js_whitespace city = false -> str_falsy k = false -> encodeURIComponent city = inr enc ->
  response_ok status = true ->
  run_search (Some k) city (FetchResolved status) jr s =
  fst (resume_json jr {| loading := true; data := None; error := None |}).
Proof.
  intros Hb Hk He Hok. unfold run_search. rewrite (fetchWeatherData_issues_request k city enc s Hb Hk He).
  unfold resume_fetch. rewrite Hok. reflexivity.
Qed.

Lemma all_some_none {A : Type} (l : list (option A)) : In None l -> all_some l = None.
Proof.
  induction l as [|[x|] l IH]; simpl; [contradiction| |reflexivity].
  intros [Hx|Hin]; [discriminate|rewrite (IH Hin); reflexivity].
Qed.

(** The panels of a consistent state: not both [data] and [error] when
    idle, neither while loading. *)
Lemma app_view_reference (s : hook_state) :
  (loading s = true -> data s = None /\ error s = None) ->
  (data s = None \/ error s = None) ->
  app_view s = [reference_panel s].
Proof.
  destruct s as [[] d e]; unfold app_view, reference_panel; simpl; intros Hl Hde.
  - destruct (Hl eq_refl) as [-> ->]. reflexivity.
  - destruct d as [d|], e as [m|]; [destruct Hde; discriminate| |destruct (str_falsy m)|];
      reflexivity.
Qed.

(** A card whose title is an object cannot be rendered. *)
Lemma render_card_object `{JsEngine} (d : simpleWeather) (fs : list (jstr * jsval)) :
  city d = JObject fs -> render_card (card_of_data d) = None.
Proof. intros Hc. unfold render_card, card_of_data, with_defaults. simpl. rewrite Hc. reflexivity. Qed.

(** ** Properties *)

Section PageProperties.
Context `{JsEngine}.

(** C36: On every state the page can reach, [App] shows exactly the panel
    of the reference selection: the skeleton while loading, otherwise the
    card when there is data, otherwise the error when its message is not
    empty, otherwise the hint. *)
Theorem page_panel_is_reference (u : ui) :
  star ui_step ui_init u ->
  app_view (hook (session_of u)) = [reference_panel (hook (session_of u))].
Proof.
  intros Hrun. apply app_view_reference;
    destruct (guarded_run_sequential _ (ui_run_guarded _ _ Hrun)) as [(_ & Hl & Hde)|(x & _ & ->)];
    auto; rewrite Hl; discriminate.
Qed.

(** C37: The type [weatherStats] the handler ascribes to the reply is not
    checked: a reply whose [name] is an object (with the other members
    in place) is accepted as data, and then rendering the card throws
    ("Objects are not valid as a React child"), so the page unmounts:
    a crash, where spec 7 says every failure ends in a displayable
    state. *)
Theorem object_name_crashes_page (fields sys_fields main_fields fs : list (jstr * jsval))
  (ctry : jsval) (t fl : float) (s : hook_state) (isDark : bool) (country : jstr) :
  assoc_last (js "name") fields = Some (JObject fs) ->
  assoc_last (js "sys") fields = Some (JObject sys_fields) ->
  assoc_last (js "country") sys_fields = Some ctry ->
  assoc_last (js "main") fields = Some (JObject main_fields) ->
  assoc_last (js "temp") main_fields = Some (JNumber t) ->
  assoc_last (js "feels_like") main_fields = Some (JNumber fl) ->
  resume_json (JsonResolved (JObject fields)) s =
    ({| loading := false; error := error s;
        data := Some (Build_simpleWeather (JObject fs) ctry (toCelsius t) (toCelsius fl)) |}, None) /\
  render_page isDark country (fst (resume_json (JsonResolved (JObject fields)) s)) = None.
Proof.
  intros Hn Hs Hc Hm Ht Hf.
  assert (E : resume_json (JsonResolved (JObject fields)) s =
    ({| loading := false; error := error s;
        data := Some (Build_simpleWeather (JObject fs) ctry (toCelsius t) (toCelsius fl)) |}, None))
    by (unfold resume_json; rewrite (process_data_fields _ sys_fields main_fields (JObject fs) ctry t fl); auto).
  split; [exact E|]. rewrite E. unfold render_page, app_view. simpl.
  rewrite all_some_none; [reflexivity|].
  apply in_map_iff. exists (CardPanel (card_of_data (Build_simpleWeather (JObject fs) ctry
                                                      (toCelsius t) (toCelsius fl)))).
  split; [unfold render_panel; rewrite (render_card_object _ fs); reflexivity|].
  destruct (error s) as [m|]; [destruct (str_falsy m)|]; simpl; auto.
Qed.
(** C8: A search whose request is answered with a status that is not ok
    ends, whatever the earlier state (a previous city's card included),
    with a page showing exactly one panel, the destructive alert with the
    status's message, and the search form enabled again, whatever the
    reply's body. *)
Theorem search_status_error_page (k city enc : jstr) (status : N) (jr : json_result) (s : hook_state)
  (isDark : bool) (input : jstr) :
  forallb is_js_whitespace city = false -> str_falsy k = false -> encodeURIComponent city = inr enc ->
  response_ok status = false ->
  render_page isDark input (run_search (Some k) city (FetchResolved status) jr s) =
  Some {| pv_form := form_of false input;
          pv_panels := [AlertView {| alert_variant_of := Destructive; alert_text := status_message status |}];
          pv_theme := theme_button_of isDark |}.
Proof.
  intros Hb Hk He Hok. unfold run_search. rewrite (fetchWeatherData_issues_request k city enc s Hb Hk He).
  unfold resume_fetch. rewrite Hok, settle_threw. unfold render_page, app_view. cbn.
  rewrite status_message_shown. reflexivity.
Qed.

(** C39: A search that succeeds (spec 8's London scenario, for every city,
    key, ok status, earlier state and reply with string [name] and
    [sys.country] and numeric temperatures) ends with a page showing
    exactly one panel, the card, titled with the reply's [name] and
    [country], whose main and "feels like" labels are those of the
    converted temperatures and whose tier is that of [temp]; the form is
    enabled again. *)
Theorem search_success_page (k city enc name ctry : jstr) (t fl : float) (status : N) (s : hook_state)
  (isDark : bool) (input : jstr) :
  forallb is_js_whitespace city = false -> str_falsy k = false -> encodeURIComponent city = inr enc ->
  response_ok status = true ->
  exists cv,
    render_page isDark input
      (run_search (Some k) city (FetchResolved status) (JsonResolved (provider_json name ctry t fl)) s) =
    Some {| pv_form := form_of false input; pv_panels := [CardView cv]; pv_theme := theme_button_of isDark |} /\
    cv_title cv = [PText name] /\ cv_country cv = [PText ctry] /\
    cv_main cv = temp_label (JNumber (toCelsius t)) /\ cv_feels cv = temp_label (JNumber (toCelsius fl)) /\
    cv_tier_text cv = tier_name (card_tier (JNumber (toCelsius t))).
Proof.
  intros Hb Hk He Hok. rewrite (run_search_ok k city enc status _ s Hb Hk He Hok).
  unfold resume_json, provider_json. rewrite process_data_members.
  eexists. split; [reflexivity|]. repeat split.
Qed.

(** C31: A successful search whose reply lacks [main.temp] is shown as a
    found city: one card whose temperature reads "NaN°C" in the tier
    "cold", with the delta "NaN°", not as an error (spec 7 expects a
    failure to end in an error message). *)
Theorem missing_temp_page (k city enc name ctry : jstr) (fl : float) (status : N) (s : hook_state)
  (isDark : bool) (input : jstr) :
  forallb is_js_whitespace city = false -> str_falsy k = false -> encodeURIComponent city = inr enc ->
  response_ok status = true ->
  exists cv,
    render_page isDark input
      (run_search (Some k) city (FetchResolved status) (JsonResolved (reply_without_temp name ctry fl)) s) =
    Some {| pv_form := form_of false input; pv_panels := [CardView cv]; pv_theme := theme_button_of isDark |} /\
    cv_main cv = Some (js "NaN" ++ degrees_celsius) /\ cv_tier_text cv = js "cold" /\
    cv_delta cv = Some (js "NaN" ++ [176%N]).
Proof.
  intros Hb Hk He Hok. rewrite (run_search_ok k city enc status _ s Hb Hk He Hok).
  unfold resume_json, reply_without_temp.
  eexists. split; [reflexivity|]. repeat split.
  cbn -[fsub toCelsius]. rewrite fsub_NaN_r. reflexivity.
Qed.
End PageProperties.

Section Theme.
Context {S : Type} `{Storage S}.

(** C38: The theme button of [App] and the class of [useDarkMode] agree
    whatever happens (toggles, system changes, writes of other tabs):
    while the root carries the [dark] class the button shows the sun and
    offers "Switch to light mode", and otherwise the moon and "Switch to
    dark mode" ([isDark] is read as a boolean, so [undefined] counts as
    light). *)
Theorem theme_button_matches_root (evs : list dm_event) (w w' : world S) (d : option bool) :
  dm_run evs (Unmounted w) = Running d w' ->
  (tb_aria (theme_button_of (truthy d)) = js "Switch to light mode" <->
   In dark_class (root_classes w')) /\
  (tb_icon (theme_button_of (truthy d)) = SunIcon <-> In dark_class (root_classes w')).
Proof.
  intros Hrun. pose proof (class_inv_run evs (Unmounted w) I) as Hinv.
  rewrite Hrun in Hinv. simpl in Hinv. rewrite Hinv.
  destruct (truthy d); simpl; split; split; (discriminate || reflexivity || auto).
Qed.
End Theme.

Section StringReply.
Context `{JsEngineLaws}.

(** C29: A reply whose temperatures are strings (["288.15"]) rather than
    numbers is not a different case for the user: after any search whose
    JSON is such a reply, the page is the one the numeric reply gives, on
    every engine that follows StringToNumber, because the subtraction of
    [toCelsius] converts the strings to the same numbers. *)
Theorem string_reply_same_page (key : option jstr) (city : jstr) (fr : fetch_result)
  (n c : jstr) (p q : N) (s : hook_state) (isDark : bool) (input : jstr) :
  (p < 2 ^ 53)%N -> (q < 2 ^ 53)%N ->
  render_page isDark input (run_search key city fr (JsonResolved (provider_text_json n c p q)) s) =
  render_page isDark input
    (run_search key city fr (JsonResolved (provider_json n c (reading (Z.of_N p)) (reading (Z.of_N q)))) s).
Proof.
  intros Hp Hq. unfold run_search, resume_json. rewrite process_data_text by assumption. reflexivity.
Qed.
End StringReply.


(** ** The theorems at concrete inputs *)

Lemma page_panel_is_reference_witness :
  app_view (hook (session_of submitted_paris)) = [reference_panel (hook (session_of submitted_paris))].
Proof. apply page_panel_is_reference. exact submitted_paris_reachable. Defined.

(** A reply whose [name] is [{}]. *)
Definition object_name_reply : list (jstr * jsval) :=
  [(js "name", JObject []);
   (js "sys", JObject [(js "country", JString (js "GB"))]);
   (js "main", JObject [(js "temp", JNumber (reading 28815)); (js "feels_like", JNumber (reading 28700))])].

Lemma object_name_crashes_page_witness :
  resume_json (JsonResolved (JObject object_name_reply)) (fst (try_start (Some (js "K")) (js "London") initial_state)) =
    ({| loading := false; error := None;
        data := Some (Build_simpleWeather (JObject []) (JString (js "GB"))
                        (toCelsius (reading 28815)) (toCelsius (reading 28700))) |}, None) /\
  render_page false (js "London")
    (fst (resume_json (JsonResolved (JObject object_name_reply))
            (fst (try_start (Some (js "K")) (js "London") initial_state)))) = None.
Proof.
  apply (object_name_crashes_page object_name_reply [(js "country", JString (js "GB"))]
           [(js "temp", JNumber (reading 28815)); (js "feels_like", JNumber (reading 28700))]);
    reflexivity.
Defined.

Lemma theme_button_matches_root_witness :
  (tb_aria (theme_button_of (truthy (Some false))) = js "Switch to light mode" <->
   In dark_class (root_classes after_mount_toggle)) /\
  (tb_icon (theme_button_of (truthy (Some false))) = SunIcon <->
   In dark_class (root_classes after_mount_toggle)).
Proof.
  apply (theme_button_matches_root [Mount; Toggle] (fresh_world Writable (Some true))).
  vm_compute. reflexivity.
Defined.

(** London's reply with the readings sent as ["288.15"] and ["287.00"]. *)
Lemma string_reply_same_page_witness :
  ((28815 < 2 ^ 53)%N /\ (28700 < 2 ^ 53)%N) /\
  render_page false (js "London")
    (run_search (Some (js "APIKEY")) (js "London") (FetchResolved 200)
       (JsonResolved (provider_text_json (js "London") (js "GB") 28815 28700)) initial_state) =
  render_page false (js "London")
    (run_search (Some (js "APIKEY")) (js "London") (FetchResolved 200)
       (JsonResolved (provider_json (js "London") (js "GB") (reading 28815) (reading 28700))) initial_state).
Proof.
  assert (H : (28815 < 2 ^ 53)%N /\ (28700 < 2 ^ 53)%N) by (split; reflexivity).
  split; [exact H|]. exact (string_reply_same_page _ _ _ _ _ _ _ _ _ _ (proj1 H) (proj2 H)).
Defined.

(** London answered with 404. *)
Lemma search_status_error_page_witness :
  (forallb is_js_whitespace (js "London") = false /\ str_falsy (js "APIKEY") = false /\
   encodeURIComponent (js "London") = inr (js "London") /\ response_ok 404 = false) /\
  render_page false (js "London")
    (run_search (Some (js "APIKEY")) (js "London") (FetchResolved 404) (JsonRejected (OtherThrown JNull))
       initial_state) =
  Some {| pv_form := form_of false (js "London");
          pv_panels := [AlertView {| alert_variant_of := Destructive; alert_text := js "City not found" |}];
          pv_theme := theme_button_of false |}.
Proof.
  assert (H : forallb is_js_whitespace (js "London") = false /\ str_falsy (js "APIKEY") = false /\
              encodeURIComponent (js "London") = inr (js "London") /\ response_ok 404 = false)
    by (vm_compute; repeat split).
  split; [exact H|]. destruct H as (Hb & Hk & He & Hok).
  exact (search_status_error_page _ _ _ 404 (JsonRejected (OtherThrown JNull)) initial_state false (js "London")
           Hb Hk He Hok).
Defined.

(** Spec 8's London scenario: 288.15 K, feeling 287.00 K, status 200. *)
Lemma search_success_page_witness :
  (forallb is_js_whitespace (js "London") = false /\ str_falsy (js "APIKEY") = false /\
   encodeURIComponent (js "London") = inr (js "London") /\ response_ok 200 = true) /\
  exists cv,
    render_page false (js "London")
      (run_search (Some (js "APIKEY")) (js "London") (FetchResolved 200)
         (JsonResolved (provider_json (js "London") (js "GB") (reading 28815) (reading 28700))) initial_state) =
    Some {| pv_form := form_of false (js "London"); pv_panels := [CardView cv];
            pv_theme := theme_button_of false |} /\
    cv_title cv = [PText (js "London")] /\ cv_country cv = [PText (js "GB")] /\
    cv_main cv = temp_label (JNumber (toCelsius (reading 28815))) /\
    cv_feels cv = temp_label (JNumber (toCelsius (reading 28700))) /\
    cv_tier_text cv = tier_name (card_tier (JNumber (toCelsius (reading 28815)))).
Proof.
  assert (H : forallb is_js_whitespace (js "London") = false /\ str_falsy (js "APIKEY") = false /\
              encodeURIComponent (js "London") = inr (js "London") /\ response_ok 200 = true)
    by (vm_compute; repeat split).
  split; [exact H|]. destruct H as (Hb & Hk & He & Hok).
  exact (search_success_page _ _ _ _ _ _ _ 200 initial_state false (js "London") Hb Hk He Hok).
Defined.

(** Oslo's reply without [main.temp]. *)
Lemma missing_temp_page_witness :
  (forallb is_js_whitespace (js "Oslo") = false /\ str_falsy (js "APIKEY") = false /\
   encodeURIComponent (js "Oslo") = inr (js "Oslo") /\ response_ok 200 = true) /\
  exists cv,
    render_page false (js "Oslo")
      (run_search (Some (js "APIKEY")) (js "Oslo") (FetchResolved 200)
         (JsonResolved (reply_without_temp (js "Oslo") (js "NO") (reading 27000))) initial_state) =
    Some {| pv_form := form_of false (js "Oslo"); pv_panels := [CardView cv];
            pv_theme := theme_button_of false |} /\
    cv_main cv = Some (js "NaN" ++ degrees_celsius) /\ cv_tier_text cv = js "cold" /\
    cv_delta cv = Some (js "NaN" ++ [176%N]).
Proof.
  assert (H : forallb is_js_whitespace (js "Oslo") = false /\ str_falsy (js "APIKEY") = false /\
              encodeURIComponent (js "Oslo") = inr (js "Oslo") /\ response_ok 200 = true)
    by (vm_compute; repeat split).
  split; [exact H|]. destruct H as (Hb & Hk & He & Hok).
  exact (missing_temp_page _ _ _ _ _ _ 200 initial_state false (js "Oslo") Hb Hk He Hok).
Defined.
